(** * Training-loop orchestration of ai-toolkit: scheduling, checkpoints, losses

    A shallow embedding of [jobs/process/BaseSDTrainProcess.py] and
    [jobs/process/TrainVAEProcess.py].  Python integers are [Z], floats are
    idealised as exact rationals [Q], [None]-able values are [option],
    dictionaries are association lists in insertion order, the save directory
    is a listing of file records, and the side effects a run performs are
    collected in a trace of events. *)

From Stdlib Require Import ZArith QArith List String Ascii Lia Bool.
From Stdlib Require Import Numbers.DecimalString.
From Stdlib Require Import Sorting.Permutation Sorting.Sorted.
Import ListNotations.

Open Scope Z_scope.

(** ** Python primitives used by the two trainers *)

Module Py.

(** Truth value of an optional integer in a condition: [None] and [0] are
    falsy. *)
Definition truthy (i : option Z) : bool :=
  match i with
  | None => false
  | Some n => negb (n =? 0)
  end.

(** [str(n)] for an integer. *)
Definition str (n : Z) : string := NilZero.string_of_int (Z.to_int n).

Fixpoint zeros (n : nat) : string :=
  match n with
  | O => EmptyString
  | S n' => String "0" (zeros n')
  end.

(** [s.zfill(width)]: left-pad with zeros, after the sign if there is one. *)
Definition zfill (s : string) (width : nat) : string :=
  if (width <=? String.length s)%nat then s
  else
    let pad := zeros (width - String.length s) in
    match s with
    | String c rest =>
        if (Ascii.eqb c "-" || Ascii.eqb c "+")%bool
        then String c (pad ++ rest)
        else (pad ++ s)%string
    | EmptyString => pad
    end.

(** [range(a, b)]. *)
Definition range (a b : Z) : list Z :=
  map (fun i => a + Z.of_nat i) (seq 0 (Z.to_nat (b - a))).

(** [l[:e]] with Python's treatment of negative and out-of-range bounds. *)
Definition slice_to {A : Type} (l : list A) (e : Z) : list A :=
  let n := Z.of_nat (List.length l) in
  let stop := if e <? 0 then Z.max 0 (e + n) else Z.min e n in
  firstn (Z.to_nat stop) l.

(** [l[e:]], the complement of [slice_to] at the same bound. *)
Definition slice_from {A : Type} (l : list A) (e : Z) : list A :=
  let n := Z.of_nat (List.length l) in
  let start := if e <? 0 then Z.max 0 (e + n) else Z.min e n in
  skipn (Z.to_nat start) l.

(** [list.sort(key=...)]: a stable sort, here by insertion. *)
Fixpoint insert_by {A : Type} (key : A -> Z) (x : A) (l : list A) : list A :=
  match l with
  | [] => [x]
  | y :: l' => if key x <=? key y then x :: y :: l' else y :: insert_by key x l'
  end.

Fixpoint sort_by {A : Type} (key : A -> Z) (l : list A) : list A :=
  match l with
  | [] => []
  | x :: l' => insert_by key x (sort_by key l')
  end.

(** [max(l, key=...)]: the first element whose key is maximal; the caller
    guards against the empty list. *)
Definition max_by {A : Type} (key : A -> Z) (l : list A) : option A :=
  match l with
  | [] => None
  | x :: l' =>
      Some (fold_left (fun best y => if key best <? key y then y else best) l' x)
  end.

(** [sum(l)] and [sum(l) / len(l)] on floats; the division raises
    [ZeroDivisionError] on the empty list. *)
Definition sum (l : list Q) : Q := fold_left Qplus l 0%Q.

Definition average (l : list Q) : option Q :=
  match l with
  | [] => None
  | _ => Some (sum l / inject_Z (Z.of_nat (List.length l)))%Q
  end.

(** [x > 0] on a float. *)
Definition positive (x : Q) : bool := negb (Qle_bool x 0).

End Py.

(** ** Dictionaries: checkpoint metadata and configuration *)

Module Dict.

#[local] Set Warnings "-register-all".

Inductive value : Type :=
| VInt (n : Z)
| VBool (b : bool)
| VStr (s : string)
| VDict (d : list (string * value)).

Definition t : Type := list (string * value).

Fixpoint get (d : t) (k : string) : option value :=
  match d with
  | [] => None
  | (k', v) :: d' => if String.eqb k k' then Some v else get d' k
  end.

(** [d[k] = v]: overwrite in place, or append a new key. *)
Fixpoint set (d : t) (k : string) (v : value) : t :=
  match d with
  | [] => [(k, v)]
  | (k', v') :: d' =>
      if String.eqb k k' then (k', v) :: d' else (k', v') :: set d' k v
  end.

(** [d.update(other)]. *)
Definition update (d other : t) : t :=
  fold_left (fun acc kv => set acc (fst kv) (snd kv)) other d.

(** [k in d]. *)
Definition mem (d : t) (k : string) : bool :=
  match get d k with Some _ => true | None => false end.

End Dict.

(** ** The save directory *)

Module FS.

(** A checkpoint file: its name inside the save root, its creation and
    modification times, the serialized tensors and the metadata mapping
    stored beside them. *)
Record file : Type := mkFile {
  fname : string;
  fctime : Z;
  fmtime : Z;
  fweights : list Q;
  fmeta : Dict.t
}.

(** A directory is its listing, in the order [glob] reports it. *)
Definition dir : Type := list file.

Definition ends_with (suf name : string) : bool :=
  let n := String.length name in
  let k := String.length suf in
  ((k <=? n)%nat && String.eqb (String.substring (n - k) k name) suf)%bool.

Definition hidden (name : string) : bool :=
  match name with
  | String c _ => Ascii.eqb c "."
  | EmptyString => false
  end.

(** [fnmatch] of a name against the pattern [pre*suf], for literal [pre]
    and [suf] (job names are taken to be free of glob metacharacters).  A
    name starting with a dot is only matched by a pattern starting with
    one. *)
Definition matches (pre suf name : string) : bool :=
  (String.prefix pre name
   && ends_with suf name
   && (String.length pre + String.length suf <=? String.length name)%nat
   && (negb (hidden name) || hidden pre))%bool.

(** [glob.glob(os.path.join(root, pre + "*" + suf))]. *)
Definition glob (pre suf : string) (d : dir) : list file :=
  filter (fun f => matches pre suf (fname f)) d.

Definition exists_name (name : string) (d : dir) : bool :=
  existsb (fun f => String.eqb (fname f) name) d.

(** Writing a file replaces an existing entry of that name, or adds one. *)
Fixpoint write (f : file) (d : dir) : dir :=
  match d with
  | [] => [f]
  | g :: d' =>
      if String.eqb (fname g) (fname f) then f :: d' else g :: write f d'
  end.

(** The entry a path resolves to. *)
Fixpoint find (name : string) (d : dir) : option file :=
  match d with
  | [] => None
  | g :: d' => if String.eqb (fname g) name then Some g else find name d'
  end.

(** [os.remove]. *)
Definition remove (name : string) (d : dir) : dir :=
  filter (fun f => negb (String.eqb (fname f) name)) d.

End FS.

(** ** What a run does to the outside world *)

Inductive loss_term : Type := Style | Content | Kld | Mse | Tv.

(** What a run does, as far as the properties below observe it.
    [ComputeTerm t] stands for a computation belonging to the loss term [t]
    being carried out. *)
Inductive event : Type :=
| LoadModel
| Sample (step : option Z) (is_first : bool)
| ComputeTerm (term : loss_term)
| TrainStep (step : Z)
| WriteCheckpoint (name : string) (multiplier : option Q)
| Scalar (tag : string) (value : Q) (step : Z)
| Release.

Definition is_train_step (e : event) : bool :=
  match e with TrainStep _ => true | _ => false end.


(** ** Periodic actions

    Both trainers guard sampling, saving and logging by the same two tests:
    an outer [step_num != start_step] and, per action, [every and
    step_num % every == 0]. *)

Module Schedule.

(** [every and step % every == 0]. *)
Definition interval_due (every : option Z) (step : Z) : bool :=
  match every with
  | Some i => (negb (i =? 0) && (step mod i =? 0))%bool
  | None => false
  end.

(** The specification's predicate [should_fire(step, start_step, interval)]:
    the outer guard and the interval test together.  The trainers do not
    call it; their periodic blocks are compared with it below. *)
Definition should_fire (step start : Z) (every : option Z) : bool :=
  (negb (step =? start) && interval_due every step)%bool.

End Schedule.

(** ** Metadata helpers of [toolkit.metadata] and [BaseProcess] *)

Module Metadata.

(** Modelled from the spec: [add_base_model_info_to_meta] of
    [toolkit.metadata] is not part of the sources at hand; the checkpoint
    metadata is described as a mapping holding the step and base-model
    identification tags, so the helper sets the tag for the model family and
    leaves every other key alone. *)
Definition add_base_model_info_to_meta (o_dict : Dict.t) (is_v2 is_xl : bool)
  : Dict.t :=
  if is_v2 then
    Dict.set (Dict.set o_dict "ss_v2" (Dict.VBool true))
             "ss_base_model_version" (Dict.VStr "sd_2.1")
  else if is_xl then
    Dict.set o_dict "ss_base_model_version" (Dict.VStr "sdxl_1.0")
  else
    Dict.set o_dict "ss_base_model_version" (Dict.VStr "sd_1.5").

(** Modelled from the spec: [get_meta_for_safetensors] of
    [toolkit.metadata] is not part of the sources at hand; the metadata
    written beside the tensors is the job's metadata mapping. *)
Definition get_meta_for_safetensors (meta : Dict.t) (name : string) : Dict.t :=
  meta.

(** Modelled from the spec: [load_metadata_from_safetensors] of
    [toolkit.metadata] is not part of the sources at hand; loading returns
    the metadata mapping stored in the file. *)
Definition load_metadata_from_safetensors (path : FS.file) : Dict.t :=
  FS.fmeta path.

(** Modelled from the spec: [BaseProcess.add_meta] is not part of the
    sources at hand; it merges the given entries into the job's metadata. *)
Definition add_meta (meta additional_meta : Dict.t) : Dict.t :=
  Dict.update meta additional_meta.

End Metadata.

(** ** The diffusion / LoRA trainer: [BaseSDTrainProcess] *)

Module BaseSDTrainProcess.

Record config : Type := mkConfig {
  job_name : string;
  has_network_config : bool;
  steps : Z;
  has_first_sample_requested : bool;
  skip_first_sample : bool;
  sample_every : option Z;
  save_every : option Z;
  log_every : option Z;
  max_step_saves_to_keep : Z;
  is_v2 : bool;
  is_xl : bool;
  has_writer : bool
}.

Record network : Type := mkNetwork {
  multiplier : Q;
  lora_weights : list Q
}.

(** The mutable state of a process together with the world it acts on: the
    listing of [save_root] ([None] while the directory does not exist), a
    clock read by every file write, and the trace of effects so far. *)
Record process : Type := mkProcess {
  step_num : Z;
  start_step : Z;
  net : option network;
  sd_weights : list Q;
  meta : Dict.t;
  save_root : option FS.dir;
  clock : Z;
  trace : list event
}.

Definition set_steps (p : process) (s st : Z) : process :=
  mkProcess s st (net p) (sd_weights p) (meta p) (save_root p) (clock p)
            (trace p).

Definition set_net (p : process) (n : option network) : process :=
  mkProcess (step_num p) (start_step p) n (sd_weights p) (meta p)
            (save_root p) (clock p) (trace p).

Definition set_meta (p : process) (m : Dict.t) : process :=
  mkProcess (step_num p) (start_step p) (net p) (sd_weights p) m
            (save_root p) (clock p) (trace p).

Definition set_save_root (p : process) (d : option FS.dir) : process :=
  mkProcess (step_num p) (start_step p) (net p) (sd_weights p) (meta p) d
            (clock p) (trace p).

Definition emit (p : process) (e : event) : process :=
  mkProcess (step_num p) (start_step p) (net p) (sd_weights p) (meta p)
            (save_root p) (clock p) (trace p ++ [e]).

(** [self.network.multiplier = m]. *)
Definition set_multiplier (p : process) (m : Q) : process :=
  match net p with
  | Some n => set_net p (Some (mkNetwork m (lora_weights n)))
  | None => p
  end.

(** Serializing a checkpoint: the file appears in the save root stamped with
    the current time, and the clock moves on. *)
Definition write_file (p : process) (name : string) (weights : list Q)
    (metadata : Dict.t) : process :=
  let f := FS.mkFile name (clock p) (clock p) weights metadata in
  let d := match save_root p with Some d => d | None => [] end in
  mkProcess (step_num p) (start_step p) (net p) (sd_weights p) (meta p)
            (Some (FS.write f d)) (clock p + 1) (trace p).

(** [__init__]: counters at zero, no network yet. *)
Definition init (sd : list Q) (root : option FS.dir) (now : Z) : process :=
  mkProcess 0 0 None sd [] root now [].

(** [sample(step, is_first)] hands the prompts to the image generator. *)
Definition sample (p : process) (step : option Z) (is_first : bool) : process :=
  emit p (Sample step is_first).

Definition get_training_info (p : process) : Dict.t :=
  [("step"%string, Dict.VInt (step_num p + 1))].

Definition update_training_metadata (c : config) (p : process) : process :=
  let o_dict := [("training_info"%string, Dict.VDict (get_training_info p))] in
  let o_dict :=
    if is_v2 c then
      Dict.set (Dict.set o_dict "ss_v2" (Dict.VBool true))
               "ss_base_model_version" (Dict.VStr "sd_2.1")
    else if is_xl c then
      Dict.set o_dict "ss_base_model_version" (Dict.VStr "sdxl_1.0")
    else
      Dict.set o_dict "ss_base_model_version" (Dict.VStr "sd_1.5") in
  let o_dict := Metadata.add_base_model_info_to_meta o_dict (is_v2 c) (is_xl c) in
  let o_dict := Dict.set o_dict "ss_output_name" (Dict.VStr (job_name c)) in
  set_meta p (Metadata.add_meta (meta p) o_dict).

(** The files [clean_up_saves] looks at: [{job_name}_*.safetensors]. *)
Definition step_saves (c : config) (d : FS.dir) : list FS.file :=
  FS.glob (job_name c ++ "_") ".safetensors" d.

Definition clean_up_saves (c : config) (p : process) : process :=
  match save_root p with
  | Some d =>
      let files := step_saves c d in
      if max_step_saves_to_keep c <? Z.of_nat (List.length files) then
        let files := Py.sort_by FS.fctime files in
        let doomed := Py.slice_to files (- max_step_saves_to_keep c) in
        set_save_root p
          (Some (fold_left (fun d f => FS.remove (FS.fname f) d) doomed d))
      else p
  | None => p
  end.

(** [f"_{str(step).zfill(9)}"], or the empty suffix of the final file. *)
Definition step_suffix (step : option Z) : string :=
  match step with
  | Some s => ("_" ++ Py.zfill (Py.str s) 9)%string
  | None => EmptyString
  end.

Definition checkpoint_name (c : config) (step : option Z) : string :=
  (job_name c ++ step_suffix step ++ ".safetensors")%string.

(** [self.network.save_weights(file_path, metadata=save_meta)]: serializes
    the network as it is at the time of the call. *)
Definition network_save_weights (p : process) (name : string)
    (metadata : Dict.t) : process :=
  match net p with
  | Some n =>
      emit (write_file p name (lora_weights n) metadata)
           (WriteCheckpoint name (Some (multiplier n)))
  | None => p
  end.

(** [self.sd.save(file_path, save_meta, dtype)]. *)
Definition sd_save (p : process) (name : string) (metadata : Dict.t) : process :=
  emit (write_file p name (sd_weights p) metadata) (WriteCheckpoint name None).

(** [save] up to and including the serialization of the weights. *)
Definition save_checkpoint (c : config) (p : process) (step : option Z) : process :=
  let p := match save_root p with
           | None => set_save_root p (Some [])
           | Some _ => p
           end in
  let p := update_training_metadata c p in
  let filename := checkpoint_name c step in
  let save_meta := Metadata.get_meta_for_safetensors (meta p) (job_name c) in
  match net p with
  | Some n =>
      let prev_multiplier := multiplier n in
      let p := set_multiplier p 1 in
      let p := network_save_weights p filename save_meta in
      set_multiplier p prev_multiplier
  | None => sd_save p filename save_meta
  end.

Definition save (c : config) (p : process) (step : option Z) : process :=
  let p := save_checkpoint c p step in
  clean_up_saves c p.

(** A path is represented by the file it names. *)
Definition get_latest_save_path (c : config) (p : process) : option FS.file :=
  match save_root p with
  | Some d =>
      let files := FS.glob (job_name c) ".safetensors" d in
      if (0 <? List.length files)%nat then Py.max_by FS.fctime files else None
  | None => None
  end.

(** ['training_info' in meta and 'step' in meta['training_info']], giving
    the stored step; a step entry that is not an integer is not resumed
    from. *)
Definition stored_step (m : Dict.t) : option Z :=
  if Dict.mem m "training_info" then
    match Dict.get m "training_info" with
    | Some (Dict.VDict info) =>
        if Dict.mem info "step" then
          match Dict.get info "step" with
          | Some (Dict.VInt s) => Some s
          | _ => None
          end
        else None
    | _ => None
    end
  else None.

Definition load_weights (p : process) (path : FS.file) : process :=
  match net p with
  | Some n =>
      let p := set_net p (Some (mkNetwork (multiplier n) (FS.fweights path))) in
      let m := Metadata.load_metadata_from_safetensors path in
      match stored_step m with
      | Some s => set_steps p s s
      | None => p
      end
  | None => p
  end.

(** The part of [run] that builds the network and resumes from the latest
    checkpoint. *)
Definition setup_network (c : config) (fresh : list Q) (p : process) : process :=
  if has_network_config c then
    let p := set_net p (Some (mkNetwork 1 fresh)) in
    match get_latest_save_path c p with
    | Some latest_save_path =>
        let p := load_weights p latest_save_path in
        set_multiplier p 1
    | None => p
    end
  else p.

Section Run.

(** The subclass hook: the loss breakdown it returns at each loop index, and
    the learning rate read from the optimizer afterwards. *)
Variable hook_train_loop : Z -> list (string * Q).
Variable learning_rate : Z -> Q.

Definition log_scalars (p : process) (step : Z) : process :=
  let p := fold_left (fun p kv => emit p (Scalar (fst kv) (snd kv) (step_num p)))
                     (hook_train_loop step) p in
  emit p (Scalar "lr" (learning_rate step) (step_num p)).

(** The block under [if self.step_num != self.start_step]. *)
Definition periodic (c : config) (step : Z) (p : process) : process :=
  if negb (step_num p =? start_step p) then
    let p := if Schedule.interval_due (sample_every c) (step_num p)
             then sample p (Some (step_num p)) false else p in
    let p := if Schedule.interval_due (save_every c) (step_num p)
             then save c p (Some (step_num p)) else p in
    if Schedule.interval_due (log_every c) (step_num p)
    then (if has_writer c then log_scalars p step else p)
    else p
  else p.

(** One pass through the body of [for step in range(self.step_num, steps)]. *)
Definition loop_body (c : config) (p : process) (step : Z) : process :=
  let p := emit p (TrainStep step) in
  let p := periodic c step p in
  set_steps p step (start_step p).

Definition train_loop (c : config) (p : process) : process :=
  fold_left (loop_body c) (Py.range (step_num p) (steps c)) p.

(** What [run] does once the loop is over. *)
Definition finish (c : config) (p : process) : process :=
  let p := sample p (Some (step_num p + 1)) false in
  let p := save c p None in
  emit p Release.

Definition run (c : config) (fresh : list Q) (p : process) : process :=
  let p := emit p LoadModel in
  let p := setup_network c fresh p in
  let p := if has_first_sample_requested c then sample p (Some 0) true else p in
  let p := if skip_first_sample c then p else sample p (Some 0) false in
  let p := train_loop c p in
  finish c p.

End Run.

End BaseSDTrainProcess.

(** ** Errors raised by the autoencoder trainer *)

Inductive error : Type :=
| ValueError (msg : string)
| TypeError
| AttributeError
| ZeroDivisionError.

Inductive result (A : Type) : Type :=
| Ok (a : A)
| Raise (e : error).

Arguments Ok {A} a.
Arguments Raise {A} e.

Definition bind {A B : Type} (r : result A) (k : A -> result B) : result B :=
  match r with
  | Ok a => k a
  | Raise e => Raise e
  end.

Notation "x <- r ;; k" := (bind r (fun x => k))
  (at level 61, r at next level, right associativity).

(** ** Tensors as lists of rows *)

Module Tensor.

(** [torch.mean] of a vector of scores ([nan] on the empty vector, which the
    rationals render as [0]). *)
Definition mean (l : list Q) : Q :=
  (Py.sum l / inject_Z (Z.of_nat (List.length l)))%Q.

(** [a, b = torch.chunk(x, 2, dim=0)]: two chunks of [ceil(n/2)] and the
    remaining rows; a single row yields one chunk only and the unpacking
    raises [ValueError]. *)
Definition chunk2 {A : Type} (x : list A) : result (list A * list A) :=
  let n := List.length x in
  if (n =? 1)%nat then Raise (ValueError "not enough values to unpack")
  else Ok (firstn (Nat.div2 (S n)) x, skipn (Nat.div2 (S n)) x).

End Tensor.

(** ** The adversarial critic: class [Critic] *)

Module Critic.

Record config : Type := mkConfig {
  num_critic_per_gen : Z;
  lambda_gp : Q;
  start_step : Z;
  warmup_steps : Z
}.

Section Backend.

(** The critic network, its optimizer and automatic differentiation are
    external: rows of the stacked feature batch, the parameters, the gradient
    slot, the optimizer's own state, the forward pass giving a score per row,
    the gradient penalty, the gradient [backward] leaves for a given loss
    input, and the optimizer's update from the gradient slot ([None] once
    [zero_grad] has cleared it). *)
Variables features params grads opt_state : Type.
Variable model : params -> list features -> list Q.
Variable get_gradient_penalty : params -> list features -> list features -> Q.
Variable loss_gradient : params -> list features -> grads.
Variable optimizer_step : opt_state -> params -> option grads -> opt_state * params.

Record state : Type := mkState {
  weights : params;
  grad : option grads;
  optimizer : opt_state;
  scheduler_iters : Z;
  training : bool
}.

Definition set_training (s : state) (b : bool) : state :=
  mkState (weights s) (grad s) (optimizer s) (scheduler_iters s) b.

(** [self.optimizer.zero_grad()]. *)
Definition zero_grad (s : state) : state :=
  mkState (weights s) None (optimizer s) (scheduler_iters s) (training s).

(** [critic_loss.backward()]. *)
Definition backward (s : state) (inputs : list features) : state :=
  mkState (weights s) (Some (loss_gradient (weights s) inputs)) (optimizer s)
          (scheduler_iters s) (training s).

(** [self.optimizer.step()]. *)
Definition optimizer_apply (s : state) : state :=
  let '(o, w) := optimizer_step (optimizer s) (weights s) (grad s) in
  mkState w (grad s) o (scheduler_iters s) (training s).

(** [self.scheduler.step()]. *)
Definition scheduler_step (s : state) : state :=
  mkState (weights s) (grad s) (optimizer s) (scheduler_iters s + 1)
          (training s).

(** The critic's evaluation of a stacked batch for the generator:
    [-torch.mean(self.model(vgg_pred))]. *)
Definition critic_eval (w : params) (vgg_output : list features) : result Q :=
  ch <- Tensor.chunk2 vgg_output ;;
  let '(vgg_pred, vgg_target) := ch in
  let stacked_output := model w vgg_pred in
  Ok (- Tensor.mean stacked_output)%Q.

(** The factor [get_critic_loss] multiplies the evaluation by. *)
Definition warmup_scaler (c : config) (step_num : Z) : Q :=
  if step_num <? start_step c + warmup_steps c
  then (inject_Z (step_num - start_step c) / inject_Z (warmup_steps c))%Q
  else 1%Q.

Definition get_critic_loss (c : config) (step_num : Z) (s : state)
    (vgg_output : list features) : result (state * Q) :=
  if step_num <? start_step c then Ok (s, 0%Q)
  else
    let scaler := warmup_scaler c step_num in
    let s := set_training s false in
    e <- critic_eval (weights s) vgg_output ;;
    Ok (s, (e * scaler)%Q).

(** The WGAN-GP loss of one inner iteration. *)
Definition critic_loss (c : config) (w : params) (inputs : list features)
  : result Q :=
  ch <- Tensor.chunk2 inputs ;;
  let '(vgg_pred, vgg_target) := ch in
  let stacked_output := model w inputs in
  ch' <- Tensor.chunk2 stacked_output ;;
  let '(out_pred, out_target) := ch' in
  let gradient_penalty := get_gradient_penalty w vgg_target vgg_pred in
  Ok (- (Tensor.mean out_target - Tensor.mean out_pred)
      + lambda_gp c * gradient_penalty)%Q.

(** One pass through the body of [for i in range(self.num_critic_per_gen)]. *)
Definition inner_iteration (c : config) (vgg_output : list features)
    (acc : state * list Q) : result (state * list Q) :=
  let '(s, critic_losses) := acc in
  let inputs := vgg_output in
  let s := zero_grad s in
  l <- critic_loss c (weights s) inputs ;;
  let s := backward s inputs in
  let s := zero_grad s in
  let s := optimizer_apply s in
  let s := scheduler_step s in
  Ok (s, critic_losses ++ [l]).

Fixpoint iterate (n : nat) (c : config) (vgg_output : list features)
    (acc : state * list Q) : result (state * list Q) :=
  match n with
  | O => Ok acc
  | S n' =>
      acc' <- inner_iteration c vgg_output acc ;;
      iterate n' c vgg_output acc'
  end.

(** [Critic.step]: the discriminator update, returning [np.mean] of the
    inner losses. *)
Definition step (c : config) (s : state) (vgg_output : list features)
  : result (state * Q) :=
  let s := set_training s true in
  r <- iterate (Z.to_nat (num_critic_per_gen c)) c vgg_output (s, []) ;;
  let '(s, critic_losses) := r in
  Ok (s, Tensor.mean critic_losses).

End Backend.

End Critic.

(** ** The autoencoder trainer: [TrainVAEProcess] *)

Module TrainVAEProcess.

Record dataset : Type := mkDataset {
  ds_path : option string;
  ds_is_dir : bool
}.

(** The values [__init__] reads with [get_conf]; [None] is an absent key. *)
Record config : Type := mkConfig {
  job_name : string;
  vae_path : option string;
  datasets_objects : option (list dataset);
  sample_every : option Z;
  epochs : option Z;
  max_steps : option Z;
  save_every : option Z;
  sample_sources : option (list string);
  log_every : Z;
  style_weight : Q;
  content_weight : Q;
  kld_weight : Q;
  mse_weight : Q;
  tv_weight : Q;
  critic_weight : Q;
  use_critic : bool;
  critic_config : Critic.config;
  has_writer : bool
}.

(** The loss dictionaries of [run]: a list of values per key. *)
Definition losses : Type := list (string * list Q).

Definition blank_losses : losses :=
  [("total"%string, []); ("style"%string, []); ("content"%string, []);
   ("mse"%string, []); ("kl"%string, []); ("tv"%string, []);
   ("crD"%string, []); ("crG"%string, [])].

(** [d[key].append(v)]. *)
Definition append (d : losses) (key : string) (v : Q) : losses :=
  map (fun kv => if String.eqb (fst kv) key then (fst kv, snd kv ++ [v]) else kv)
      d.

(** [d[key]]. *)
Fixpoint values (d : losses) (key : string) : list Q :=
  match d with
  | [] => []
  | (k, l) :: d' => if String.eqb key k then l else values d' key
  end.

(** What one forward pass makes available: the value each term's
    computation yields if it is executed, and the feature batch
    [vgg19_pool_4.tensor] of stacked predictions and targets. *)
Record forward_pass (features : Type) : Type := mkForward {
  style_value : Q;
  content_value : Q;
  kld_value : Q;
  mse_value : Q;
  tv_value : Q;
  pool_4 : list features
}.

Arguments style_value {features} f.
Arguments content_value {features} f.
Arguments kld_value {features} f.
Arguments mse_value {features} f.
Arguments tv_value {features} f.
Arguments pool_4 {features} f.

(** The values recorded for one step. *)
Record step_losses : Type := mkStepLosses {
  total : Q;
  style_loss : Q;
  content_loss : Q;
  mse_loss : Q;
  kld_loss : Q;
  tv_loss : Q;
  critic_d_loss : Q;
  critic_gen_loss : Q
}.

Definition record (d : losses) (l : step_losses) : losses :=
  let d := append d "total" (total l) in
  let d := append d "style" (style_loss l) in
  let d := append d "content" (content_loss l) in
  let d := append d "mse" (mse_loss l) in
  let d := append d "kl" (kld_loss l) in
  let d := append d "tv" (tv_loss l) in
  let d := append d "crG" (critic_gen_loss l) in
  append d "crD" (critic_d_loss l).

Section Trainer.

Variables features params grads opt_state : Type.
Variable model : params -> list features -> list Q.
Variable get_gradient_penalty : params -> list features -> list features -> Q.
Variable loss_gradient : params -> list features -> grads.
Variable optimizer_step : opt_state -> params -> option grads -> opt_state * params.

(** A fresh critic network and optimizer, and the critic's (de)serialization. *)
Variable fresh_critic : params.
Variable fresh_optimizer : opt_state.
Variable state_dict : params -> list Q.
Variable load_state_dict : list Q -> params.

(** The weights found at [vae_path], the number of batches in the data
    loader, and the forward pass of each step. *)
Variable base_vae : list Q.
Variable n_batches : nat.
Variable forward : Z -> forward_pass features.

Definition critic_state : Type := Critic.state params grads opt_state.

Record process : Type := mkProcess {
  step_num : Z;
  epoch_num : Z;
  cur_max_steps : option Z;
  cur_epochs : option Z;
  vae : option (list Q);
  critic : option critic_state;
  meta : Dict.t;
  epoch_losses : losses;
  log_losses : losses;
  save_root : option FS.dir;
  clock : Z;
  trace : list event
}.

(** Stateful code that may raise: the state survives the exception. *)
Definition M (A : Type) : Type := process -> result A * process.

Definition ret {A : Type} (a : A) : M A := fun p => (Ok a, p).

Definition raise {A : Type} (e : error) : M A := fun p => (Raise e, p).

Definition bindM {A B : Type} (m : M A) (k : A -> M B) : M B :=
  fun p =>
    match m p with
    | (Ok a, p') => k a p'
    | (Raise e, p') => (Raise e, p')
    end.

Definition lift {A : Type} (r : result A) : M A := fun p => (r, p).

Definition gets {A : Type} (f : process -> A) : M A := fun p => (Ok (f p), p).

Definition modify (f : process -> process) : M unit := fun p => (Ok tt, f p).

Notation "x <~ m ;; k" := (bindM m (fun x => k))
  (at level 61, m at next level, right associativity).

Definition set_step_num (p : process) (n : Z) : process :=
  mkProcess n (epoch_num p) (cur_max_steps p) (cur_epochs p) (vae p) (critic p)
            (meta p) (epoch_losses p) (log_losses p) (save_root p) (clock p)
            (trace p).

Definition set_budget (p : process) (ms ep : option Z) : process :=
  mkProcess (step_num p) (epoch_num p) ms ep (vae p) (critic p) (meta p)
            (epoch_losses p) (log_losses p) (save_root p) (clock p) (trace p).

Definition set_vae (p : process) (v : option (list Q)) : process :=
  mkProcess (step_num p) (epoch_num p) (cur_max_steps p) (cur_epochs p) v
            (critic p) (meta p) (epoch_losses p) (log_losses p) (save_root p)
            (clock p) (trace p).

Definition set_critic (p : process) (s : option critic_state) : process :=
  mkProcess (step_num p) (epoch_num p) (cur_max_steps p) (cur_epochs p) (vae p)
            s (meta p) (epoch_losses p) (log_losses p) (save_root p) (clock p)
            (trace p).

Definition set_meta (p : process) (m : Dict.t) : process :=
  mkProcess (step_num p) (epoch_num p) (cur_max_steps p) (cur_epochs p) (vae p)
            (critic p) m (epoch_losses p) (log_losses p) (save_root p) (clock p)
            (trace p).

Definition set_epoch_losses (p : process) (d : losses) : process :=
  mkProcess (step_num p) (epoch_num p) (cur_max_steps p) (cur_epochs p) (vae p)
            (critic p) (meta p) d (log_losses p) (save_root p) (clock p)
            (trace p).

Definition set_log_losses (p : process) (d : losses) : process :=
  mkProcess (step_num p) (epoch_num p) (cur_max_steps p) (cur_epochs p) (vae p)
            (critic p) (meta p) (epoch_losses p) d (save_root p) (clock p)
            (trace p).

Definition set_save_root (p : process) (d : option FS.dir) : process :=
  mkProcess (step_num p) (epoch_num p) (cur_max_steps p) (cur_epochs p) (vae p)
            (critic p) (meta p) (epoch_losses p) (log_losses p) d (clock p)
            (trace p).

Definition emit (e : event) (p : process) : process :=
  mkProcess (step_num p) (epoch_num p) (cur_max_steps p) (cur_epochs p) (vae p)
            (critic p) (meta p) (epoch_losses p) (log_losses p) (save_root p)
            (clock p) (trace p ++ [e]).

(** [save_file(tensors, path, metadata)]. *)
Definition save_file (name : string) (weights : list Q) (metadata : Dict.t)
    (p : process) : process :=
  let f := FS.mkFile name (clock p) (clock p) weights metadata in
  let d := match save_root p with Some d => d | None => [] end in
  mkProcess (step_num p) (epoch_num p) (cur_max_steps p) (cur_epochs p) (vae p)
            (critic p) (meta p) (epoch_losses p) (log_losses p)
            (Some (FS.write f d)) (clock p + 1) (trace p).

(** Modelled from the spec: [BaseProcess.get_conf] is not part of the
    sources at hand; a required key that is missing is a fatal configuration
    error. *)
Definition required {A : Type} (v : option A) (key : string) : result A :=
  match v with
  | Some a => Ok a
  | None => Raise (ValueError ("missing required key " ++ key))
  end.

Fixpoint check_datasets (ds : list dataset) : result unit :=
  match ds with
  | [] => Ok tt
  | d :: ds' =>
      match ds_path d with
      | None => Raise (ValueError "dataset must have a path")
      | Some _ =>
          if ds_is_dir d then check_datasets ds'
          else Raise (ValueError "dataset path does is not a directory")
      end
  end.

(** [__init__]: reads the configuration, validates it and creates the
    training folder.  The world it starts in is the listing of the save root
    and the time. *)
Definition init (c : config) (root : option FS.dir) (now : Z) : result process :=
  _ <- required (vae_path c) "vae_path" ;;
  ds <- required (datasets_objects c) "datasets" ;;
  match sample_every c, sample_sources c with
  | Some _, None =>
      Raise (ValueError "sample_every is specified but sample_sources is not")
  | _, _ =>
      match epochs c, max_steps c with
      | None, None => Raise (ValueError "epochs or max_steps must be specified")
      | _, _ =>
          _ <- check_datasets ds ;;
          let root := match root with None => Some [] | Some d => Some d end in
          Ok (mkProcess 0 0 (max_steps c) (epochs c) None None [] [] [] root
                        now [])
      end
  end.

Definition get_training_info (p : process) : Dict.t :=
  [("step"%string, Dict.VInt (step_num p));
   ("epoch"%string, Dict.VInt (epoch_num p))].

Definition update_training_metadata (p : process) : process :=
  set_meta p
    (Metadata.add_meta (meta p)
       [("training_info"%string, Dict.VDict (get_training_info p))]).

(** The loss getters: each enters its computation only under a positive
    weight.  For the style and the content term that computation scales and
    sums the layer losses the VGG pass of the step has left; the three other
    terms are computed here from the prediction and the batch. *)
Definition get_style_loss (c : config) (f : forward_pass features) : M Q :=
  if Py.positive (style_weight c) then
    _ <~ modify (emit (ComputeTerm Style)) ;; ret (style_value f)
  else ret 0%Q.

Definition get_content_loss (c : config) (f : forward_pass features) : M Q :=
  if Py.positive (content_weight c) then
    _ <~ modify (emit (ComputeTerm Content)) ;; ret (content_value f)
  else ret 0%Q.

Definition get_mse_loss (c : config) (f : forward_pass features) : M Q :=
  if Py.positive (mse_weight c) then
    _ <~ modify (emit (ComputeTerm Mse)) ;; ret (mse_value f)
  else ret 0%Q.

Definition get_kld_loss (c : config) (f : forward_pass features) : M Q :=
  if Py.positive (kld_weight c) then
    _ <~ modify (emit (ComputeTerm Kld)) ;; ret (kld_value f)
  else ret 0%Q.

Definition get_tv_loss (c : config) (f : forward_pass features) : M Q :=
  if Py.positive (tv_weight c) then
    _ <~ modify (emit (ComputeTerm Tv)) ;; ret (tv_value f)
  else ret 0%Q.

Definition step_suffix (step : option Z) : string :=
  match step with
  | Some s => ("_" ++ Py.zfill (Py.str s) 9)%string
  | None => EmptyString
  end.

(** [Critic.save]. *)
Definition critic_save (c : config) (step : option Z) : M unit :=
  _ <~ modify update_training_metadata ;;
  m <~ gets meta ;;
  let save_meta := Metadata.get_meta_for_safetensors m (job_name c) in
  let name := ("CRITIC_" ++ job_name c ++ step_suffix step ++ ".safetensors")%string in
  cs <~ gets critic ;;
  match cs with
  | Some s =>
      _ <~ modify (save_file name (state_dict (Critic.weights _ _ _ s)) save_meta) ;;
      modify (emit (WriteCheckpoint name None))
  | None => raise AttributeError
  end.

Definition save (c : config) (step : option Z) : M unit :=
  _ <~ modify (fun p => match save_root p with
                        | None => set_save_root p (Some [])
                        | Some _ => p
                        end) ;;
  _ <~ modify update_training_metadata ;;
  let filename := (job_name c ++ step_suffix step ++ ".safetensors")%string in
  m <~ gets meta ;;
  let save_meta := Metadata.get_meta_for_safetensors m (job_name c) in
  v <~ gets vae ;;
  match v with
  | Some w =>
      _ <~ modify (save_file filename w save_meta) ;;
      _ <~ modify (emit (WriteCheckpoint filename None)) ;;
      if use_critic c then critic_save c step else ret tt
  | None => raise AttributeError
  end.

(** [sample(step)]: one reconstruction per sample source. *)
Definition sample (c : config) (step : option Z) : M unit :=
  match sample_sources c with
  | Some _ => modify (emit (Sample step false))
  | None => raise TypeError
  end.

(** The latest file matching [pre*.safetensors], by modification time. *)
Definition latest (pre : string) (p : process) : option FS.file :=
  match save_root p with
  | Some d => Py.max_by FS.fmtime (FS.glob pre ".safetensors" d)
  | None => None
  end.

Definition load_vae (c : config) : M unit :=
  l <~ gets (latest (job_name c)) ;;
  let path_to_load := match l with
                      | Some f => FS.fweights f
                      | None => base_vae
                      end in
  v <~ gets vae ;;
  _ <~ match v with
       | None => modify (fun p => set_vae p (Some path_to_load))
       | Some _ => ret tt
       end ;;
  modify (emit LoadModel).

(** [Critic.setup]: a fresh network, the latest critic checkpoint if there
    is one, a fresh optimizer. *)
Definition critic_setup (c : config) : M unit :=
  l <~ gets (latest ("CRITIC_" ++ job_name c)) ;;
  let w := match l with
           | Some f => load_state_dict (FS.fweights f)
           | None => fresh_critic
           end in
  modify (fun p =>
            set_critic p (Some (Critic.mkState _ _ _ w None fresh_optimizer 0 true))).

(** [self.critic.step(...)] when a critic is in use, else [0.0]. *)
Definition critic_discriminator (c : config) (f : forward_pass features) : M Q :=
  if use_critic c then
    cs <~ gets critic ;;
    match cs with
    | Some s =>
        r <~ lift (Critic.step _ _ _ _ model get_gradient_penalty loss_gradient
                     optimizer_step (critic_config c) s (pool_4 f)) ;;
        _ <~ modify (fun p => set_critic p (Some (fst r))) ;;
        ret (snd r)
    | None => raise AttributeError
    end
  else ret 0%Q.

(** [self.critic.get_critic_loss(...) * self.critic_weight] when a critic is
    in use, else [0.0]. *)
Definition critic_generator (c : config) (f : forward_pass features) : M Q :=
  if use_critic c then
    cs <~ gets critic ;;
    n <~ gets step_num ;;
    match cs with
    | Some s =>
        r <~ lift (Critic.get_critic_loss _ _ _ _ model (critic_config c) n s
                     (pool_4 f)) ;;
        _ <~ modify (fun p => set_critic p (Some (fst r))) ;;
        ret (snd r * critic_weight c)%Q
    | None => raise AttributeError
    end
  else ret 0%Q.

(** The weighted terms and their sum, as [run] forms them. *)
Definition compose_loss (c : config) (f : forward_pass features)
    (critic_d_loss : Q) : M step_losses :=
  s <~ get_style_loss c f ;;
  let style_loss := (s * style_weight c)%Q in
  ct <~ get_content_loss c f ;;
  let content_loss := (ct * content_weight c)%Q in
  k <~ get_kld_loss c f ;;
  let kld_loss := (k * kld_weight c)%Q in
  m <~ get_mse_loss c f ;;
  let mse_loss := (m * mse_weight c)%Q in
  t <~ get_tv_loss c f ;;
  let tv_loss := (t * tv_weight c)%Q in
  critic_gen_loss <~ critic_generator c f ;;
  let loss := (style_loss + content_loss + kld_loss + mse_loss + tv_loss
               + critic_gen_loss)%Q in
  ret (mkStepLosses loss style_loss content_loss mse_loss kld_loss tv_loss
                    critic_d_loss critic_gen_loss).

Definition average_or_raise (l : list Q) : result Q :=
  match Py.average l with
  | Some a => Ok a
  | None => Raise ZeroDivisionError
  end.

(** [for key in log_losses: ... add_scalar(f"loss/{key}", avg, step_num)]. *)
Fixpoint log_scalars (keys : list string) (n : Z) : M unit :=
  match keys with
  | [] => ret tt
  | key :: keys' =>
      d <~ gets log_losses ;;
      avg <~ lift (average_or_raise (values d key)) ;;
      _ <~ modify (emit (Scalar ("loss/" ++ key) avg n)) ;;
      log_scalars keys' n
  end.

(** The block under [if self.step_num != start_step]. *)
Definition periodic (c : config) (start_step : Z) : M unit :=
  n <~ gets step_num ;;
  if negb (n =? start_step) then
    _ <~ (if Schedule.interval_due (sample_every c) n
          then sample c (Some n) else ret tt) ;;
    _ <~ (if Schedule.interval_due (save_every c) n
          then save c (Some n) else ret tt) ;;
    if Schedule.interval_due (Some (log_every c)) n then
      _ <~ (if has_writer c
            then (d <~ gets log_losses ;; log_scalars (map fst d) n)
            else ret tt) ;;
      modify (fun p => set_log_losses p blank_losses)
    else ret tt
  else ret tt.

(** [self.vgg_19(stacked)] under [if self.style_weight > 0 or
    self.content_weight > 0 or self.use_critic]: the pass of the stacked
    prediction and batch through VGG-19.  The style and the content loss
    layers inserted in that network each compute their loss during the pass,
    whatever the two weights are. *)
Definition vgg_pass (c : config) : M unit :=
  if (Py.positive (style_weight c) || Py.positive (content_weight c)
      || use_critic c)%bool
  then (_ <~ modify (emit (ComputeTerm Style)) ;;
        modify (emit (ComputeTerm Content)))
  else ret tt.

(** The losses of one step: the VGG pass, the critic's own update, then the
    weighted terms and their sum. *)
Definition step_loss (c : config) (f : forward_pass features) : M step_losses :=
  _ <~ vgg_pass c ;;
  critic_d_loss <~ critic_discriminator c f ;;
  compose_loss c f critic_d_loss.

(** The body of [for batch in self.data_loader], after the [break] test. *)
Definition train_body (c : config) (start_step : Z) : M unit :=
  n <~ gets step_num ;;
  let f := forward n in
  l <~ step_loss c f ;;
  _ <~ modify (emit (TrainStep n)) ;;
  _ <~ modify (fun p => set_epoch_losses p (record (epoch_losses p) l)) ;;
  _ <~ modify (fun p => set_log_losses p (record (log_losses p) l)) ;;
  _ <~ periodic c start_step ;;
  modify (fun p => set_step_num p (step_num p + 1)).

(** [self.step_num >= self.max_steps]. *)
Definition budget_spent : M bool :=
  n <~ gets step_num ;;
  ms <~ gets cur_max_steps ;;
  match ms with
  | Some m => ret (m <=? n)
  | None => raise TypeError
  end.

Fixpoint batch_loop (batches : nat) (c : config) (start_step : Z) : M unit :=
  match batches with
  | O => ret tt
  | S batches' =>
      stop <~ budget_spent ;;
      if stop then ret tt
      else (_ <~ train_body c start_step ;; batch_loop batches' c start_step)
  end.

(** The aggregation at the end of an epoch: the mean is taken over the
    values in [log_losses], and reported when positive. *)
Fixpoint epoch_scalars (keys : list string) (epoch : Z) : M unit :=
  match keys with
  | [] => ret tt
  | key :: keys' =>
      d <~ gets log_losses ;;
      avg <~ lift (average_or_raise (values d key)) ;;
      _ <~ (if Py.positive avg
            then modify (emit (Scalar ("epoch loss/" ++ key) avg epoch))
            else ret tt) ;;
      epoch_scalars keys' epoch
  end.

Definition end_epoch (c : config) (epoch : Z) : M unit :=
  _ <~ (if has_writer c
        then (d <~ gets epoch_losses ;; epoch_scalars (map fst d) epoch)
        else ret tt) ;;
  modify (fun p => set_epoch_losses p blank_losses).

Fixpoint epoch_loop (epoch_range : list Z) (c : config) (start_step : Z) : M unit :=
  match epoch_range with
  | [] => ret tt
  | epoch :: rest =>
      stop <~ budget_spent ;;
      if stop then ret tt
      else (_ <~ batch_loop n_batches c start_step ;;
            _ <~ end_epoch c epoch ;;
            epoch_loop rest c start_step)
  end.

(** The epoch and step budgets [run] settles on before training. *)
Definition settle_budget : M unit :=
  ms <~ gets cur_max_steps ;;
  ep <~ gets cur_epochs ;;
  match ms with
  | None => raise TypeError
  | Some max_steps =>
      if (n_batches =? 0)%nat then raise ZeroDivisionError
      else
        let max_step_epochs := max_steps / Z.of_nat n_batches in
        let num_epochs :=
          match ep with
          | None => max_step_epochs
          | Some e => if max_step_epochs <? e then max_step_epochs else e
          end in
        let max_epoch_steps := Z.of_nat n_batches * num_epochs in
        let num_steps :=
          if max_epoch_steps <? max_steps then max_epoch_steps else max_steps in
        modify (fun p => set_budget p (Some num_steps) (Some num_epochs))
  end.

(** [run].  Under the VGG condition [setup_vgg19] builds the network and
    calibrates its layer scalers on random noise, before any batch is seen:
    no loss term of a step is involved and the set-up leaves no event; the
    critic is set up there when one is in use. *)
Definition run (c : config) : M unit :=
  _ <~ settle_budget ;;
  start_step <~ gets step_num ;;
  _ <~ load_vae c ;;
  _ <~ (if (Py.positive (style_weight c) || Py.positive (content_weight c)
            || use_critic c)%bool
        then (if use_critic c then critic_setup c else ret tt)
        else ret tt) ;;
  _ <~ sample c None ;;
  _ <~ modify (fun p => set_log_losses (set_epoch_losses p blank_losses)
                                       blank_losses) ;;
  first_epoch <~ gets epoch_num ;;
  ep <~ gets cur_epochs ;;
  _ <~ epoch_loop (Py.range first_epoch (match ep with Some e => e | None => 0 end))
                  c start_step ;;
  save c None.

(** Constructing the process and running it, as the job does; what comes
    back is how the run ended and the trace of its effects. *)
Definition launch (c : config) (root : option FS.dir) (now : Z)
  : result unit * list event :=
  match init c root now with
  | Ok p => let '(r, p') := run c p in (r, trace p')
  | Raise e => (Raise e, [])
  end.

End Trainer.

End TrainVAEProcess.

(** The external types are inferred wherever these are used. *)

Arguments Critic.set_training {_ _ _}.
Arguments Critic.zero_grad {_ _ _}.
Arguments Critic.backward {_ _ _ _}.
Arguments Critic.optimizer_apply {_ _ _}.
Arguments Critic.scheduler_step {_ _ _}.
Arguments Critic.critic_eval {_ _}.
Arguments Critic.get_critic_loss {_ _ _ _}.
Arguments Critic.critic_loss {_ _}.
Arguments Critic.inner_iteration {_ _ _ _}.
Arguments Critic.iterate {_ _ _ _}.
Arguments Critic.step {_ _ _ _}.
Arguments Critic.mkState {_ _ _}.
Arguments Critic.weights {_ _ _}.
Arguments Critic.grad {_ _ _}.
Arguments Critic.optimizer {_ _ _}.
Arguments Critic.scheduler_iters {_ _ _}.
Arguments Critic.training {_ _ _}.
Arguments TrainVAEProcess.ret {_ _ _ _}.
Arguments TrainVAEProcess.raise {_ _ _ _}.
Arguments TrainVAEProcess.bindM {_ _ _ _ _}.
Arguments TrainVAEProcess.lift {_ _ _ _}.
Arguments TrainVAEProcess.gets {_ _ _ _}.
Arguments TrainVAEProcess.modify {_ _ _}.
Arguments TrainVAEProcess.set_step_num {_ _ _}.
Arguments TrainVAEProcess.set_budget {_ _ _}.
Arguments TrainVAEProcess.set_vae {_ _ _}.
Arguments TrainVAEProcess.set_critic {_ _ _}.
Arguments TrainVAEProcess.set_meta {_ _ _}.
Arguments TrainVAEProcess.set_epoch_losses {_ _ _}.
Arguments TrainVAEProcess.set_log_losses {_ _ _}.
Arguments TrainVAEProcess.set_save_root {_ _ _}.
Arguments TrainVAEProcess.emit {_ _ _}.
Arguments TrainVAEProcess.save_file {_ _ _}.
Arguments TrainVAEProcess.init {_ _ _}.
Arguments TrainVAEProcess.get_training_info {_ _ _}.
Arguments TrainVAEProcess.update_training_metadata {_ _ _}.
Arguments TrainVAEProcess.get_style_loss {_ _ _ _}.
Arguments TrainVAEProcess.get_content_loss {_ _ _ _}.
Arguments TrainVAEProcess.get_mse_loss {_ _ _ _}.
Arguments TrainVAEProcess.get_kld_loss {_ _ _ _}.
Arguments TrainVAEProcess.get_tv_loss {_ _ _ _}.
Arguments TrainVAEProcess.critic_save {_ _ _}.
Arguments TrainVAEProcess.save {_ _ _}.
Arguments TrainVAEProcess.sample {_ _ _}.
Arguments TrainVAEProcess.latest {_ _ _}.
Arguments TrainVAEProcess.load_vae {_ _ _}.
Arguments TrainVAEProcess.critic_setup {_ _ _}.
Arguments TrainVAEProcess.critic_discriminator {_ _ _ _}.
Arguments TrainVAEProcess.critic_generator {_ _ _ _}.
Arguments TrainVAEProcess.compose_loss {_ _ _ _}.
Arguments TrainVAEProcess.log_scalars {_ _ _}.
Arguments TrainVAEProcess.periodic {_ _ _}.
Arguments TrainVAEProcess.vgg_pass {_ _ _}.
Arguments TrainVAEProcess.step_loss {_ _ _ _}.
Arguments TrainVAEProcess.train_body {_ _ _ _}.
Arguments TrainVAEProcess.budget_spent {_ _ _}.
Arguments TrainVAEProcess.batch_loop {_ _ _ _}.
Arguments TrainVAEProcess.epoch_scalars {_ _ _}.
Arguments TrainVAEProcess.end_epoch {_ _ _}.
Arguments TrainVAEProcess.epoch_loop {_ _ _ _}.
Arguments TrainVAEProcess.settle_budget {_ _ _}.
Arguments TrainVAEProcess.run {_ _ _ _}.
Arguments TrainVAEProcess.launch {_ _ _ _}.
Arguments TrainVAEProcess.mkProcess {_ _ _}.
Arguments TrainVAEProcess.step_num {_ _ _}.
Arguments TrainVAEProcess.epoch_num {_ _ _}.
Arguments TrainVAEProcess.cur_max_steps {_ _ _}.
Arguments TrainVAEProcess.cur_epochs {_ _ _}.
Arguments TrainVAEProcess.vae {_ _ _}.
Arguments TrainVAEProcess.critic {_ _ _}.
Arguments TrainVAEProcess.meta {_ _ _}.
Arguments TrainVAEProcess.epoch_losses {_ _ _}.
Arguments TrainVAEProcess.log_losses {_ _ _}.
Arguments TrainVAEProcess.save_root {_ _ _}.
Arguments TrainVAEProcess.clock {_ _ _}.
Arguments TrainVAEProcess.trace {_ _ _}.

(** ** Vocabulary of the statements *)


(** Ordering of two elements by an integer key. *)
Definition key_le {A : Type} (key : A -> Z) (a b : A) : Prop := key a <= key b.

(** The names in a listing. *)
Definition names (l : list FS.file) : list string := map FS.fname l.

(** Deleting a batch of files, as the loop of [clean_up_saves] does. *)
Definition remove_all (doomed : list FS.file) (d : FS.dir) : FS.dir :=
  fold_left (fun d g => FS.remove (FS.fname g) d) doomed d.

(** The weight, the computed value and the weighted contribution of a loss
    term of the autoencoder trainer. *)
Definition weight (c : TrainVAEProcess.config) (t : loss_term) : Q :=
  match t with
  | Style => TrainVAEProcess.style_weight c
  | Content => TrainVAEProcess.content_weight c
  | Kld => TrainVAEProcess.kld_weight c
  | Mse => TrainVAEProcess.mse_weight c
  | Tv => TrainVAEProcess.tv_weight c
  end.

Definition computed_value {features : Type}
    (f : TrainVAEProcess.forward_pass features) (t : loss_term) : Q :=
  match t with
  | Style => TrainVAEProcess.style_value f
  | Content => TrainVAEProcess.content_value f
  | Kld => TrainVAEProcess.kld_value f
  | Mse => TrainVAEProcess.mse_value f
  | Tv => TrainVAEProcess.tv_value f
  end.

Definition contribution (l : TrainVAEProcess.step_losses) (t : loss_term) : Q :=
  match t with
  | Style => TrainVAEProcess.style_loss l
  | Content => TrainVAEProcess.content_loss l
  | Kld => TrainVAEProcess.kld_loss l
  | Mse => TrainVAEProcess.mse_loss l
  | Tv => TrainVAEProcess.tv_loss l
  end.

(** The value of a term before weighting: computed under a positive
    weight, zero otherwise. *)
Definition term {features : Type} (c : TrainVAEProcess.config)
    (f : TrainVAEProcess.forward_pass features) (t : loss_term) : Q :=
  if Py.positive (weight c t) then computed_value f t else 0%Q.

(** The terms whose computation runs, in the order [run] asks for them. *)
Definition computed (c : TrainVAEProcess.config) : list loss_term :=
  filter (fun t => Py.positive (weight c t)) [Style; Content; Kld; Mse; Tv].


(** A computation of the autoencoder trainer only appends events, all of
    them satisfying [P]. *)
Definition extends {params grads opt_state A : Type} (P : event -> Prop)
    (m : TrainVAEProcess.M params grads opt_state A) : Prop :=
  forall p r p',
    m p = (r, p') ->
    exists evs,
      TrainVAEProcess.trace p' = TrainVAEProcess.trace p ++ evs /\ Forall P evs.


(** Results compared up to the value of the rational they carry. *)
Definition same_value (r1 r2 : result Q) : Prop :=
  match r1, r2 with
  | Ok a, Ok b => (a == b)%Q
  | Raise e1, Raise e2 => e1 = e2
  | _, _ => False
  end.

Definition value_of {S : Type} (r : result (S * Q)) : result Q :=
  match r with
  | Ok (_, q) => Ok q
  | Raise e => Raise e
  end.

Definition scale (r : result Q) (k : Q) : result Q :=
  match r with
  | Ok q => Ok (q * k)%Q
  | Raise e => Raise e
  end.

(** ** Concrete jobs used in the examples *)

(** A LoRA job of 10 steps saving every 5, keeping one step save. *)
Definition lora_job : BaseSDTrainProcess.config :=
  BaseSDTrainProcess.mkConfig "job" true 10 false true None (Some 5) None 1
                              false false false.

(** A process of [lora_job] at step 5 whose network runs at multiplier 1/2. *)
Definition lora_at_5 : BaseSDTrainProcess.process :=
  BaseSDTrainProcess.mkProcess 5 0
    (Some (BaseSDTrainProcess.mkNetwork (1 # 2) [3 # 1])) [] [] None 100 [].

(** The save root after [lora_at_5] saved at its step, and the checkpoint
    found there. *)
Definition lora_saved_root : FS.dir :=
  match BaseSDTrainProcess.save_root
          (BaseSDTrainProcess.save lora_job lora_at_5 (Some 5)) with
  | Some d => d
  | None => []
  end.

Definition lora_saved_file : FS.file :=
  match FS.find "job_000000005.safetensors" lora_saved_root with
  | Some f => f
  | None => FS.mkFile "" 0 0 [] []
  end.

(** A new process of the same job started on that save root. *)
Definition lora_resumed : BaseSDTrainProcess.process :=
  BaseSDTrainProcess.setup_network lora_job []
    (BaseSDTrainProcess.init [] (Some lora_saved_root) 200).

(** The same job with two step saves and the final checkpoint on disk,
    about to save at step 300. *)
Definition lora_with_two_saves : BaseSDTrainProcess.process :=
  BaseSDTrainProcess.mkProcess 300 0
    (Some (BaseSDTrainProcess.mkNetwork 1 [3 # 1])) [] []
    (Some [FS.mkFile "job_000000100.safetensors" 10 10 [1 # 1] [];
           FS.mkFile "job.safetensors" 15 15 [1 # 1] [];
           FS.mkFile "job_000000200.safetensors" 20 20 [2 # 1] []])
    30 [].

(** The job told to keep no step save at all. *)
Definition lora_job_keep_none : BaseSDTrainProcess.config :=
  BaseSDTrainProcess.mkConfig "job" true 10 false true None (Some 5) None 0
                              false false false.

(** A one-weight linear critic on scalar features: the score of a row is
    the weight times the row, there is no gradient penalty, the gradient of
    the critic loss with respect to the weight is the mean of the predictions
    minus the mean of the targets, and the optimizer is plain gradient
    descent with rate 1/10, which leaves the weight alone when the gradient
    slot is empty. *)
Definition linear_model (w : Q) (xs : list Q) : list Q :=
  map (fun x => (w * x)%Q) xs.

Definition no_penalty (w : Q) (real fake : list Q) : Q := 0%Q.

Definition linear_loss_gradient (w : Q) (xs : list Q) : Q :=
  match Tensor.chunk2 xs with
  | Ok (pred, target) => (Tensor.mean pred - Tensor.mean target)%Q
  | Raise _ => 0%Q
  end.

Definition gradient_descent (o : unit) (w : Q) (g : option Q) : unit * Q :=
  match g with
  | Some g => (o, Qred (w - (1 # 10) * g))
  | None => (o, w)
  end.

(** A forward pass whose reconstruction error at step [n] is [n + 1]. *)
Definition rising_mse (n : Z) : TrainVAEProcess.forward_pass Q :=
  TrainVAEProcess.mkForward Q 1 2 3 (inject_Z (n + 1)) 5 [1 # 1; 3 # 1].

Definition warmup_critic : Critic.config := Critic.mkConfig 2 10 0 4.



(** A critic state with weight 2, in training mode. *)
Definition critic_at_2 : Critic.state Q Q unit :=
  Critic.mkState (2 # 1) None tt 0 true.

(** An autoencoder job with a critic, the reconstruction and total-variation
    terms weighted 1 and the others off, and a process of it at step 2. *)
Definition vae_job_critic : TrainVAEProcess.config :=
  TrainVAEProcess.mkConfig "vae" (Some "vae.pt"%string) (Some []) None None
    (Some 4) None (Some []) 100 0 0 0 1 1 (1 # 2) true warmup_critic false.

Definition vae_at_2 : TrainVAEProcess.process Q Q unit :=
  TrainVAEProcess.mkProcess 2 0 (Some 4) (Some 1) (Some []) (Some critic_at_2)
    [] TrainVAEProcess.blank_losses TrainVAEProcess.blank_losses (Some []) 0 [].

(** The losses composed at that step, and the state afterwards. *)
Definition composed_at_2 : TrainVAEProcess.step_losses :=
  match fst (TrainVAEProcess.compose_loss linear_model vae_job_critic
               (rising_mse 2) 0 vae_at_2) with
  | Ok l => l
  | Raise _ => TrainVAEProcess.mkStepLosses 0 0 0 0 0 0 0 0
  end.

Definition vae_after_compose : TrainVAEProcess.process Q Q unit :=
  snd (TrainVAEProcess.compose_loss linear_model vae_job_critic (rising_mse 2)
         0 vae_at_2).

(** A job of 4 steps in one epoch that logs every 2 steps to a writer. *)
Definition vae_job_logging : TrainVAEProcess.config :=
  TrainVAEProcess.mkConfig "vae" (Some "vae.pt"%string) (Some []) None None
    (Some 4) None (Some []) 2 0 0 0 1 0 1 false warmup_critic true.

(** A job of 4 steps with neither periodic sampling nor periodic saving. *)
Definition vae_job_quiet : TrainVAEProcess.config :=
  TrainVAEProcess.mkConfig "vae" (Some "vae.pt"%string) (Some []) None None
    (Some 4) None (Some []) 100 0 0 0 1 0 1 false warmup_critic false.

(** A job asking for samples every 2 steps without naming sample sources. *)
Definition vae_job_no_sources : TrainVAEProcess.config :=
  TrainVAEProcess.mkConfig "vae" (Some "vae.pt"%string) (Some []) (Some 2) None
    (Some 4) None None 100 0 0 0 1 0 1 false warmup_critic false.

(** The launch of a job on the linear critic with 4 batches per epoch. *)
Definition vae_launch (c : TrainVAEProcess.config) : result unit * list event :=
  @TrainVAEProcess.launch Q Q Q unit linear_model no_penalty
    linear_loss_gradient gradient_descent 1%Q tt (fun w => [w])
    (fun l => hd 0%Q l) [] 4 rising_mse c None 0.

(** One critic update per generator step. *)
Definition single_update_critic : Critic.config := Critic.mkConfig 1 10 0 4.

(** An event of the diffusion trainer's loop is a training step or a
    periodic action taken at a step below [bound] at which the predicate
    fires for its interval. *)
Definition scheduled_action (c : BaseSDTrainProcess.config) (start bound : Z)
    (e : event) : Prop :=
  match e with
  | TrainStep _ => True
  | Sample s _ =>
      exists k,
        s = Some k /\ k < bound /\
        Schedule.should_fire k start (BaseSDTrainProcess.sample_every c) = true
  | WriteCheckpoint name _ =>
      exists k,
        name = BaseSDTrainProcess.checkpoint_name c (Some k) /\ k < bound /\
        Schedule.should_fire k start (BaseSDTrainProcess.save_every c) = true
  | Scalar _ _ k =>
      k < bound /\
      Schedule.should_fire k start (BaseSDTrainProcess.log_every c) = true
  | _ => False
  end.

(** ** The sample requests of the diffusion trainer: [BaseSDTrainProcess.sample] *)

Module SampleRequests.

(** The fields of [SampleConfig] that [sample] reads. *)
Record SampleConfig : Type := mkSampleConfig {
  prompts : list string;
  seed : Z;
  walk_seed : bool;
  width : Z;
  height : Z;
  neg : string;
  guidance_scale : Q;
  guidance_rescale : Q;
  sample_steps : Z;
  network_multiplier : Q
}.

Record GenerateImageConfig : Type := mkGenerateImageConfig {
  gi_prompt : string;
  gi_width : Z;
  gi_height : Z;
  gi_negative_prompt : string;
  gi_seed : Z;
  gi_guidance_scale : Q;
  gi_guidance_rescale : Q;
  gi_num_inference_steps : Z;
  gi_network_multiplier : Q;
  gi_output_path : string
}.

Definition starts_with_slash (s : string) : bool :=
  match s with
  | String c _ => Ascii.eqb c "/"
  | EmptyString => false
  end.

(** [os.path.join(a, b)] on a POSIX system. *)
Definition path_join (a b : string) : string :=
  if starts_with_slash b then b
  else if (String.eqb a "" || FS.ends_with "/" a)%bool then (a ++ b)%string
  else (a ++ "/" ++ b)%string.

(** [f"[time]_{step_num}_[count].png"]. *)
Definition filename (step : option Z) : string :=
  ("[time]_" ++ BaseSDTrainProcess.step_suffix step ++ "_[count].png")%string.

(** One pass through the body of [for i in range(len(prompts))]; the state
    is [current_seed] and the list built so far. *)
Definition request_body (sample_config : SampleConfig) (sample_folder : string)
    (step : option Z) (acc : Z * list GenerateImageConfig) (i : Z)
  : Z * list GenerateImageConfig :=
  let '(current_seed, gen_img_config_list) := acc in
  let current_seed :=
    if walk_seed sample_config then seed sample_config + i else current_seed in
  let output_path := path_join sample_folder (filename step) in
  (current_seed,
   gen_img_config_list
   ++ [mkGenerateImageConfig
         (nth (Z.to_nat i) (prompts sample_config) EmptyString)
         (width sample_config) (height sample_config) (neg sample_config)
         current_seed (guidance_scale sample_config)
         (guidance_rescale sample_config) (sample_steps sample_config)
         (network_multiplier sample_config) output_path]).

(** The list [sample] hands to [generate_images]. *)
Definition gen_img_config_list (save_root : string)
    (first_sample_config sample_config : SampleConfig) (step : option Z)
    (is_first : bool) : list GenerateImageConfig :=
  let sample_folder := path_join save_root "samples" in
  let sample_config := if is_first then first_sample_config else sample_config in
  let start_seed := seed sample_config in
  snd (fold_left (request_body sample_config sample_folder step)
                 (Py.range 0 (Z.of_nat (List.length (prompts sample_config))))
                 (start_seed, [])).

End SampleRequests.

(** ** Drawing batches in the diffusion trainer's loop *)

Module Batches.

Section Loader.

Variable batch : Type.

(** An iterator over a data loader is what is left of its sequence;
    [next] yields [None] for [StopIteration]. *)
Definition iter (dataloader : list batch) : list batch := dataloader.

Definition next (it : list batch) : option (batch * list batch) :=
  match it with
  | [] => None
  | b :: it' => Some (b, it')
  end.

(** The batch of one iteration: the next one, restarting the loader at the
    end of an epoch; without a data loader the batch is [None].  The outer
    [None] is a [StopIteration] raised by the restarted iterator. *)
Definition next_batch (dataloader : option (list batch)) (it : list batch)
  : option (option batch * list batch) :=
  match dataloader with
  | Some dl =>
      match next it with
      | Some (b, it') => Some (Some b, it')
      | None =>
          match next (iter dl) with
          | Some (b, it') => Some (Some b, it')
          | None => None
          end
      end
  | None => Some (None, it)
  end.

Fixpoint draw (dataloader : option (list batch)) (it : list batch) (n : nat)
  : option (list (option batch)) :=
  match n with
  | O => Some []
  | S n' =>
      match next_batch dataloader it with
      | Some (b, it') =>
          match draw dataloader it' n' with
          | Some bs => Some (b :: bs)
          | None => None
          end
      | None => None
      end
  end.

(** The batches of the first [n] iterations of the loop. *)
Definition loop_batches (dataloader : option (list batch)) (n : nat)
  : option (list (option batch)) :=
  draw dataloader (match dataloader with Some dl => iter dl | None => [] end) n.

End Loader.

End Batches.

Arguments Batches.iter {batch} dataloader.
Arguments Batches.next {batch} it.
Arguments Batches.next_batch {batch} dataloader it.
Arguments Batches.draw {batch} dataloader it n.
Arguments Batches.loop_batches {batch} dataloader n.

(** The request for prompt [i], with the seed in closed form. *)
Definition request_for (sc : SampleRequests.SampleConfig) (folder : string)
    (step : option Z) (i : nat) : SampleRequests.GenerateImageConfig :=
  SampleRequests.mkGenerateImageConfig
    (nth i (SampleRequests.prompts sc) EmptyString)
    (SampleRequests.width sc) (SampleRequests.height sc) (SampleRequests.neg sc)
    (if SampleRequests.walk_seed sc
     then SampleRequests.seed sc + Z.of_nat i
     else SampleRequests.seed sc)
    (SampleRequests.guidance_scale sc) (SampleRequests.guidance_rescale sc)
    (SampleRequests.sample_steps sc) (SampleRequests.network_multiplier sc)
    (SampleRequests.path_join folder (SampleRequests.filename step)).

(** Three prompts sampled with a walking seed. *)
Definition walking_prompts : SampleRequests.SampleConfig :=
  SampleRequests.mkSampleConfig ["a cat"; "a dog"; "a bird"]%string 42 true
    512 512 "" 7 0 20 1.

(** An event other than a training step. *)
Definition quiet (e : event) : Prop := is_train_step e = false.

(** A training step numbered from [lo] and below [hi], or any other event. *)
Definition within_budget (lo hi : Z) (e : event) : Prop :=
  forall j, e = TrainStep j -> lo <= j < hi.

(** A computation of the autoencoder trainer leaves the step counter and
    the step budget as they are. *)
Definition preserves {params grads opt_state A : Type}
    (m : TrainVAEProcess.M params grads opt_state A) : Prop :=
  forall p r p',
    m p = (r, p') ->
    TrainVAEProcess.step_num p' = TrainVAEProcess.step_num p /\
    TrainVAEProcess.cur_max_steps p' = TrainVAEProcess.cur_max_steps p.

(** A dataset entry [__init__] accepts. *)
Definition dataset_ok (d : TrainVAEProcess.dataset) : Prop :=
  TrainVAEProcess.ds_path d <> None /\ TrainVAEProcess.ds_is_dir d = true.

(** The number of epochs [run] settles on for a step budget [m], an optional
    epoch count and [batches] batches per epoch. *)
Definition settled_epochs (batches : nat) (m : Z) (ep : option Z) : Z :=
  match ep with
  | Some e => Z.min e (m / Z.of_nat batches)
  | None => m / Z.of_nat batches
  end.

(** A job with a budget of 10 steps and no epoch count. *)
Definition vae_job_ten_steps : TrainVAEProcess.config :=
  TrainVAEProcess.mkConfig "vae" (Some "vae.pt"%string) (Some []) None None
    (Some 10) None (Some []) 100 0 0 0 1 0 1 false warmup_critic false.

(** A job that names epochs and no step budget. *)
Definition vae_job_epochs_only : TrainVAEProcess.config :=
  TrainVAEProcess.mkConfig "vae" (Some "vae.pt"%string) (Some []) None (Some 2)
    None None (Some []) 100 0 0 0 1 0 1 false warmup_critic false.

(** A job that asks for no periodic samples and names no sample sources. *)
Definition vae_job_unsampled : TrainVAEProcess.config :=
  TrainVAEProcess.mkConfig "vae" (Some "vae.pt"%string) (Some []) None None
    (Some 4) None None 100 0 0 0 1 0 1 false warmup_critic false.

(** A process of the job with a critic at step 7 of epoch 1, holding the
    weights [[3; 5]], whose save root has the checkpoint of step 3; what a
    save at step 7 leaves, and a new process started on that save root. *)
Definition vae_trained : TrainVAEProcess.process Q Q unit :=
  TrainVAEProcess.mkProcess 7 1 (Some 8) (Some 2) (Some [3 # 1; 5 # 1])
    (Some critic_at_2) [] TrainVAEProcess.blank_losses
    TrainVAEProcess.blank_losses
    (Some [FS.mkFile "vae_000000003.safetensors" 10 10 [1 # 1; 1 # 1] []])
    50 [].

Definition vae_saved : TrainVAEProcess.process Q Q unit :=
  snd (TrainVAEProcess.save (fun w => [w]) vae_job_critic (Some 7) vae_trained).

Definition vae_restarted : TrainVAEProcess.process Q Q unit :=
  TrainVAEProcess.mkProcess 0 0 (Some 8) None None None [] [] []
    (TrainVAEProcess.save_root vae_saved) 60 [].

Definition vae_saved_file : FS.file :=
  FS.mkFile "vae_000000007.safetensors" 50 50 [3 # 1; 5 # 1]
    [("training_info"%string,
      Dict.VDict [("step"%string, Dict.VInt 7); ("epoch"%string, Dict.VInt 1)])].

Definition vae_reloaded : TrainVAEProcess.process Q Q unit :=
  snd (TrainVAEProcess.load_vae [] vae_job_critic vae_restarted).

(** The condition under which [run] sets up VGG-19 and passes every batch
    through it: [self.style_weight > 0 or self.content_weight > 0 or
    self.use_critic]. *)
Definition vgg_in_use (c : TrainVAEProcess.config) : bool :=
  (Py.positive (TrainVAEProcess.style_weight c)
   || Py.positive (TrainVAEProcess.content_weight c)
   || TrainVAEProcess.use_critic c)%bool.

(** The losses of step 2 of the job with a critic, and the state after
    them. *)
Definition stepped_at_2 : TrainVAEProcess.step_losses :=
  match fst (TrainVAEProcess.step_loss linear_model no_penalty
               linear_loss_gradient gradient_descent vae_job_critic
               (rising_mse 2) vae_at_2) with
  | Ok l => l
  | Raise _ => TrainVAEProcess.mkStepLosses 0 0 0 0 0 0 0 0
  end.

Definition vae_after_step : TrainVAEProcess.process Q Q unit :=
  snd (TrainVAEProcess.step_loss linear_model no_penalty linear_loss_gradient
         gradient_descent vae_job_critic (rising_mse 2) vae_at_2).

(** * Properties *)

(** ** The periodic predicate *)

Lemma interval_due_iff (every : option Z) (s : Z) :
  Schedule.interval_due every s = true <->
  exists i, every = Some i /\ i <> 0 /\ s mod i = 0.
Proof.
  unfold Schedule.interval_due.
  destruct every as [i|].
  - rewrite andb_true_iff, negb_true_iff, Z.eqb_neq, Z.eqb_eq.
    split.
    + intros [Hi Hm]. exists i. auto.
    + intros (j & Hj & Hi & Hm). inversion Hj; subst. auto.
  - split; [discriminate|]. intros (j & Hj & _). discriminate.
Qed.

(** The predicate fires exactly when the interval is neither [None] nor
    [0], the step differs from the start step, and the step is a multiple of
    the interval. *)
Lemma should_fire_spec (s start : Z) (every : option Z) :
  Schedule.should_fire s start every = true <->
  exists i, every = Some i /\ i <> 0 /\ s <> start /\ s mod i = 0.
Proof.
  unfold Schedule.should_fire.
  rewrite andb_true_iff, negb_true_iff, Z.eqb_neq, interval_due_iff.
  split.
  - intros (Hs & i & He & Hi & Hm). exists i. auto.
  - intros (i & He & Hi & Hs & Hm). split; [assumption|]. exists i. auto.
Qed.

Lemma should_fire_falsy (s start : Z) (every : option Z) :
  Py.truthy every = false -> Schedule.should_fire s start every = false.
Proof.
  unfold Schedule.should_fire, Schedule.interval_due, Py.truthy.
  destruct every as [i|]; intros H.
  - rewrite H. simpl. apply andb_false_r.
  - apply andb_false_r.
Qed.

Lemma should_fire_at_start (s : Z) (every : option Z) :
  Schedule.should_fire s s every = false.
Proof.
  unfold Schedule.should_fire. now rewrite Z.eqb_refl.
Qed.

(** ** The diffusion trainer: what [save] leaves untouched *)

Section BaseSDFrames.

Import BaseSDTrainProcess.

Lemma clean_up_saves_frame (c : config) (p : process) :
  step_num (clean_up_saves c p) = step_num p /\
  start_step (clean_up_saves c p) = start_step p /\
  net (clean_up_saves c p) = net p /\
  meta (clean_up_saves c p) = meta p /\
  trace (clean_up_saves c p) = trace p.
Proof.
  unfold clean_up_saves.
  destruct (save_root p) as [d|]; [|now repeat split].
  destruct (max_step_saves_to_keep c <? _); now repeat split.
Qed.

Lemma save_checkpoint_steps (c : config) (p : process) (step : option Z) :
  step_num (save_checkpoint c p step) = step_num p /\
  start_step (save_checkpoint c p step) = start_step p.
Proof.
  unfold save_checkpoint, set_multiplier, network_save_weights, sd_save.
  destruct p as [sn st n sd m r k tr].
  destruct r as [d|]; destruct n as [[mu w]|]; simpl; now split.
Qed.

Lemma save_steps (c : config) (p : process) (step : option Z) :
  step_num (save c p step) = step_num p /\
  start_step (save c p step) = start_step p.
Proof.
  unfold save.
  destruct (clean_up_saves_frame c (save_checkpoint c p step)) as (H1 & H2 & _).
  destruct (save_checkpoint_steps c p step) as (H3 & H4).
  split; congruence.
Qed.

(** With a network, the serializer sees the multiplier [1.0] and the
    previous multiplier is put back. *)
Lemma save_checkpoint_network (c : config) (p : process) (step : option Z)
    (n : network) :
  net p = Some n ->
  net (save_checkpoint c p step) = Some n /\
  trace (save_checkpoint c p step) =
    trace p ++ [WriteCheckpoint (checkpoint_name c step) (Some 1%Q)].
Proof.
  intros Hn.
  unfold save_checkpoint, set_multiplier, network_save_weights.
  destruct p as [sn st n0 sd m r k tr]. simpl in Hn. subst n0.
  destruct n as [mu w].
  destruct r as [d|]; simpl; now split.
Qed.

Lemma save_checkpoint_without_network (c : config) (p : process)
    (step : option Z) :
  net p = None ->
  net (save_checkpoint c p step) = None /\
  trace (save_checkpoint c p step) =
    trace p ++ [WriteCheckpoint (checkpoint_name c step) None].
Proof.
  intros Hn.
  unfold save_checkpoint, sd_save.
  destruct p as [sn st n0 sd m r k tr]. simpl in Hn. subst n0.
  destruct r as [d|]; simpl; now split.
Qed.

End BaseSDFrames.

(** C10. With a network present, [save] returns with the network's
    multiplier equal to its value before the call; the weights are
    serialized while the multiplier is [1.0]. *)
Theorem save_restores_multiplier
    (c : BaseSDTrainProcess.config) (p : BaseSDTrainProcess.process)
    (step : option Z) (n : BaseSDTrainProcess.network) :
  BaseSDTrainProcess.net p = Some n ->
  (exists n',
      BaseSDTrainProcess.net (BaseSDTrainProcess.save c p step) = Some n' /\
      BaseSDTrainProcess.multiplier n' = BaseSDTrainProcess.multiplier n) /\
  BaseSDTrainProcess.trace (BaseSDTrainProcess.save c p step) =
    BaseSDTrainProcess.trace p
    ++ [WriteCheckpoint (BaseSDTrainProcess.checkpoint_name c step) (Some 1%Q)].
Proof.
  intros Hn.
  unfold BaseSDTrainProcess.save.
  destruct (clean_up_saves_frame c (BaseSDTrainProcess.save_checkpoint c p step))
    as (_ & _ & Hnet & _ & Htr).
  destruct (save_checkpoint_network c p step n Hn) as (Hn' & Htr').
  split.
  - exists n. split; [congruence | reflexivity].
  - congruence.
Qed.

Lemma save_restores_multiplier_witness :
  BaseSDTrainProcess.net lora_at_5
  = Some (BaseSDTrainProcess.mkNetwork (1 # 2) [3 # 1]) /\
  (exists n',
      BaseSDTrainProcess.net (BaseSDTrainProcess.save lora_job lora_at_5 (Some 5))
      = Some n' /\
      BaseSDTrainProcess.multiplier n' = (1 # 2)%Q) /\
  BaseSDTrainProcess.trace (BaseSDTrainProcess.save lora_job lora_at_5 (Some 5)) =
    [WriteCheckpoint "job_000000005.safetensors" (Some 1%Q)].
Proof.
  split; [reflexivity|].
  apply (save_restores_multiplier lora_job lora_at_5 (Some 5)
           (BaseSDTrainProcess.mkNetwork (1 # 2) [3 # 1])).
  reflexivity.
Defined.

(** ** Saving, then resuming *)

Lemma dict_get_set (d : Dict.t) (k k' : string) (v : Dict.value) :
  Dict.get (Dict.set d k v) k' =
  if String.eqb k' k then Some v else Dict.get d k'.
Proof.
  induction d as [|[k0 v0] d IH]; simpl.
  - reflexivity.
  - destruct (String.eqb k k0) eqn:Hk; simpl.
    + apply String.eqb_eq in Hk. subst k0.
      destruct (String.eqb k' k); reflexivity.
    + rewrite IH.
      destruct (String.eqb k' k0) eqn:Hk0; [|reflexivity].
      apply String.eqb_eq in Hk0. subst k0.
      destruct (String.eqb k' k) eqn:Hkk; [|reflexivity].
      apply String.eqb_eq in Hkk. subst k'.
      rewrite String.eqb_refl in Hk. discriminate.
Qed.

Lemma find_write (f : FS.file) (d : FS.dir) :
  FS.find (FS.fname f) (FS.write f d) = Some f.
Proof.
  induction d as [|g d IH]; simpl.
  - now rewrite String.eqb_refl.
  - destruct (String.eqb (FS.fname g) (FS.fname f)) eqn:Hg; simpl.
    + now rewrite String.eqb_refl.
    + now rewrite Hg.
Qed.

Lemma find_name (name : string) (d : FS.dir) (f : FS.file) :
  FS.find name d = Some f -> In f d /\ FS.fname f = name.
Proof.
  induction d as [|g d IH]; simpl; [discriminate|].
  destruct (String.eqb (FS.fname g) name) eqn:Hg.
  - intros H. inversion H; subst. split; [now left | now apply String.eqb_eq].
  - intros H. destruct (IH H). split; [now right | assumption].
Qed.

Lemma find_remove (name x : string) (d : FS.dir) (f : FS.file) :
  FS.find name (FS.remove x d) = Some f -> FS.find name d = Some f.
Proof.
  induction d as [|g d IH]; simpl; [discriminate|].
  destruct (String.eqb (FS.fname g) x) eqn:Hx; simpl.
  - intros H. destruct (String.eqb (FS.fname g) name) eqn:Hn; [|auto].
    apply String.eqb_eq in Hx, Hn. subst.
    apply find_name in H. destruct H as [Hin Hf].
    apply filter_In in Hin. destruct Hin as [_ Hne].
    rewrite Hf, String.eqb_refl in Hne. discriminate.
  - destruct (String.eqb (FS.fname g) name); auto.
Qed.

Lemma find_remove_all (name : string) (doomed : list FS.file) (d : FS.dir)
    (f : FS.file) :
  FS.find name (fold_left (fun d g => FS.remove (FS.fname g) d) doomed d) = Some f ->
  FS.find name d = Some f.
Proof.
  revert d. induction doomed as [|g doomed IH]; simpl; intros d H; [assumption|].
  apply IH in H. now apply find_remove in H.
Qed.

Section Resume.

Import BaseSDTrainProcess.

Lemma update_training_metadata_step (c : config) (p : process) :
  stored_step (meta (update_training_metadata c p)) = Some (step_num p + 1).
Proof.
  unfold update_training_metadata, stored_step, Dict.mem,
    Metadata.add_base_model_info_to_meta, Metadata.add_meta, Dict.update.
  destruct p as [sn st n sd m r k tr]; simpl.
  destruct (is_v2 c); [|destruct (is_xl c)]; simpl;
    repeat (rewrite dict_get_set; simpl); reflexivity.
Qed.

(** The file [save] writes: its name and the step its metadata carries. *)
Lemma save_checkpoint_file (c : config) (p : process) (step : option Z) :
  exists f0,
    save_root (save_checkpoint c p step)
    = Some (FS.write f0 (match save_root p with Some d => d | None => [] end)) /\
    FS.fname f0 = checkpoint_name c step /\
    FS.fctime f0 = clock p /\
    stored_step (FS.fmeta f0) = Some (step_num p + 1).
Proof.
  pose proof (update_training_metadata_step c p) as Hm.
  unfold save_checkpoint, set_multiplier, network_save_weights, sd_save,
    Metadata.get_meta_for_safetensors.
  destruct p as [sn st n sd m r k tr].
  destruct r as [d|]; destruct n as [[mu w]|]; simpl in *;
    eexists (FS.mkFile _ _ _ _ _); (split; [reflexivity|]);
    simpl; repeat split; exact Hm.
Qed.

Lemma saved_file_step (c : config) (p : process) (step : option Z)
    (d : FS.dir) (f : FS.file) :
  save_root (save c p step) = Some d ->
  FS.find (checkpoint_name c step) d = Some f ->
  stored_step (FS.fmeta f) = Some (step_num p + 1).
Proof.
  intros Hd Hf.
  destruct (save_checkpoint_file c p step) as (f0 & Hw & Hname & _ & Hstep).
  set (d0 := match save_root p with Some d => d | None => [] end) in *.
  unfold save, clean_up_saves in Hd. rewrite Hw in Hd.
  assert (Hfound : FS.find (checkpoint_name c step) (FS.write f0 d0) = Some f).
  { destruct (max_step_saves_to_keep c <? _) in Hd; simpl in Hd;
      try rewrite Hw in Hd; inversion Hd; subst d; clear Hd.
    - now apply find_remove_all in Hf.
    - assumption. }
  rewrite <- Hname, find_write in Hfound. inversion Hfound; subst. assumption.
Qed.

End Resume.

(** C1, as the code has it.  A checkpoint saved while the counter is [N]
    carries step [N + 1]; when that checkpoint is the latest save, the
    network set-up of a new process resumes with both [step_num] and
    [start_step] equal to [N + 1], and at the resumed step the periodic
    predicate is false for every interval. *)
Theorem resume_after_save
    (c : BaseSDTrainProcess.config) (p : BaseSDTrainProcess.process)
    (step : option Z) (fresh sd : list Q) (now : Z) (d : FS.dir) (f : FS.file) :
  BaseSDTrainProcess.has_network_config c = true ->
  BaseSDTrainProcess.save_root (BaseSDTrainProcess.save c p step) = Some d ->
  FS.find (BaseSDTrainProcess.checkpoint_name c step) d = Some f ->
  BaseSDTrainProcess.get_latest_save_path c
    (BaseSDTrainProcess.init sd (Some d) now) = Some f ->
  let r := BaseSDTrainProcess.setup_network c fresh
             (BaseSDTrainProcess.init sd (Some d) now) in
  BaseSDTrainProcess.step_num r = BaseSDTrainProcess.step_num p + 1 /\
  BaseSDTrainProcess.start_step r = BaseSDTrainProcess.step_num p + 1 /\
  forall every,
    Schedule.should_fire (BaseSDTrainProcess.step_num r)
                         (BaseSDTrainProcess.start_step r) every = false.
Proof.
  intros Hnet Hd Hf Hlatest r.
  pose proof (saved_file_step c p step d f Hd Hf) as Hstep.
  assert (Hr : BaseSDTrainProcess.step_num r = BaseSDTrainProcess.step_num p + 1
               /\ BaseSDTrainProcess.start_step r
                  = BaseSDTrainProcess.step_num p + 1).
  { subst r. unfold BaseSDTrainProcess.setup_network. rewrite Hnet.
    unfold BaseSDTrainProcess.get_latest_save_path in *. simpl in *.
    rewrite Hlatest.
    unfold BaseSDTrainProcess.load_weights,
      Metadata.load_metadata_from_safetensors. simpl.
    rewrite Hstep. simpl. split; reflexivity. }
  destruct Hr as [Hs Hst].
  repeat split; try assumption.
  intros every. rewrite Hs, Hst. apply should_fire_at_start.
Qed.

Lemma resume_after_save_witness :
  BaseSDTrainProcess.has_network_config lora_job = true /\
  BaseSDTrainProcess.save_root (BaseSDTrainProcess.save lora_job lora_at_5 (Some 5))
  = Some lora_saved_root /\
  FS.find (BaseSDTrainProcess.checkpoint_name lora_job (Some 5)) lora_saved_root
  = Some lora_saved_file /\
  BaseSDTrainProcess.get_latest_save_path lora_job
    (BaseSDTrainProcess.init [] (Some lora_saved_root) 200) = Some lora_saved_file /\
  BaseSDTrainProcess.step_num lora_resumed = 5 + 1 /\
  BaseSDTrainProcess.start_step lora_resumed = 5 + 1 /\
  forall every,
    Schedule.should_fire (BaseSDTrainProcess.step_num lora_resumed)
                         (BaseSDTrainProcess.start_step lora_resumed) every = false.
Proof.
  assert (H1 : BaseSDTrainProcess.has_network_config lora_job = true)
    by reflexivity.
  assert (H2 : BaseSDTrainProcess.save_root
                 (BaseSDTrainProcess.save lora_job lora_at_5 (Some 5))
               = Some lora_saved_root) by reflexivity.
  assert (H3 : FS.find (BaseSDTrainProcess.checkpoint_name lora_job (Some 5))
                 lora_saved_root = Some lora_saved_file) by reflexivity.
  assert (H4 : BaseSDTrainProcess.get_latest_save_path lora_job
                 (BaseSDTrainProcess.init [] (Some lora_saved_root) 200)
               = Some lora_saved_file) by reflexivity.
  repeat (split; [assumption|]).
  exact (resume_after_save lora_job lora_at_5 (Some 5) [] [] 200 lora_saved_root
           lora_saved_file H1 H2 H3 H4).
Defined.

(** The claim as the specification words it fails: saving at step 5 and
    resuming gives step 6, not 5. *)
Lemma resume_same_step_counterexample :
  BaseSDTrainProcess.step_num lora_at_5 = 5 /\
  ~ (BaseSDTrainProcess.step_num lora_resumed = 5 /\
     BaseSDTrainProcess.start_step lora_resumed = 5 /\
     forall every,
       Schedule.should_fire 5 (BaseSDTrainProcess.start_step lora_resumed) every
       = false).
Proof.
  split; [reflexivity|].
  intros (H & _). vm_compute in H. discriminate.
Qed.

(** ** Sorting by a key *)

Section SortBy.

Variable A : Type.
Variable key : A -> Z.

Lemma insert_by_perm (x : A) (l : list A) :
  Permutation (Py.insert_by key x l) (x :: l).
Proof.
  induction l as [|y l IH]; simpl.
  - apply Permutation_refl.
  - destruct (key x <=? key y).
    + apply Permutation_refl.
    + apply Permutation_trans with (y :: x :: l).
      * now apply perm_skip.
      * apply perm_swap.
Qed.

Lemma sort_by_perm (l : list A) : Permutation (Py.sort_by key l) l.
Proof.
  induction l as [|x l IH]; simpl.
  - apply Permutation_refl.
  - apply Permutation_trans with (x :: Py.sort_by key l).
    + apply insert_by_perm.
    + now apply perm_skip.
Qed.

Lemma insert_by_sorted (x : A) (l : list A) :
  StronglySorted (key_le key) l -> StronglySorted (key_le key) (Py.insert_by key x l).
Proof.
  induction 1 as [|y l Hs IH Hall]; simpl.
  - constructor; constructor.
  - destruct (key x <=? key y) eqn:Hxy.
    + apply Z.leb_le in Hxy.
      constructor.
      * now constructor.
      * constructor; [assumption|].
        eapply Forall_impl; [|exact Hall].
        intros a Ha. unfold key_le in *. lia.
    + apply Z.leb_gt in Hxy.
      constructor; [assumption|].
      apply (Permutation_Forall (Permutation_sym (insert_by_perm x l))).
      constructor; [unfold key_le; lia | assumption].
Qed.

Lemma sort_by_sorted (l : list A) : StronglySorted (key_le key) (Py.sort_by key l).
Proof.
  induction l as [|x l IH]; simpl.
  - constructor.
  - now apply insert_by_sorted.
Qed.

(** In a sorted list, everything before a cut is below everything after. *)
Lemma sorted_cut (n : nat) (l : list A) (a b : A) :
  StronglySorted (key_le key) l ->
  In a (firstn n l) -> In b (skipn n l) -> key a <= key b.
Proof.
  intros Hs. revert n.
  induction Hs as [|y l Hs IH Hall]; intros n Ha Hb.
  - now rewrite firstn_nil in Ha.
  - destruct n as [|n]; simpl in *; [contradiction|].
    destruct Ha as [Ha|Ha].
    + subst y. rewrite Forall_forall in Hall.
      apply Hall. rewrite <- (firstn_skipn n l). apply in_or_app. now right.
    + eapply IH; eauto.
Qed.

End SortBy.

(** ** Directory listings *)

Section Listings.

Lemma in_remove (x : string) (d : FS.dir) (f : FS.file) :
  In f (FS.remove x d) <-> In f d /\ FS.fname f <> x.
Proof.
  unfold FS.remove. rewrite filter_In, negb_true_iff.
  split; intros [H1 H2]; split; try assumption.
  - intros E. apply String.eqb_eq in E. congruence.
  - apply String.eqb_neq. assumption.
Qed.

Lemma in_remove_all (doomed : list FS.file) (d : FS.dir) (f : FS.file) :
  In f (remove_all doomed d) <-> In f d /\ ~ In (FS.fname f) (names doomed).
Proof.
  unfold remove_all. revert d.
  induction doomed as [|g doomed IH]; intros d; simpl.
  - tauto.
  - rewrite IH, in_remove. split.
    + intros [[H1 H2] H3]. split; [assumption|].
      intros [E|E]; [congruence | contradiction].
    + intros [H1 H2]. repeat split; try assumption.
      * intros E. apply H2. left. congruence.
      * intros E. apply H2. now right.
Qed.

Lemma nodup_remove_all (doomed : list FS.file) (d : FS.dir) :
  NoDup d -> NoDup (remove_all doomed d).
Proof.
  unfold remove_all. revert d.
  induction doomed as [|g doomed IH]; intros d Hd; simpl; [assumption|].
  apply IH. now apply NoDup_filter.
Qed.

Lemma nodup_names_inj (l : list FS.file) (a b : FS.file) :
  NoDup (names l) -> In a l -> In b l -> FS.fname a = FS.fname b -> a = b.
Proof.
  unfold names.
  induction l as [|x l IH]; simpl; intros Hnd Ha Hb E; [contradiction|].
  inversion Hnd as [|? ? Hx Hl]; subst.
  destruct Ha as [Ha|Ha], Hb as [Hb|Hb]; subst.
  - reflexivity.
  - exfalso. apply Hx. rewrite E. now apply in_map.
  - exfalso. apply Hx. rewrite <- E. now apply in_map.
  - now apply IH.
Qed.

Lemma nodup_names_filter (P : FS.file -> bool) (l : list FS.file) :
  NoDup (names l) -> NoDup (names (filter P l)).
Proof.
  unfold names.
  induction l as [|x l IH]; simpl; intros Hnd; [constructor|].
  inversion Hnd as [|? ? Hx Hl]; subst.
  destruct (P x); simpl; [|now apply IH].
  constructor; [|now apply IH].
  intros Hin. apply Hx.
  apply in_map_iff in Hin. destruct Hin as (y & Hy & Hin).
  apply filter_In in Hin. rewrite <- Hy. apply in_map. tauto.
Qed.

Lemma names_write (f : FS.file) (d : FS.dir) :
  names (FS.write f d) =
  if FS.exists_name (FS.fname f) d then names d else names d ++ [FS.fname f].
Proof.
  unfold names, FS.exists_name.
  induction d as [|g d IH]; simpl; [reflexivity|].
  destruct (String.eqb (FS.fname g) (FS.fname f)) eqn:Hg; simpl.
  - apply String.eqb_eq in Hg. now rewrite Hg.
  - rewrite IH. now destruct (existsb _ d).
Qed.

Lemma exists_name_in (x : string) (d : FS.dir) :
  FS.exists_name x d = true <-> In x (names d).
Proof.
  unfold FS.exists_name, names. rewrite existsb_exists, in_map_iff.
  split; intros (g & H1 & H2); exists g.
  - apply String.eqb_eq in H2. tauto.
  - split; [assumption|]. now apply String.eqb_eq.
Qed.

Lemma nodup_names_write (f : FS.file) (d : FS.dir) :
  NoDup (names d) -> NoDup (names (FS.write f d)).
Proof.
  intros Hnd. rewrite names_write.
  destruct (FS.exists_name (FS.fname f) d) eqn:He; [assumption|].
  apply NoDup_app; [assumption | repeat constructor; intros [] |].
  intros a Ha [E|[]]. subst a.
  apply exists_name_in in Ha. congruence.
Qed.

End Listings.

(** ** File names of a job *)

Section JobNames.

Lemma prefix_append_differs (job rest1 rest2 : string) (a b : ascii) :
  a <> b ->
  String.prefix (job ++ String a rest1) (job ++ String b rest2) = false.
Proof.
  intros Hab. induction job as [|x job IH]; simpl.
  - destruct (Ascii.ascii_dec a b); [contradiction | reflexivity].
  - destruct (Ascii.ascii_dec x x); [assumption | reflexivity].
Qed.

(** The unsuffixed final checkpoint is outside the pattern
    [{job_name}_*.safetensors]. *)
Lemma final_name_not_step_save (job : string) :
  FS.matches (job ++ "_") ".safetensors" (job ++ ".safetensors") = false.
Proof.
  unfold FS.matches.
  rewrite (prefix_append_differs job "" "safetensors" "_" "."); [reflexivity|].
  discriminate.
Qed.

End JobNames.

(** ** Retention of step saves by the diffusion trainer *)

Section Retention.

Import BaseSDTrainProcess.

Variable c : config.

(** A listing with distinct names, cut after sorting its step saves by
    creation time: the step saves left once the older part is deleted are
    exactly the newer part. *)
Lemma survivors_are_newer_part (d : FS.dir) (m : nat) (g : FS.file) :
  NoDup (names d) ->
  let sorted := Py.sort_by FS.fctime (step_saves c d) in
  In g (step_saves c (remove_all (firstn m sorted) d)) <-> In g (skipn m sorted).
Proof.
  intros Hnd sorted.
  assert (Hperm : Permutation sorted (step_saves c d)) by apply sort_by_perm.
  assert (Hnds : NoDup (names sorted)).
  { unfold names. eapply Permutation_NoDup.
    - apply Permutation_map. apply Permutation_sym. exact Hperm.
    - apply nodup_names_filter. exact Hnd. }
  assert (Hsplit : sorted = firstn m sorted ++ skipn m sorted)
    by (symmetry; apply firstn_skipn).
  unfold step_saves, FS.glob in *.
  rewrite filter_In, in_remove_all.
  split.
  - intros [[Hd Hout] Hmatch].
    assert (Hs : In g sorted).
    { eapply Permutation_in; [apply Permutation_sym; exact Hperm|].
      apply filter_In. now split. }
    rewrite Hsplit in Hs. apply in_app_or in Hs. destruct Hs as [Hs|Hs].
    + exfalso. apply Hout. unfold names. now apply in_map.
    + assumption.
  - intros Hg.
    assert (Hs : In g sorted) by (rewrite Hsplit; apply in_or_app; now right).
    pose proof (Permutation_in _ Hperm Hs) as Hf.
    apply filter_In in Hf. destruct Hf as [Hd Hmatch].
    repeat split; try assumption.
    intros Hin. unfold names in Hin.
    apply in_map_iff in Hin. destruct Hin as (a & Hname & Ha).
    assert (Has : In a sorted) by (rewrite Hsplit; apply in_or_app; now left).
    assert (E : a = g) by (apply (nodup_names_inj sorted); assumption).
    subst a.
    unfold names in Hnds. rewrite Hsplit, map_app in Hnds.
    clear - Hnds Ha Hg.
    induction (firstn m sorted) as [|x l IH]; simpl in *; [contradiction|].
    inversion Hnds as [|? ? Hx Hl]; subst.
    destruct Ha as [Ha|Ha].
    + subst x. apply Hx. apply in_or_app. right. now apply in_map.
    + now apply IH.
Qed.

(** What was deleted belongs to the older part. *)
Lemma deleted_are_older_part (d : FS.dir) (m : nat) (f : FS.file) :
  NoDup (names d) ->
  let sorted := Py.sort_by FS.fctime (step_saves c d) in
  In f (step_saves c d) ->
  ~ In f (remove_all (firstn m sorted) d) ->
  In f (firstn m sorted).
Proof.
  intros Hnd sorted Hf Hgone.
  assert (Hperm : Permutation sorted (step_saves c d)) by apply sort_by_perm.
  assert (Hnds : NoDup (names sorted)).
  { unfold names. eapply Permutation_NoDup.
    - apply Permutation_map. apply Permutation_sym. exact Hperm.
    - apply nodup_names_filter. exact Hnd. }
  assert (Hd : In f d) by (apply filter_In in Hf; tauto).
  destruct (in_dec string_dec (FS.fname f) (names (firstn m sorted))) as [Hin|Hout].
  - unfold names in Hin. apply in_map_iff in Hin.
    destruct Hin as (a & Hname & Ha).
    assert (Has : In a sorted).
    { rewrite <- (firstn_skipn m sorted). apply in_or_app. now left. }
    assert (Hfs : In f sorted).
    { eapply Permutation_in; [apply Permutation_sym; exact Hperm | exact Hf]. }
    assert (E : a = f) by (apply (nodup_names_inj sorted); assumption).
    now subst a.
  - exfalso. apply Hgone. apply in_remove_all. now split.
Qed.

(** Files outside the pattern are never deleted. *)
Lemma unmatched_survive (d : FS.dir) (doomed : list FS.file) (h : FS.file) :
  incl doomed (step_saves c d) ->
  In h d ->
  FS.matches (job_name c ++ "_") ".safetensors" (FS.fname h) = false ->
  In h (remove_all doomed d).
Proof.
  intros Hincl Hh Hmatch.
  apply in_remove_all. split; [assumption|].
  intros Hin. unfold names in Hin. apply in_map_iff in Hin.
  destruct Hin as (a & Hname & Ha).
  apply Hincl in Ha. unfold step_saves, FS.glob in Ha.
  apply filter_In in Ha. destruct Ha as [_ Ha].
  rewrite Hname in Ha. congruence.
Qed.

(** [clean_up_saves] on a listing with distinct names, keeping at least one
    step save. *)
Lemma clean_up_saves_retention (p : process) (d : FS.dir) :
  1 <= max_step_saves_to_keep c ->
  save_root p = Some d ->
  NoDup (names d) ->
  exists d',
    save_root (clean_up_saves c p) = Some d' /\
    Z.of_nat (List.length (step_saves c d')) <= max_step_saves_to_keep c /\
    (forall f g,
        In f (step_saves c d) -> ~ In f d' -> In g (step_saves c d') ->
        FS.fctime f <= FS.fctime g) /\
    (forall h,
        In h d ->
        FS.matches (job_name c ++ "_") ".safetensors" (FS.fname h) = false ->
        In h d').
Proof.
  intros Hkeep Hroot Hnd.
  unfold clean_up_saves. rewrite Hroot.
  destruct (max_step_saves_to_keep c <? Z.of_nat (List.length (step_saves c d)))
    eqn:Hmany.
  - apply Z.ltb_lt in Hmany.
    set (sorted := Py.sort_by FS.fctime (step_saves c d)).
    set (n := List.length (step_saves c d)) in *.
    assert (Hlen : List.length sorted = n).
    { apply Permutation_length. apply sort_by_perm. }
    set (m := (n - Z.to_nat (max_step_saves_to_keep c))%nat).
    assert (Hslice : Py.slice_to sorted (- max_step_saves_to_keep c)
                     = firstn m sorted).
    { unfold Py.slice_to. rewrite Hlen.
      destruct (- max_step_saves_to_keep c <? 0) eqn:Hneg;
        [|apply Z.ltb_ge in Hneg; lia].
      f_equal. unfold m. lia. }
    exists (remove_all (firstn m sorted) d).
    split; [simpl; unfold remove_all; now rewrite Hslice|].
    split; [|split].
    + assert (Hp : Permutation (step_saves c (remove_all (firstn m sorted) d))
                               (skipn m sorted)).
      { apply NoDup_Permutation.
        - unfold step_saves, FS.glob. apply NoDup_filter.
          apply nodup_remove_all. eapply NoDup_map_inv. exact Hnd.
        - eapply NoDup_map_inv with (f := FS.fname).
          apply (NoDup_app_remove_l (map FS.fname (firstn m sorted))).
          rewrite <- map_app, firstn_skipn.
          eapply Permutation_NoDup.
          + apply Permutation_map. apply Permutation_sym. apply sort_by_perm.
          + apply (nodup_names_filter _ d Hnd).
        - intros g. now apply survivors_are_newer_part. }
      rewrite (Permutation_length Hp), length_skipn, Hlen. unfold m. lia.
    + intros f g Hf Hgone Hg.
      apply (sorted_cut FS.file FS.fctime m sorted).
      * apply sort_by_sorted.
      * now apply deleted_are_older_part.
      * now apply survivors_are_newer_part.
    + intros h Hh Hmatch. apply unmatched_survive; try assumption.
      intros a Ha.
      assert (Has : In a sorted).
      { rewrite <- (firstn_skipn m sorted). apply in_or_app. now left. }
      eapply Permutation_in; [apply sort_by_perm | exact Has].
  - apply Z.ltb_ge in Hmany.
    exists d. repeat split; try assumption.
    + intros f g Hf Hgone. exfalso. apply Hgone.
      unfold step_saves, FS.glob in Hf. apply filter_In in Hf. tauto.
    + intros h Hh _. exact Hh.
Qed.


End Retention.

(** With step saves 100 and 200 on disk and one to keep, saving at step 300
    leaves the step save 300 and the final checkpoint. *)
Example save_at_300_keeps_only_300 :
  option_map names
    (BaseSDTrainProcess.save_root
       (BaseSDTrainProcess.save lora_job lora_with_two_saves (Some 300)))
  = Some ["job.safetensors"; "job_000000300.safetensors"]%string.
Proof. reflexivity. Qed.


(** ** The critic's contribution to the generator loss *)

Section CriticWarmup.

Variables features params grads opt_state : Type.
Variable model : params -> list features -> list Q.

(** The division of the warm-up branch is by a positive number. *)
Lemma warmup_division_defined (c : Critic.config) (n : Z) :
  Critic.start_step c <= n < Critic.start_step c + Critic.warmup_steps c ->
  0 < Critic.warmup_steps c.
Proof. lia. Qed.

Lemma same_value_refl (r : result Q) : same_value r r.
Proof. destruct r; simpl; [apply Qeq_refl | reflexivity]. Qed.

(** On any batch, also one the evaluation fails on: 0 below [start_step],
    the outcome of the evaluation scaled during the warm-up, and the outcome
    of the evaluation from [start_step + warmup_steps] on. *)
Lemma get_critic_loss_scales_evaluation (c : Critic.config) (n : Z)
    (s : Critic.state params grads opt_state) (v : list features) :
  0 <= Critic.warmup_steps c ->
  (n < Critic.start_step c ->
   Critic.get_critic_loss model c n s v = Ok (s, 0%Q)) /\
  (Critic.start_step c <= n < Critic.start_step c + Critic.warmup_steps c ->
   same_value
     (value_of (Critic.get_critic_loss model c n s v))
     (scale (Critic.critic_eval model (Critic.weights s) v)
            (inject_Z (n - Critic.start_step c)
             / inject_Z (Critic.warmup_steps c)))) /\
  (Critic.start_step c + Critic.warmup_steps c <= n ->
   same_value
     (value_of (Critic.get_critic_loss model c n s v))
     (Critic.critic_eval model (Critic.weights s) v)).
Proof.
  intros Hw. unfold Critic.get_critic_loss, Critic.warmup_scaler.
  repeat split.
  - intros Hn. apply Z.ltb_lt in Hn. now rewrite Hn.
  - intros [H1 H2].
    destruct (n <? Critic.start_step c) eqn:Hn; [apply Z.ltb_lt in Hn; lia|].
    apply Z.ltb_lt in H2. rewrite H2. simpl.
    destruct (Critic.critic_eval model (Critic.weights s) v); simpl;
      [apply Qeq_refl | reflexivity].
  - intros H.
    destruct (n <? Critic.start_step c) eqn:Hn; [apply Z.ltb_lt in Hn; lia|].
    destruct (n <? Critic.start_step c + Critic.warmup_steps c) eqn:Hn';
      [apply Z.ltb_lt in Hn'; lia|].
    simpl.
    destruct (Critic.critic_eval model (Critic.weights s) v); simpl;
      [apply Qmult_1_r | reflexivity].
Qed.

(** [torch.chunk(x, 2, dim=0)] of a stacked batch gives back its two
    halves. *)
Lemma chunk2_halves (A : Type) (pred target : list A) :
  pred <> [] -> List.length pred = List.length target ->
  Tensor.chunk2 (pred ++ target) = Ok (pred, target).
Proof.
  intros Hne Hlen. unfold Tensor.chunk2.
  rewrite length_app, <- Hlen.
  destruct (List.length pred + List.length pred =? 1)%nat eqn:H1.
  - apply Nat.eqb_eq in H1. lia.
  - replace (List.length pred + List.length pred)%nat
      with (2 * List.length pred)%nat by lia.
    rewrite Nat.div2_succ_double.
    rewrite firstn_app, firstn_all, Nat.sub_diag, firstn_O, app_nil_r.
    rewrite skipn_app, skipn_all, Nat.sub_diag, skipn_O.
    reflexivity.
Qed.

(** C4. On a stacked batch, the predictions followed by as many targets,
    [get_critic_loss] returns exactly 0 below [start_step], leaving the
    critic as it is; during the warm-up it switches the critic to evaluation
    mode and returns minus the mean of the critic's scores on the prediction
    half, times [(step - start_step) / warmup_steps]; from
    [start_step + warmup_steps] on it returns minus that mean, unscaled. *)
Theorem get_critic_loss_warmup (c : Critic.config) (n : Z)
    (s : Critic.state params grads opt_state) (pred target : list features) :
  0 <= Critic.warmup_steps c ->
  pred <> [] -> List.length pred = List.length target ->
  (n < Critic.start_step c ->
   Critic.get_critic_loss model c n s (pred ++ target) = Ok (s, 0%Q)) /\
  (Critic.start_step c <= n < Critic.start_step c + Critic.warmup_steps c ->
   Critic.get_critic_loss model c n s (pred ++ target)
   = Ok (Critic.set_training s false,
         (- Tensor.mean (model (Critic.weights s) pred)
          * (inject_Z (n - Critic.start_step c)
             / inject_Z (Critic.warmup_steps c)))%Q)) /\
  (Critic.start_step c + Critic.warmup_steps c <= n ->
   exists l,
     Critic.get_critic_loss model c n s (pred ++ target)
     = Ok (Critic.set_training s false, l) /\
     (l == - Tensor.mean (model (Critic.weights s) pred))%Q).
Proof.
  intros Hw Hne Hlen.
  unfold Critic.get_critic_loss, Critic.warmup_scaler, Critic.critic_eval.
  rewrite (chunk2_halves _ pred target Hne Hlen).
  repeat split.
  - intros Hn. apply Z.ltb_lt in Hn. now rewrite Hn.
  - intros [H1 H2].
    destruct (n <? Critic.start_step c) eqn:Hn; [apply Z.ltb_lt in Hn; lia|].
    apply Z.ltb_lt in H2. rewrite H2. reflexivity.
  - intros H.
    destruct (n <? Critic.start_step c) eqn:Hn; [apply Z.ltb_lt in Hn; lia|].
    destruct (n <? Critic.start_step c + Critic.warmup_steps c) eqn:Hn';
      [apply Z.ltb_lt in Hn'; lia|].
    eexists. split; [reflexivity|]. simpl. apply Qmult_1_r.
Qed.

End CriticWarmup.

Lemma get_critic_loss_warmup_witness :
  0 <= Critic.warmup_steps warmup_critic /\
  [1 # 1] <> @nil Q /\
  List.length [1 # 1] = List.length [3 # 1] /\
  (2 < Critic.start_step warmup_critic ->
   Critic.get_critic_loss linear_model warmup_critic 2 critic_at_2
     ([1 # 1] ++ [3 # 1]) = Ok (critic_at_2, 0%Q)) /\
  (Critic.start_step warmup_critic <= 2
   < Critic.start_step warmup_critic + Critic.warmup_steps warmup_critic ->
   Critic.get_critic_loss linear_model warmup_critic 2 critic_at_2
     ([1 # 1] ++ [3 # 1])
   = Ok (Critic.set_training critic_at_2 false,
         (- Tensor.mean (linear_model (Critic.weights critic_at_2) [1 # 1])
          * (inject_Z (2 - Critic.start_step warmup_critic)
             / inject_Z (Critic.warmup_steps warmup_critic)))%Q)) /\
  (Critic.start_step warmup_critic + Critic.warmup_steps warmup_critic <= 2 ->
   exists l,
     Critic.get_critic_loss linear_model warmup_critic 2 critic_at_2
       ([1 # 1] ++ [3 # 1])
     = Ok (Critic.set_training critic_at_2 false, l) /\
     (l == - Tensor.mean (linear_model (Critic.weights critic_at_2) [1 # 1]))%Q).
Proof.
  assert (H1 : 0 <= Critic.warmup_steps warmup_critic) by (simpl; lia).
  assert (H2 : [1 # 1] <> @nil Q) by discriminate.
  assert (H3 : List.length [1 # 1] = List.length [3 # 1]) by reflexivity.
  split; [exact H1|]. split; [exact H2|]. split; [exact H3|].
  exact (get_critic_loss_warmup Q Q Q unit linear_model warmup_critic 2
           critic_at_2 [1 # 1] [3 # 1] H1 H2 H3).
Defined.

(** Half way through a warm-up of 4 steps the evaluation [-2] is halved;
    after it, the evaluation is returned as it is; before the start step the
    result is 0, whatever the batch. *)
Example critic_loss_during_warmup :
  value_of (Critic.get_critic_loss linear_model warmup_critic 2 critic_at_2
              [1 # 1; 3 # 1])
  = Ok ((- ((0 + 2 * 1) / 1)) * (2 / 4))%Q.
Proof. reflexivity. Qed.

Example critic_loss_after_warmup :
  value_of (Critic.get_critic_loss linear_model warmup_critic 4 critic_at_2
              [1 # 1; 3 # 1])
  = Ok ((- ((0 + 2 * 1) / 1)) * 1)%Q.
Proof. reflexivity. Qed.

Example critic_loss_before_start :
  value_of (Critic.get_critic_loss linear_model (Critic.mkConfig 2 10 5 4) 4
              critic_at_2 [1 # 1])
  = Ok 0%Q.
Proof. reflexivity. Qed.

(** ** Composition of the autoencoder loss *)

Lemma positive_of_zero (w : Q) : (w == 0)%Q -> Py.positive w = false.
Proof.
  intros H. unfold Py.positive. apply negb_false_iff.
  apply Qle_bool_iff. rewrite H. apply Qle_refl.
Qed.

Lemma not_computed_of_zero (c : TrainVAEProcess.config) (t : loss_term) :
  (weight c t == 0)%Q -> ~ In t (computed c).
Proof.
  intros H Hin. unfold computed in Hin. apply filter_In in Hin.
  destruct Hin as [_ Hin]. rewrite (positive_of_zero _ H) in Hin. discriminate.
Qed.

Section LossComposition.

Variables features params grads opt_state : Type.
Variable model : params -> list features -> list Q.

Import TrainVAEProcess.

(** The weighted terms as [compose_loss] forms them: the total is the sum
    of the five weighted terms and the weighted critic term, and a getter
    enters its computation only under a positive weight. *)
Lemma compose_loss_terms (c : config) (f : forward_pass features)
    (d : Q) (p p' : process params grads opt_state) (l : step_losses) :
  compose_loss model c f d p = (Ok l, p') ->
  trace p' = trace p ++ map ComputeTerm (computed c) /\
  (forall t, contribution l t = (term c f t * weight c t)%Q) /\
  (forall t, (weight c t == 0)%Q ->
             ~ In (ComputeTerm t) (map ComputeTerm (computed c)) /\
             (contribution l t == 0)%Q) /\
  total l = (contribution l Style + contribution l Content + contribution l Kld
             + contribution l Mse + contribution l Tv + critic_gen_loss l)%Q /\
  (if use_critic c then
     exists s s' g,
       critic p = Some s /\
       Critic.get_critic_loss model (critic_config c) (step_num p) s (pool_4 f)
       = Ok (s', g) /\
       critic_gen_loss l = (g * critic_weight c)%Q
   else critic_gen_loss l = 0%Q).
Proof.
  intros H.
  assert (Hzero : forall t, (weight c t == 0)%Q ->
                            ~ In (ComputeTerm t) (map ComputeTerm (computed c))).
  { intros t Ht Hin. apply in_map_iff in Hin.
    destruct Hin as (t' & E & Hin). inversion E; subst t'.
    now apply (not_computed_of_zero c t). }
  cut (trace p' = trace p ++ map ComputeTerm (computed c) /\
       (forall t, contribution l t = (term c f t * weight c t)%Q) /\
       total l = (contribution l Style + contribution l Content
                  + contribution l Kld + contribution l Mse + contribution l Tv
                  + critic_gen_loss l)%Q /\
       (if use_critic c then
          exists s s' g,
            critic p = Some s /\
            Critic.get_critic_loss model (critic_config c) (step_num p) s
              (pool_4 f) = Ok (s', g) /\
            critic_gen_loss l = (g * critic_weight c)%Q
        else critic_gen_loss l = 0%Q)).
  { intros (Htr & Hcon & Htot & Hcr).
    repeat split; try assumption.
    - now apply Hzero.
    - rewrite Hcon. rewrite H0. apply Qmult_0_r. }
  clear Hzero.
  unfold compose_loss, get_style_loss, get_content_loss, get_kld_loss,
    get_mse_loss, get_tv_loss, critic_generator in H.
  unfold computed, term. simpl weight in *. simpl filter.
  destruct p as [sn en ms ep v cs m el ll r k tr].
  destruct (Py.positive (style_weight c)) eqn:Hs;
  destruct (Py.positive (content_weight c)) eqn:Hc;
  destruct (Py.positive (kld_weight c)) eqn:Hk;
  destruct (Py.positive (mse_weight c)) eqn:Hm;
  destruct (Py.positive (tv_weight c)) eqn:Ht;
  destruct (use_critic c) eqn:Hu;
  unfold bindM, gets, modify, ret, lift, raise in H; simpl in H;
  try (destruct cs as [s|]; [|discriminate];
       destruct (Critic.get_critic_loss model (critic_config c) sn s (pool_4 f))
         as [[s' g]|e] eqn:Hg; [|discriminate]; simpl in H);
  inversion H; subst; clear H; simpl;
  (split; [rewrite <- ?app_assoc, ?app_nil_r; reflexivity|]);
  (split; [intros t; destruct t; simpl; rewrite ?Hs, ?Hc, ?Hk, ?Hm, ?Ht;
           reflexivity|]);
  (split; [reflexivity|]);
  try reflexivity;
  exists s, s', g; repeat split; assumption.
Qed.

End LossComposition.

(** At step 2 of the job with a critic the getters compute the
    reconstruction and the total-variation term only. *)
Example terms_computed_at_2 :
  TrainVAEProcess.trace vae_after_compose = [ComputeTerm Mse; ComputeTerm Tv].
Proof. reflexivity. Qed.

(** ** Configuration errors of the autoencoder trainer *)

Section Startup.

Variables features params grads opt_state : Type.
Variable model : params -> list features -> list Q.
Variable get_gradient_penalty : params -> list features -> list features -> Q.
Variable loss_gradient : params -> list features -> grads.
Variable optimizer_step : opt_state -> params -> option grads -> opt_state * params.
Variable fresh_critic : params.
Variable fresh_optimizer : opt_state.
Variable state_dict : params -> list Q.
Variable load_state_dict : list Q -> params.
Variable base_vae : list Q.
Variable n_batches : nat.
Variable forward : Z -> TrainVAEProcess.forward_pass features.

(** C9. A configuration that asks for sampling without sample sources, or
    that gives neither an epoch count nor a step count, makes the constructor
    raise [ValueError]; the run never starts, so nothing is loaded, nothing
    is written and no training step executes. *)
Theorem invalid_config_is_fatal (c : TrainVAEProcess.config)
    (root : option FS.dir) (now : Z) :
  (TrainVAEProcess.sample_every c <> None
   /\ TrainVAEProcess.sample_sources c = None)
  \/ (TrainVAEProcess.epochs c = None /\ TrainVAEProcess.max_steps c = None) ->
  exists msg,
    @TrainVAEProcess.init params grads opt_state c root now
    = Raise (ValueError msg) /\
    TrainVAEProcess.launch model get_gradient_penalty loss_gradient
      optimizer_step fresh_critic fresh_optimizer state_dict load_state_dict
      base_vae n_batches forward c root now
    = (Raise (ValueError msg), []).
Proof.
  intros H.
  assert (Hinit : exists msg,
             @TrainVAEProcess.init params grads opt_state c root now
             = Raise (ValueError msg)).
  { unfold TrainVAEProcess.init, TrainVAEProcess.required, bind.
    destruct (TrainVAEProcess.vae_path c); [|eauto].
    destruct (TrainVAEProcess.datasets_objects c); [|eauto].
    destruct H as [[Hs Hn]|[He Hm]].
    - rewrite Hn. destruct (TrainVAEProcess.sample_every c); [eauto|].
      now contradiction Hs.
    - rewrite He, Hm.
      destruct (TrainVAEProcess.sample_every c),
        (TrainVAEProcess.sample_sources c); eauto. }
  destruct Hinit as (msg & Hinit). exists msg. split; [assumption|].
  unfold TrainVAEProcess.launch. now rewrite Hinit.
Qed.

End Startup.

Lemma invalid_config_is_fatal_witness :
  ((TrainVAEProcess.sample_every vae_job_no_sources <> None
    /\ TrainVAEProcess.sample_sources vae_job_no_sources = None)
   \/ (TrainVAEProcess.epochs vae_job_no_sources = None
       /\ TrainVAEProcess.max_steps vae_job_no_sources = None)) /\
  exists msg,
    @TrainVAEProcess.init Q Q unit vae_job_no_sources None 0
    = Raise (ValueError msg) /\
    TrainVAEProcess.launch linear_model no_penalty linear_loss_gradient
      gradient_descent 1%Q tt (fun w => [w]) (fun l => hd 0%Q l) [] 4
      rising_mse vae_job_no_sources None 0
    = (Raise (ValueError msg), []).
Proof.
  assert (H : (TrainVAEProcess.sample_every vae_job_no_sources <> None
               /\ TrainVAEProcess.sample_sources vae_job_no_sources = None)
              \/ (TrainVAEProcess.epochs vae_job_no_sources = None
                  /\ TrainVAEProcess.max_steps vae_job_no_sources = None)).
  { left. split; [discriminate | reflexivity]. }
  split; [exact H|].
  exact (invalid_config_is_fatal Q Q Q unit linear_model no_penalty
           linear_loss_gradient gradient_descent 1%Q tt (fun w => [w])
           (fun l => hd 0%Q l) [] 4 rising_mse vae_job_no_sources None 0 H).
Defined.

(** ** The critic's own update *)

Section CriticUpdate.

Variables features params grads opt_state : Type.
Variable model : params -> list features -> list Q.
Variable get_gradient_penalty : params -> list features -> list features -> Q.
Variable optimizer_step : opt_state -> params -> option grads -> opt_state * params.

(** The gradient slot is cleared between [backward] and the optimizer's
    step, so the optimizer always sees an empty slot. *)
Lemma inner_iteration_clears_gradient (lg : params -> list features -> grads)
    (c : Critic.config) (v : list features)
    (s s' : Critic.state params grads opt_state) (ls ls' : list Q) :
  Critic.inner_iteration model get_gradient_penalty lg optimizer_step c v (s, ls)
  = Ok (s', ls') ->
  (Critic.optimizer s', Critic.weights s')
  = optimizer_step (Critic.optimizer s) (Critic.weights s) None /\
  Critic.grad s' = None /\
  Critic.scheduler_iters s' = Critic.scheduler_iters s + 1 /\
  exists l, Critic.critic_loss model get_gradient_penalty c (Critic.weights s) v
            = Ok l /\ ls' = ls ++ [l].
Proof.
  unfold Critic.inner_iteration, Critic.optimizer_apply, Critic.scheduler_step,
    Critic.backward, Critic.zero_grad, bind. simpl.
  destruct (Critic.critic_loss model get_gradient_penalty c (Critic.weights s) v)
    as [l|e]; [|discriminate].
  destruct (optimizer_step (Critic.optimizer s) (Critic.weights s) None)
    as [o w] eqn:Ho.
  intros H. inversion H; subst; simpl. repeat split. now exists l.
Qed.

(** Whatever gradient the loss has, the update is the same. *)
Lemma inner_iteration_ignores_gradient
    (lg1 lg2 : params -> list features -> grads) (c : Critic.config)
    (v : list features) (acc : Critic.state params grads opt_state * list Q) :
  Critic.inner_iteration model get_gradient_penalty lg1 optimizer_step c v acc
  = Critic.inner_iteration model get_gradient_penalty lg2 optimizer_step c v acc.
Proof.
  destruct acc as [s ls].
  unfold Critic.inner_iteration, Critic.optimizer_apply, Critic.scheduler_step,
    Critic.backward, Critic.zero_grad, bind. simpl.
  reflexivity.
Qed.

Lemma step_ignores_gradient (lg1 lg2 : params -> list features -> grads)
    (c : Critic.config) (s : Critic.state params grads opt_state)
    (v : list features) :
  Critic.step model get_gradient_penalty lg1 optimizer_step c s v
  = Critic.step model get_gradient_penalty lg2 optimizer_step c s v.
Proof.
  unfold Critic.step.
  generalize (Critic.set_training s true, @nil Q).
  induction (Z.to_nat (Critic.num_critic_per_gen c)) as [|n IH]; intros acc;
    simpl; [reflexivity|].
  rewrite (inner_iteration_ignores_gradient lg1 lg2).
  destruct (Critic.inner_iteration model get_gradient_penalty lg2
              optimizer_step c v acc) as [acc'|e]; simpl; [|reflexivity].
  exact (IH acc').
Qed.

(** The discriminator update runs [num_critic_per_gen] inner iterations and
    returns the mean of their losses. *)
Lemma iterate_count (lg : params -> list features -> grads) (c : Critic.config)
    (v : list features) (n : nat)
    (s s' : Critic.state params grads opt_state) (ls ls' : list Q) :
  Critic.iterate model get_gradient_penalty lg optimizer_step n c v (s, ls)
  = Ok (s', ls') ->
  List.length ls' = (List.length ls + n)%nat /\
  Critic.scheduler_iters s' = Critic.scheduler_iters s + Z.of_nat n.
Proof.
  revert s ls. induction n as [|n IH]; intros s ls H.
  - simpl in H. inversion H; subst. split; lia.
  - change (bind (Critic.inner_iteration model get_gradient_penalty lg
                    optimizer_step c v (s, ls))
                 (fun acc' => Critic.iterate model get_gradient_penalty lg
                                optimizer_step n c v acc')
            = Ok (s', ls')) in H.
    destruct (Critic.inner_iteration model get_gradient_penalty lg
                optimizer_step c v (s, ls)) as [[s1 ls1]|e] eqn:Hin;
      unfold bind in H; [|discriminate].
    apply IH in H. destruct H as [H1 H2].
    apply inner_iteration_clears_gradient in Hin.
    destruct Hin as (_ & _ & Hsched & l & _ & Hls).
    subst ls1. rewrite length_app in H1. simpl in H1. split; lia.
Qed.

Lemma step_mean_of_iterations (lg : params -> list features -> grads)
    (c : Critic.config) (v : list features)
    (s s' : Critic.state params grads opt_state) (l : Q) :
  Critic.step model get_gradient_penalty lg optimizer_step c s v = Ok (s', l) ->
  exists ls,
    List.length ls = Z.to_nat (Critic.num_critic_per_gen c) /\
    l = Tensor.mean ls.
Proof.
  unfold Critic.step, bind.
  destruct (Critic.iterate model get_gradient_penalty lg optimizer_step _ c v
              (Critic.set_training s true, [])) as [[s1 ls]|e] eqn:Hit;
    [|discriminate].
  intros H. inversion H; subst.
  apply iterate_count in Hit. destruct Hit as [Hlen _].
  exists ls. split; [exact Hlen | reflexivity].
Qed.

End CriticUpdate.

(** C6, at an input where the code departs from it.  One update of the
    linear critic at weight 2 on the batch [[1; 3]]: the loss is [-4] and its
    gradient [-2], so a step of gradient descent at rate 1/10 would move the
    weight to 11/5; the weight is still 2 afterwards, because the gradient
    slot was cleared before the optimizer's step. *)
Theorem critic_step_discards_gradient :
  Critic.step linear_model no_penalty linear_loss_gradient gradient_descent
    single_update_critic critic_at_2 [1 # 1; 3 # 1]
  = Ok (Critic.mkState (2 # 1) None tt 1 true, (- (4 # 1))%Q) /\
  linear_loss_gradient (2 # 1) [1 # 1; 3 # 1] = (- (2 # 1))%Q /\
  gradient_descent tt (2 # 1)
    (Some (linear_loss_gradient (2 # 1) [1 # 1; 3 # 1])) = (tt, 11 # 5).
Proof. vm_compute. repeat split. Qed.

(** ** Epoch aggregates of the autoencoder trainer *)

Section EpochAggregates.

Variables params grads opt_state : Type.

Import TrainVAEProcess.

(** The epoch aggregation never reads the values accumulated in
    [epoch_losses]: replacing them changes nothing of what is reported. *)
Lemma epoch_scalars_ignore_epoch_losses (keys : list string) (epoch : Z)
    (d : losses) (p : process params grads opt_state) :
  epoch_scalars keys epoch (set_epoch_losses p d)
  = (fst (epoch_scalars keys epoch p),
     set_epoch_losses (snd (epoch_scalars keys epoch p)) d).
Proof.
  revert p. induction keys as [|key keys IH]; intros p; simpl.
  - reflexivity.
  - unfold bindM, gets, lift, modify, ret. simpl.
    destruct (average_or_raise (values (log_losses p) key)) as [avg|e]; simpl;
      [|reflexivity].
    destruct (Py.positive avg); simpl.
    + exact (IH (emit (Scalar ("epoch loss/" ++ key) avg epoch) p)).
    + exact (IH p).
Qed.

Lemma end_epoch_ignores_epoch_losses (c : config) (epoch : Z) (d : losses)
    (p : process params grads opt_state) :
  map fst d = map fst (epoch_losses p) ->
  fst (end_epoch c epoch (set_epoch_losses p d)) = fst (end_epoch c epoch p) /\
  trace (snd (end_epoch c epoch (set_epoch_losses p d)))
  = trace (snd (end_epoch c epoch p)).
Proof.
  intros Hkeys. unfold end_epoch, bindM, gets, modify, ret.
  destruct (has_writer c); simpl; [|now split].
  rewrite Hkeys, epoch_scalars_ignore_epoch_losses.
  destruct (epoch_scalars (map fst (epoch_losses p)) epoch p) as [[[]|e] p'];
    simpl; now split.
Qed.

End EpochAggregates.

(** C7, at an input where the code departs from it.  Four steps in one
    epoch with reconstruction losses 1, 2, 3, 4 and a log every 2 steps: the
    epoch aggregate reported for the reconstruction term is 4, the mean of
    what the logging window holds after its reset at step 2, whereas the
    mean over the epoch is 10/4. *)
Theorem epoch_aggregate_uses_log_window :
  vae_launch vae_job_logging
  = (Ok tt,
     [LoadModel; Sample None false;
      ComputeTerm Mse; TrainStep 0; ComputeTerm Mse; TrainStep 1;
      ComputeTerm Mse; TrainStep 2;
      Scalar "loss/total" (6 # 3) 2; Scalar "loss/style" (0 # 3) 2;
      Scalar "loss/content" (0 # 3) 2; Scalar "loss/mse" (6 # 3) 2;
      Scalar "loss/kl" (0 # 3) 2; Scalar "loss/tv" (0 # 3) 2;
      Scalar "loss/crD" (0 # 3) 2; Scalar "loss/crG" (0 # 3) 2;
      ComputeTerm Mse; TrainStep 3;
      Scalar "epoch loss/total" 4 0; Scalar "epoch loss/mse" 4 0;
      WriteCheckpoint "vae.safetensors" None]) /\
  Py.average
    (map (fun n => (TrainVAEProcess.mse_value (rising_mse n)
                    * TrainVAEProcess.mse_weight vae_job_logging)%Q)
         [0; 1; 2; 3])
  = Some (10 # 4) /\
  ~ (4 == 10 # 4)%Q.
Proof.
  split; [vm_compute; reflexivity|].
  split; [vm_compute; reflexivity|].
  intros H. vm_compute in H. discriminate.
Qed.

(** ** The end of a run *)

Section BaseSDFinish.

Import BaseSDTrainProcess.

Lemma save_trace (c : config) (p : process) (step : option Z) :
  trace (save c p step)
  = trace p ++ [WriteCheckpoint (checkpoint_name c step)
                  (match net p with Some _ => Some 1%Q | None => None end)].
Proof.
  unfold save.
  destruct (clean_up_saves_frame c (save_checkpoint c p step))
    as (_ & _ & _ & _ & Htr).
  rewrite Htr. destruct (net p) as [n|] eqn:Hn.
  - now destruct (save_checkpoint_network c p step n Hn).
  - now destruct (save_checkpoint_without_network c p step Hn).
Qed.

(** Whatever the intervals, the diffusion trainer ends with a sample at the
    step after the last, the save of the unsuffixed checkpoint, and the
    release of the model. *)
Lemma finish_trace (c : config) (p : process) :
  trace (finish c p)
  = trace p ++ [Sample (Some (step_num p + 1)) false;
                WriteCheckpoint (checkpoint_name c None)
                  (match net p with Some _ => Some 1%Q | None => None end);
                Release].
Proof.
  unfold finish, sample, emit. simpl. rewrite save_trace. simpl.
  now rewrite <- !app_assoc.
Qed.

End BaseSDFinish.

Section VAETrace.

Variables features params grads opt_state : Type.
Variable model : params -> list features -> list Q.
Variable get_gradient_penalty : params -> list features -> list features -> Q.
Variable loss_gradient : params -> list features -> grads.
Variable optimizer_step : opt_state -> params -> option grads -> opt_state * params.
Variable fresh_critic : params.
Variable fresh_optimizer : opt_state.
Variable state_dict : params -> list Q.
Variable load_state_dict : list Q -> params.
Variable base_vae : list Q.
Variable n_batches : nat.
Variable forward : Z -> TrainVAEProcess.forward_pass features.

Import TrainVAEProcess.

Variable P : event -> Prop.

Lemma extends_ret (A : Type) (a : A) : extends P (ret a : M params grads opt_state A).
Proof.
  intros p r p' H. inversion H; subst. exists []. now rewrite app_nil_r.
Qed.

Lemma extends_raise (A : Type) (e : error) : extends P (raise e : M params grads opt_state A).
Proof.
  intros p r p' H. inversion H; subst. exists []. now rewrite app_nil_r.
Qed.

Lemma extends_lift (A : Type) (x : result A) : extends P (lift x : M params grads opt_state A).
Proof.
  intros p r p' H. inversion H; subst. exists []. now rewrite app_nil_r.
Qed.

Lemma extends_gets (A : Type) (f : process params grads opt_state -> A) :
  extends P (gets f).
Proof.
  intros p r p' H. inversion H; subst. exists []. now rewrite app_nil_r.
Qed.

Lemma extends_silent (f : process params grads opt_state
                         -> process params grads opt_state) :
  (forall p, trace (f p) = trace p) -> extends P (modify f).
Proof.
  intros Hf p r p' H. inversion H; subst. exists [].
  now rewrite app_nil_r, Hf.
Qed.

Lemma extends_emit (e : event) : P e -> extends P (modify (emit e) : M params grads opt_state unit).
Proof.
  intros He p r p' H. inversion H; subst. exists [e]. split; [reflexivity|].
  now constructor.
Qed.

Lemma extends_bind (A B : Type) (m : M params grads opt_state A)
    (k : A -> M params grads opt_state B) :
  extends P m -> (forall a, extends P (k a)) -> extends P (bindM m k).
Proof.
  intros Hm Hk p r p' H. unfold bindM in H.
  destruct (m p) as [[a|e] p1] eqn:Hmp.
  - destruct (Hm _ _ _ Hmp) as (evs1 & Ht1 & Hf1).
    destruct (Hk a _ _ _ H) as (evs2 & Ht2 & Hf2).
    exists (evs1 ++ evs2). split.
    + now rewrite Ht2, Ht1, app_assoc.
    + now apply Forall_app.
  - inversion H; subst. exact (Hm _ _ _ Hmp).
Qed.

Lemma extends_if (A : Type) (b : bool) (m1 m2 : M params grads opt_state A) :
  extends P m1 -> extends P m2 -> extends P (if b then m1 else m2).
Proof. now destruct b. Qed.

End VAETrace.


Section VAERun.

Variables features params grads opt_state : Type.
Variable model : params -> list features -> list Q.
Variable get_gradient_penalty : params -> list features -> list features -> Q.
Variable loss_gradient : params -> list features -> grads.
Variable optimizer_step : opt_state -> params -> option grads -> opt_state * params.
Variable fresh_critic : params.
Variable fresh_optimizer : opt_state.
Variable state_dict : params -> list Q.
Variable load_state_dict : list Q -> params.
Variable base_vae : list Q.
Variable n_batches : nat.
Variable forward : Z -> TrainVAEProcess.forward_pass features.

Import TrainVAEProcess.

Variable c : config.
Variable start : Z.













End VAERun.

Section VAEFinish.

Variables features params grads opt_state : Type.
Variable model : params -> list features -> list Q.
Variable get_gradient_penalty : params -> list features -> list features -> Q.
Variable loss_gradient : params -> list features -> grads.
Variable optimizer_step : opt_state -> params -> option grads -> opt_state * params.
Variable fresh_critic : params.
Variable fresh_optimizer : opt_state.
Variable state_dict : params -> list Q.
Variable load_state_dict : list Q -> params.
Variable base_vae : list Q.
Variable n_batches : nat.
Variable forward : Z -> TrainVAEProcess.forward_pass features.

Import TrainVAEProcess.

Lemma bindM_ok (A B : Type) (m : M params grads opt_state A)
    (k : A -> M params grads opt_state B) (p p' : process params grads opt_state)
    (b : B) :
  bindM m k p = (Ok b, p') ->
  exists a p1, m p = (Ok a, p1) /\ k a p1 = (Ok b, p').
Proof.
  unfold bindM. destruct (m p) as [[a|e] p1]; [|discriminate].
  intros H. now exists a, p1.
Qed.

Lemma settle_budget_frame (p p' : process params grads opt_state)
    (r : result unit) :
  settle_budget n_batches p = (r, p') ->
  trace p' = trace p /\ step_num p' = step_num p.
Proof.
  unfold settle_budget, bindM, gets, modify, raise.
  destruct p as [sn en ms ep v cs m el ll rt k tr]. simpl.
  destruct ms as [ms|]; [|intros H; inversion H; now subst].
  destruct (n_batches =? 0)%nat; intros H; inversion H; now subst.
Qed.


Lemma critic_setup_frame (c : config) (p p' : process params grads opt_state)
    (r : result unit) :
  critic_setup fresh_critic fresh_optimizer load_state_dict c p = (r, p') ->
  trace p' = trace p /\ step_num p' = step_num p.
Proof.
  unfold critic_setup, bindM, gets, modify.
  destruct p as [sn en ms ep v cs m el ll rt k tr]. simpl.
  intros H; inversion H; now subst.
Qed.




End VAEFinish.




(** A run of the diffusion trainer over 10 steps saving every 5: no save at
    step 0, a step save at 5, the final sample and the final save. *)
Example lora_run_trace :
  BaseSDTrainProcess.trace
    (BaseSDTrainProcess.run (fun _ => []) (fun _ => 0%Q) lora_job []
       (BaseSDTrainProcess.init [] None 100))
  = [LoadModel; TrainStep 0; TrainStep 1; TrainStep 2; TrainStep 3;
     TrainStep 4; TrainStep 5; TrainStep 6;
     WriteCheckpoint "job_000000005.safetensors" (Some 1%Q);
     TrainStep 7; TrainStep 8; TrainStep 9; Sample (Some 10) false;
     WriteCheckpoint "job.safetensors" (Some 1%Q); Release].
Proof. vm_compute. reflexivity. Qed.

(** ** The periodic block of both trainers, in terms of the predicate *)

Section PeriodicBlocks.

Lemma diffusion_periodic_by_predicate
    (hook : Z -> list (string * Q)) (lr : Z -> Q)
    (c : BaseSDTrainProcess.config) (step : Z) (p : BaseSDTrainProcess.process) :
  BaseSDTrainProcess.periodic hook lr c step p =
  let n := BaseSDTrainProcess.step_num p in
  let st := BaseSDTrainProcess.start_step p in
  let p1 := if Schedule.should_fire n st (BaseSDTrainProcess.sample_every c)
            then BaseSDTrainProcess.sample p (Some n) false else p in
  let p2 := if Schedule.should_fire n st (BaseSDTrainProcess.save_every c)
            then BaseSDTrainProcess.save c p1 (Some n) else p1 in
  if Schedule.should_fire n st (BaseSDTrainProcess.log_every c)
  then (if BaseSDTrainProcess.has_writer c
        then BaseSDTrainProcess.log_scalars hook lr p2 step else p2)
  else p2.
Proof.
  unfold BaseSDTrainProcess.periodic, Schedule.should_fire.
  destruct (negb (BaseSDTrainProcess.step_num p
                  =? BaseSDTrainProcess.start_step p)); simpl; [|reflexivity].
  set (p1 := if Schedule.interval_due (BaseSDTrainProcess.sample_every c)
                  (BaseSDTrainProcess.step_num p)
             then BaseSDTrainProcess.sample p
                    (Some (BaseSDTrainProcess.step_num p)) false
             else p).
  assert (H1 : BaseSDTrainProcess.step_num p1 = BaseSDTrainProcess.step_num p).
  { subst p1. destruct (Schedule.interval_due _ _); reflexivity. }
  rewrite H1.
  set (p2 := if Schedule.interval_due (BaseSDTrainProcess.save_every c)
                  (BaseSDTrainProcess.step_num p)
             then BaseSDTrainProcess.save c p1
                    (Some (BaseSDTrainProcess.step_num p))
             else p1).
  assert (H2 : BaseSDTrainProcess.step_num p2 = BaseSDTrainProcess.step_num p).
  { subst p2.
    destruct (Schedule.interval_due (BaseSDTrainProcess.save_every c)
                (BaseSDTrainProcess.step_num p)); [|assumption].
    destruct (save_steps c p1 (Some (BaseSDTrainProcess.step_num p))) as [H _].
    congruence. }
  now rewrite H2.
Qed.

Lemma autoencoder_periodic_by_predicate (params grads opt_state : Type)
    (state_dict : params -> list Q) (c : TrainVAEProcess.config) (start : Z)
    (p : TrainVAEProcess.process params grads opt_state) :
  TrainVAEProcess.periodic state_dict c start p =
  let n := TrainVAEProcess.step_num p in
  TrainVAEProcess.bindM
    (if Schedule.should_fire n start (TrainVAEProcess.sample_every c)
     then TrainVAEProcess.sample c (Some n) else TrainVAEProcess.ret tt)
    (fun _ =>
       TrainVAEProcess.bindM
         (if Schedule.should_fire n start (TrainVAEProcess.save_every c)
          then TrainVAEProcess.save state_dict c (Some n)
          else TrainVAEProcess.ret tt)
         (fun _ =>
            if Schedule.should_fire n start (Some (TrainVAEProcess.log_every c))
            then
              TrainVAEProcess.bindM
                (if TrainVAEProcess.has_writer c
                 then TrainVAEProcess.bindM
                        (TrainVAEProcess.gets TrainVAEProcess.log_losses)
                        (fun d => TrainVAEProcess.log_scalars (map fst d) n)
                 else TrainVAEProcess.ret tt)
                (fun _ =>
                   TrainVAEProcess.modify
                     (fun p => TrainVAEProcess.set_log_losses p
                                 TrainVAEProcess.blank_losses))
            else TrainVAEProcess.ret tt)) p.
Proof.
  unfold TrainVAEProcess.periodic, Schedule.should_fire.
  unfold TrainVAEProcess.bindM at 1. unfold TrainVAEProcess.gets at 1.
  destruct (negb (TrainVAEProcess.step_num p =? start)); simpl; reflexivity.
Qed.

End PeriodicBlocks.

(** C2. The periodic block of each trainer is three uses of one predicate,
    for sampling, for saving and for logging: the block of the diffusion
    trainer and the block of the autoencoder trainer are each equal to the
    program that samples, saves and logs exactly where [should_fire] holds
    of the current step, the start step and the action's interval.  That
    predicate holds exactly when the interval is neither [None] nor [0], the
    step differs from the start step and the step is a multiple of the
    interval; so no action is taken for a falsy interval or at the start
    step. *)
Theorem periodic_fires_iff :
  (forall s start every,
      Schedule.should_fire s start every = true <->
      exists i, every = Some i /\ i <> 0 /\ s <> start /\ s mod i = 0) /\
  (forall s start every,
      Py.truthy every = false \/ s = start ->
      Schedule.should_fire s start every = false) /\
  (forall (hook : Z -> list (string * Q)) (lr : Z -> Q)
          (c : BaseSDTrainProcess.config) (step : Z)
          (p : BaseSDTrainProcess.process),
      BaseSDTrainProcess.periodic hook lr c step p =
      let n := BaseSDTrainProcess.step_num p in
      let st := BaseSDTrainProcess.start_step p in
      let p1 := if Schedule.should_fire n st (BaseSDTrainProcess.sample_every c)
                then BaseSDTrainProcess.sample p (Some n) false else p in
      let p2 := if Schedule.should_fire n st (BaseSDTrainProcess.save_every c)
                then BaseSDTrainProcess.save c p1 (Some n) else p1 in
      if Schedule.should_fire n st (BaseSDTrainProcess.log_every c)
      then (if BaseSDTrainProcess.has_writer c
            then BaseSDTrainProcess.log_scalars hook lr p2 step else p2)
      else p2) /\
  (forall (params grads opt_state : Type) (state_dict : params -> list Q)
          (c : TrainVAEProcess.config) (start : Z)
          (p : TrainVAEProcess.process params grads opt_state),
      TrainVAEProcess.periodic state_dict c start p =
      let n := TrainVAEProcess.step_num p in
      TrainVAEProcess.bindM
        (if Schedule.should_fire n start (TrainVAEProcess.sample_every c)
         then TrainVAEProcess.sample c (Some n) else TrainVAEProcess.ret tt)
        (fun _ =>
           TrainVAEProcess.bindM
             (if Schedule.should_fire n start (TrainVAEProcess.save_every c)
              then TrainVAEProcess.save state_dict c (Some n)
              else TrainVAEProcess.ret tt)
             (fun _ =>
                if Schedule.should_fire n start
                     (Some (TrainVAEProcess.log_every c))
                then
                  TrainVAEProcess.bindM
                    (if TrainVAEProcess.has_writer c
                     then TrainVAEProcess.bindM
                            (TrainVAEProcess.gets TrainVAEProcess.log_losses)
                            (fun d => TrainVAEProcess.log_scalars (map fst d) n)
                     else TrainVAEProcess.ret tt)
                    (fun _ =>
                       TrainVAEProcess.modify
                         (fun p => TrainVAEProcess.set_log_losses p
                                     TrainVAEProcess.blank_losses))
                else TrainVAEProcess.ret tt)) p).
Proof.
  split; [exact should_fire_spec|].
  split.
  - intros s start every [H|H].
    + now apply should_fire_falsy.
    + subst s. apply should_fire_at_start.
  - split.
    + intros hook lr c step p. apply diffusion_periodic_by_predicate.
    + intros params grads opt_state state_dict c start p.
      apply autoencoder_periodic_by_predicate.
Qed.

(** * Further properties of the two trainers *)

(** ** Finding the latest save *)

Section LatestSave.

Variable A : Type.
Variable key : A -> Z.

Lemma fold_max_spec (l : list A) (x0 : A) :
  let r := fold_left (fun best y => if key best <? key y then y else best) l x0 in
  (r = x0 \/ In r l) /\ key x0 <= key r /\ forall y, In y l -> key y <= key r.
Proof.
  revert x0. induction l as [|x l IH]; intros x0; simpl.
  - repeat split; [now left | lia | intros y []].
  - destruct (key x0 <? key x) eqn:Hlt.
    + apply Z.ltb_lt in Hlt.
      destruct (IH x) as (Hin & Hle & Hall).
      repeat split.
      * right. destruct Hin as [E|Hin]; [left; now rewrite E | now right].
      * lia.
      * intros y [E|Hy]; [subst y; assumption | now apply Hall].
    + apply Z.ltb_ge in Hlt.
      destruct (IH x0) as (Hin & Hle & Hall).
      repeat split.
      * destruct Hin as [E|Hin]; [now left | right; now right].
      * assumption.
      * intros y [E|Hy]; [subst y; lia | now apply Hall].
Qed.

Lemma max_by_spec (l : list A) (x : A) :
  Py.max_by key l = Some x ->
  In x l /\ forall y, In y l -> key y <= key x.
Proof.
  destruct l as [|x0 l]; simpl; [discriminate|].
  intros H. injection H as E. subst x.
  destruct (fold_max_spec l x0) as (Hin & Hle & Hall).
  split.
  - destruct Hin as [Hx|Hx]; [left; now symmetry | now right].
  - intros y [Hy|Hy]; [subst y; assumption | now apply Hall].
Qed.

End LatestSave.

(** X1. The path [get_latest_save_path] returns names a file of the save
    root that matches [{job_name}*.safetensors] and whose creation time is
    the greatest among the files matching it. *)
Theorem latest_save_path_is_newest
    (c : BaseSDTrainProcess.config) (p : BaseSDTrainProcess.process)
    (f : FS.file) :
  BaseSDTrainProcess.get_latest_save_path c p = Some f ->
  exists d,
    BaseSDTrainProcess.save_root p = Some d /\
    In f d /\
    FS.matches (BaseSDTrainProcess.job_name c) ".safetensors" (FS.fname f) = true /\
    forall g,
      In g d ->
      FS.matches (BaseSDTrainProcess.job_name c) ".safetensors" (FS.fname g) = true ->
      FS.fctime g <= FS.fctime f.
Proof.
  unfold BaseSDTrainProcess.get_latest_save_path.
  destruct (BaseSDTrainProcess.save_root p) as [d|]; [|discriminate].
  destruct (0 <? _)%nat; [|discriminate].
  intros H. apply max_by_spec in H. destruct H as [Hin Hmax].
  unfold FS.glob in Hin, Hmax. apply filter_In in Hin. destruct Hin as [Hd Hm].
  exists d. repeat split; try assumption.
  intros g Hg Hgm. apply Hmax. apply filter_In. now split.
Qed.

Lemma latest_save_path_is_newest_witness :
  BaseSDTrainProcess.get_latest_save_path lora_job
    (BaseSDTrainProcess.init [] (Some lora_saved_root) 200) = Some lora_saved_file /\
  exists d,
    BaseSDTrainProcess.save_root
      (BaseSDTrainProcess.init [] (Some lora_saved_root) 200) = Some d /\
    In lora_saved_file d /\
    FS.matches (BaseSDTrainProcess.job_name lora_job) ".safetensors"
      (FS.fname lora_saved_file) = true /\
    forall g,
      In g d ->
      FS.matches (BaseSDTrainProcess.job_name lora_job) ".safetensors"
        (FS.fname g) = true ->
      FS.fctime g <= FS.fctime lora_saved_file.
Proof.
  assert (H : BaseSDTrainProcess.get_latest_save_path lora_job
                (BaseSDTrainProcess.init [] (Some lora_saved_root) 200)
              = Some lora_saved_file) by reflexivity.
  split; [exact H|].
  exact (latest_save_path_is_newest lora_job _ lora_saved_file H).
Defined.

(** ** What pruning can and cannot delete *)

Section Pruning.

Import BaseSDTrainProcess.

Lemma slice_to_incl (B : Type) (l : list B) (e : Z) : incl (Py.slice_to l e) l.
Proof.
  unfold Py.slice_to. intros x Hx.
  rewrite <- (firstn_skipn (Z.to_nat (if e <? 0
                                      then Z.max 0 (e + Z.of_nat (List.length l))
                                      else Z.min e (Z.of_nat (List.length l)))) l).
  apply in_or_app. now left.
Qed.

Lemma doomed_are_step_saves (c : config) (d : FS.dir) (e : Z) :
  incl (Py.slice_to (Py.sort_by FS.fctime (step_saves c d)) e) (step_saves c d).
Proof.
  intros x Hx. apply slice_to_incl in Hx.
  eapply Permutation_in; [apply sort_by_perm | exact Hx].
Qed.

End Pruning.

(** X2. Whatever the retention limit, [clean_up_saves] only deletes: every
    file left was there before, and every file whose name is outside
    [{job_name}_*.safetensors] is still there. *)
Theorem clean_up_saves_only_deletes_step_saves
    (c : BaseSDTrainProcess.config) (p : BaseSDTrainProcess.process)
    (d : FS.dir) :
  BaseSDTrainProcess.save_root p = Some d ->
  exists d',
    BaseSDTrainProcess.save_root (BaseSDTrainProcess.clean_up_saves c p) = Some d' /\
    incl d' d /\
    forall h,
      In h d ->
      FS.matches (BaseSDTrainProcess.job_name c ++ "_") ".safetensors" (FS.fname h)
      = false ->
      In h d'.
Proof.
  intros Hroot. unfold BaseSDTrainProcess.clean_up_saves. rewrite Hroot.
  destruct (BaseSDTrainProcess.max_step_saves_to_keep c <? _).
  - eexists. split; [reflexivity|]. split.
    + intros h Hh. apply (in_remove_all _ d h) in Hh. tauto.
    + intros h Hh Hm. apply (unmatched_survive c); try assumption.
      apply doomed_are_step_saves.
  - exists d. split; [assumption|]. split; [apply incl_refl | auto].
Qed.

Lemma clean_up_saves_only_deletes_step_saves_witness :
  BaseSDTrainProcess.save_root lora_with_two_saves
  = Some [FS.mkFile "job_000000100.safetensors" 10 10 [1 # 1] [];
          FS.mkFile "job.safetensors" 15 15 [1 # 1] [];
          FS.mkFile "job_000000200.safetensors" 20 20 [2 # 1] []] /\
  exists d',
    BaseSDTrainProcess.save_root
      (BaseSDTrainProcess.clean_up_saves lora_job lora_with_two_saves) = Some d' /\
    incl d' [FS.mkFile "job_000000100.safetensors" 10 10 [1 # 1] [];
             FS.mkFile "job.safetensors" 15 15 [1 # 1] [];
             FS.mkFile "job_000000200.safetensors" 20 20 [2 # 1] []] /\
    forall h,
      In h [FS.mkFile "job_000000100.safetensors" 10 10 [1 # 1] [];
            FS.mkFile "job.safetensors" 15 15 [1 # 1] [];
            FS.mkFile "job_000000200.safetensors" 20 20 [2 # 1] []] ->
      FS.matches (BaseSDTrainProcess.job_name lora_job ++ "_") ".safetensors"
        (FS.fname h) = false ->
      In h d'.
Proof.
  assert (H : BaseSDTrainProcess.save_root lora_with_two_saves
              = Some [FS.mkFile "job_000000100.safetensors" 10 10 [1 # 1] [];
                      FS.mkFile "job.safetensors" 15 15 [1 # 1] [];
                      FS.mkFile "job_000000200.safetensors" 20 20 [2 # 1] []])
    by reflexivity.
  split; [exact H|].
  exact (clean_up_saves_only_deletes_step_saves lora_job lora_with_two_saves _ H).
Defined.

Lemma slice_to_zero (B : Type) (l : list B) : Py.slice_to l 0 = [].
Proof.
  unfold Py.slice_to. simpl.
  now replace (Z.min 0 (Z.of_nat (List.length l))) with 0 by lia.
Qed.

(** X3. With [max_step_saves_to_keep] set to 0 the slice
    [files[:-0]] is empty, so [clean_up_saves] deletes nothing. *)
Theorem keep_none_deletes_nothing
    (c : BaseSDTrainProcess.config) (p : BaseSDTrainProcess.process) :
  BaseSDTrainProcess.max_step_saves_to_keep c = 0 ->
  BaseSDTrainProcess.clean_up_saves c p = p.
Proof.
  intros Hk. unfold BaseSDTrainProcess.clean_up_saves. rewrite Hk.
  destruct p as [sn st n sd m r k tr]. simpl.
  destruct r as [d|]; [|reflexivity].
  destruct (0 <? _); [|reflexivity].
  now rewrite slice_to_zero.
Qed.

Lemma keep_none_deletes_nothing_witness :
  BaseSDTrainProcess.max_step_saves_to_keep lora_job_keep_none = 0 /\
  BaseSDTrainProcess.clean_up_saves lora_job_keep_none lora_with_two_saves
  = lora_with_two_saves.
Proof.
  split; [reflexivity|].
  apply (keep_none_deletes_nothing lora_job_keep_none lora_with_two_saves).
  reflexivity.
Defined.

(** X4. With a retention limit of at least 1, pruning twice is pruning
    once. *)
Theorem clean_up_saves_idempotent
    (c : BaseSDTrainProcess.config) (p : BaseSDTrainProcess.process) :
  1 <= BaseSDTrainProcess.max_step_saves_to_keep c ->
  NoDup (names (match BaseSDTrainProcess.save_root p with
                | Some d => d
                | None => []
                end)) ->
  BaseSDTrainProcess.clean_up_saves c (BaseSDTrainProcess.clean_up_saves c p)
  = BaseSDTrainProcess.clean_up_saves c p.
Proof.
  intros Hk Hnd.
  destruct (BaseSDTrainProcess.save_root p) as [d|] eqn:Hroot.
  - destruct (clean_up_saves_retention c p d Hk Hroot Hnd)
      as (d' & Hd' & Hcount & _).
    unfold BaseSDTrainProcess.clean_up_saves at 1. rewrite Hd'.
    apply Z.ltb_ge in Hcount. unfold BaseSDTrainProcess.step_saves in Hcount.
    unfold BaseSDTrainProcess.step_saves. now rewrite Hcount.
  - unfold BaseSDTrainProcess.clean_up_saves. rewrite Hroot.
    now rewrite Hroot.
Qed.

Lemma clean_up_saves_idempotent_witness :
  1 <= BaseSDTrainProcess.max_step_saves_to_keep lora_job /\
  NoDup (names (match BaseSDTrainProcess.save_root lora_with_two_saves with
                | Some d => d
                | None => []
                end)) /\
  BaseSDTrainProcess.clean_up_saves lora_job
    (BaseSDTrainProcess.clean_up_saves lora_job lora_with_two_saves)
  = BaseSDTrainProcess.clean_up_saves lora_job lora_with_two_saves.
Proof.
  assert (H1 : 1 <= BaseSDTrainProcess.max_step_saves_to_keep lora_job)
    by (simpl; lia).
  assert (H2 : NoDup (names (match BaseSDTrainProcess.save_root
                                     lora_with_two_saves with
                             | Some d => d
                             | None => []
                             end))).
  { simpl. repeat constructor; simpl; intuition discriminate. }
  split; [exact H1|]. split; [exact H2|].
  exact (clean_up_saves_idempotent lora_job lora_with_two_saves H1 H2).
Defined.

(** ** The checkpoint a save leaves behind *)

Section SavedCheckpoint.

Import BaseSDTrainProcess.

Lemma find_remove_other (name x : string) (d : FS.dir) :
  name <> x -> FS.find name (FS.remove x d) = FS.find name d.
Proof.
  intros Hne. induction d as [|g d IH]; simpl; [reflexivity|].
  destruct (String.eqb (FS.fname g) x) eqn:Hx; simpl.
  - apply String.eqb_eq in Hx.
    destruct (String.eqb (FS.fname g) name) eqn:Hn; [|assumption].
    apply String.eqb_eq in Hn. congruence.
  - now rewrite IH.
Qed.

Lemma find_remove_all_other (name : string) (doomed : list FS.file) (d : FS.dir) :
  ~ In name (names doomed) ->
  FS.find name (remove_all doomed d) = FS.find name d.
Proof.
  unfold remove_all. revert d.
  induction doomed as [|g doomed IH]; intros d Hout; simpl; [reflexivity|].
  rewrite IH.
  - apply find_remove_other. intros E. apply Hout. left. now symmetry.
  - intros Hin. apply Hout. now right.
Qed.

Lemma in_write (f g : FS.file) (d : FS.dir) :
  In g (FS.write f d) -> g = f \/ In g d.
Proof.
  induction d as [|h d IH]; simpl.
  - intros [E|[]]. now left.
  - destruct (String.eqb (FS.fname h) (FS.fname f)); simpl.
    + intros [E|Hg]; [now left | right; now right].
    + intros [E|Hg]; [right; now left|].
      destruct (IH Hg); [now left | right; now right].
Qed.

Lemma write_in (f : FS.file) (d : FS.dir) : In f (FS.write f d).
Proof.
  induction d as [|h d IH]; simpl; [now left|].
  destruct (String.eqb (FS.fname h) (FS.fname f)); simpl; [now left | now right].
Qed.

Lemma slice_to_negative (B : Type) (l : list B) (k : Z) :
  1 <= k -> k < Z.of_nat (List.length l) ->
  Py.slice_to l (- k) = firstn (List.length l - Z.to_nat k) l.
Proof.
  intros H1 H2. unfold Py.slice_to.
  destruct (- k <? 0) eqn:Hneg; [|apply Z.ltb_ge in Hneg; lia].
  f_equal. lia.
Qed.

(** A checkpoint whose creation time is later than that of every file
    already on disk is not among the files pruning deletes. *)
Lemma newest_not_doomed (c : config) (d0 : FS.dir) (f0 : FS.file) (m : nat) :
  NoDup (names d0) ->
  (forall g, In g d0 -> FS.fctime g < FS.fctime f0) ->
  let sorted := Py.sort_by FS.fctime (step_saves c (FS.write f0 d0)) in
  (m < List.length sorted)%nat ->
  ~ In (FS.fname f0) (names (firstn m sorted)).
Proof.
  intros Hnd Hold sorted Hm Hin.
  assert (Hndw : NoDup (names (FS.write f0 d0))) by now apply nodup_names_write.
  assert (Hperm : Permutation sorted (step_saves c (FS.write f0 d0)))
    by apply sort_by_perm.
  assert (Hnds : NoDup (names sorted)).
  { unfold names. eapply Permutation_NoDup.
    - apply Permutation_map. apply Permutation_sym. exact Hperm.
    - apply nodup_names_filter. exact Hndw. }
  unfold names in Hin. apply in_map_iff in Hin. destruct Hin as (a & Hname & Ha).
  assert (Has : In a sorted).
  { rewrite <- (firstn_skipn m sorted). apply in_or_app. now left. }
  assert (Haw : In a (FS.write f0 d0)).
  { apply (Permutation_in _ Hperm) in Has.
    unfold step_saves, FS.glob in Has. apply filter_In in Has. tauto. }
  assert (E : a = f0).
  { apply (nodup_names_inj (FS.write f0 d0)); try assumption. apply write_in. }
  subst a.
  destruct (skipn m sorted) as [|g rest] eqn:Hskip.
  { assert (Hlen : List.length (skipn m sorted) = 0%nat) by now rewrite Hskip.
    rewrite length_skipn in Hlen. lia. }
  assert (Hg : In g (skipn m sorted)) by (rewrite Hskip; now left).
  assert (Hle : FS.fctime f0 <= FS.fctime g).
  { apply (sorted_cut FS.file FS.fctime m sorted); try assumption.
    apply sort_by_sorted. }
  assert (Hgs : In g sorted).
  { rewrite <- (firstn_skipn m sorted). apply in_or_app. now right. }
  assert (Hgw : In g (FS.write f0 d0)).
  { apply (Permutation_in _ Hperm) in Hgs.
    unfold step_saves, FS.glob in Hgs. apply filter_In in Hgs. tauto. }
  apply in_write in Hgw. destruct Hgw as [E|Hg0].
  - subst g.
    assert (Hnd' : NoDup sorted) by (eapply NoDup_map_inv; exact Hnds).
    rewrite <- (firstn_skipn m sorted) in Hnd'.
    clear - Hnd' Ha Hg.
    induction (firstn m sorted) as [|x l IH]; simpl in *; [contradiction|].
    inversion Hnd' as [|? ? Hx Hl]; subst.
    destruct Ha as [Ha|Ha].
    + subst x. apply Hx. apply in_or_app. now right.
    + now apply IH.
  - specialize (Hold g Hg0). lia.
Qed.

End SavedCheckpoint.

Lemma final_checkpoint_file
    (c : BaseSDTrainProcess.config) (p : BaseSDTrainProcess.process) :
  exists d f,
    BaseSDTrainProcess.save_root (BaseSDTrainProcess.save c p None) = Some d /\
    FS.find (BaseSDTrainProcess.job_name c ++ ".safetensors") d = Some f /\
    FS.fctime f = BaseSDTrainProcess.clock p /\
    BaseSDTrainProcess.stored_step (FS.fmeta f)
    = Some (BaseSDTrainProcess.step_num p + 1).
Proof.
  destruct (save_checkpoint_file c p None) as (f0 & Hw & Hname & Hct & Hstep).
  set (d0 := match BaseSDTrainProcess.save_root p with
             | Some d => d
             | None => []
             end) in *.
  assert (Hfinal : BaseSDTrainProcess.checkpoint_name c None
                   = (BaseSDTrainProcess.job_name c ++ ".safetensors")%string)
    by reflexivity.
  rewrite Hfinal in Hname.
  unfold BaseSDTrainProcess.save, BaseSDTrainProcess.clean_up_saves.
  rewrite Hw.
  destruct (BaseSDTrainProcess.max_step_saves_to_keep c <? _).
  - eexists. exists f0. split; [reflexivity|]. repeat split; try assumption.
    fold (remove_all
            (Py.slice_to
               (Py.sort_by FS.fctime
                  (BaseSDTrainProcess.step_saves c (FS.write f0 d0)))
               (- BaseSDTrainProcess.max_step_saves_to_keep c))
            (FS.write f0 d0)).
    rewrite find_remove_all_other.
    + rewrite <- Hname. apply find_write.
    + intros Hin. unfold names in Hin. apply in_map_iff in Hin.
      destruct Hin as (a & Ha & Hin).
      apply doomed_are_step_saves in Hin.
      unfold BaseSDTrainProcess.step_saves, FS.glob in Hin.
      apply filter_In in Hin. destruct Hin as [_ Hm].
      rewrite Ha, final_name_not_step_save in Hm. discriminate.
  - exists (FS.write f0 d0), f0. repeat split; try assumption.
    rewrite <- Hname. apply find_write.
Qed.

(** X5. The final save always leaves the unsuffixed checkpoint on disk,
    stamped with the time of the save and carrying step [step_num + 1],
    whatever the retention limit and whatever else is in the save root. *)
Theorem final_checkpoint_written
    (c : BaseSDTrainProcess.config) (p : BaseSDTrainProcess.process) :
  exists d f,
    BaseSDTrainProcess.save_root (BaseSDTrainProcess.save c p None) = Some d /\
    FS.find (BaseSDTrainProcess.job_name c ++ ".safetensors") d = Some f /\
    FS.fctime f = BaseSDTrainProcess.clock p /\
    BaseSDTrainProcess.stored_step (FS.fmeta f)
    = Some (BaseSDTrainProcess.step_num p + 1).
Proof. exact (final_checkpoint_file c p). Qed.

(** X6. When at least one step save is kept, file names in the save root
    are distinct and every file on disk is older than the clock, the step
    save just written survives the pruning that follows it. *)
Theorem step_save_survives_pruning
    (c : BaseSDTrainProcess.config) (p : BaseSDTrainProcess.process) (s : Z) :
  1 <= BaseSDTrainProcess.max_step_saves_to_keep c ->
  NoDup (names (match BaseSDTrainProcess.save_root p with
                | Some d => d
                | None => []
                end)) ->
  (forall g,
      In g (match BaseSDTrainProcess.save_root p with
            | Some d => d
            | None => []
            end) ->
      FS.fctime g < BaseSDTrainProcess.clock p) ->
  exists d f,
    BaseSDTrainProcess.save_root (BaseSDTrainProcess.save c p (Some s)) = Some d /\
    FS.find (BaseSDTrainProcess.checkpoint_name c (Some s)) d = Some f /\
    FS.fctime f = BaseSDTrainProcess.clock p /\
    BaseSDTrainProcess.stored_step (FS.fmeta f)
    = Some (BaseSDTrainProcess.step_num p + 1).
Proof.
  intros Hk Hnd Hold.
  destruct (save_checkpoint_file c p (Some s)) as (f0 & Hw & Hname & Hct & Hstep).
  set (d0 := match BaseSDTrainProcess.save_root p with
             | Some d => d
             | None => []
             end) in *.
  unfold BaseSDTrainProcess.save, BaseSDTrainProcess.clean_up_saves.
  rewrite Hw.
  destruct (BaseSDTrainProcess.max_step_saves_to_keep c <? _) eqn:Hmany.
  - apply Z.ltb_lt in Hmany.
    eexists. exists f0. split; [reflexivity|]. repeat split; try assumption.
    fold (remove_all
            (Py.slice_to
               (Py.sort_by FS.fctime
                  (BaseSDTrainProcess.step_saves c (FS.write f0 d0)))
               (- BaseSDTrainProcess.max_step_saves_to_keep c))
            (FS.write f0 d0)).
    assert (Hlen : List.length (Py.sort_by FS.fctime
                                  (BaseSDTrainProcess.step_saves c (FS.write f0 d0)))
                   = List.length (BaseSDTrainProcess.step_saves c (FS.write f0 d0))).
    { apply Permutation_length. apply sort_by_perm. }
    rewrite slice_to_negative by (rewrite ?Hlen; lia).
    rewrite find_remove_all_other.
    + rewrite <- Hname. apply find_write.
    + rewrite <- Hname.
      apply (newest_not_doomed c d0 f0); try assumption.
      * intros g Hg. rewrite Hct. now apply Hold.
      * rewrite Hlen. lia.
  - exists (FS.write f0 d0), f0. repeat split; try assumption.
    rewrite <- Hname. apply find_write.
Qed.

Lemma step_save_survives_pruning_witness :
  1 <= BaseSDTrainProcess.max_step_saves_to_keep lora_job /\
  NoDup (names (match BaseSDTrainProcess.save_root lora_with_two_saves with
                | Some d => d
                | None => []
                end)) /\
  (forall g,
      In g (match BaseSDTrainProcess.save_root lora_with_two_saves with
            | Some d => d
            | None => []
            end) ->
      FS.fctime g < BaseSDTrainProcess.clock lora_with_two_saves) /\
  exists d f,
    BaseSDTrainProcess.save_root
      (BaseSDTrainProcess.save lora_job lora_with_two_saves (Some 300)) = Some d /\
    FS.find (BaseSDTrainProcess.checkpoint_name lora_job (Some 300)) d = Some f /\
    FS.fctime f = BaseSDTrainProcess.clock lora_with_two_saves /\
    BaseSDTrainProcess.stored_step (FS.fmeta f)
    = Some (BaseSDTrainProcess.step_num lora_with_two_saves + 1).
Proof.
  assert (H1 : 1 <= BaseSDTrainProcess.max_step_saves_to_keep lora_job)
    by (simpl; lia).
  assert (H2 : NoDup (names (match BaseSDTrainProcess.save_root
                                     lora_with_two_saves with
                             | Some d => d
                             | None => []
                             end))).
  { simpl. repeat constructor; simpl; intuition discriminate. }
  assert (H3 : forall g,
             In g (match BaseSDTrainProcess.save_root lora_with_two_saves with
                   | Some d => d
                   | None => []
                   end) ->
             FS.fctime g < BaseSDTrainProcess.clock lora_with_two_saves).
  { simpl. intros g [E|[E|[E|[]]]]; subst g; simpl; lia. }
  split; [exact H1|]. split; [exact H2|]. split; [exact H3|].
  exact (step_save_survives_pruning lora_job lora_with_two_saves 300 H1 H2 H3).
Defined.

(** ** The training loop of the diffusion trainer *)

Section DiffusionLoop.

Import BaseSDTrainProcess.

Variable hook : Z -> list (string * Q).
Variable lr : Z -> Q.
Variable c : config.

Lemma emit_scalars_frame (l : list (string * Q)) (p : process) :
  let q := fold_left (fun p kv => emit p (Scalar (fst kv) (snd kv) (step_num p)))
                     l p in
  step_num q = step_num p /\ start_step q = start_step p /\
  exists evs,
    trace q = trace p ++ evs /\
    Forall (fun e => exists t v, e = Scalar t v (step_num p)) evs.
Proof.
  revert p. induction l as [|kv l IH]; intros p; simpl.
  - repeat split. exists []. now rewrite app_nil_r.
  - destruct (IH (emit p (Scalar (fst kv) (snd kv) (step_num p))))
      as (H1 & H2 & evs & H3 & H4).
    simpl in *. repeat split; try assumption.
    exists (Scalar (fst kv) (snd kv) (step_num p) :: evs). split.
    + now rewrite H3, <- app_assoc.
    + constructor; [eauto | assumption].
Qed.

Lemma log_scalars_frame (p : process) (step : Z) :
  step_num (log_scalars hook lr p step) = step_num p /\
  start_step (log_scalars hook lr p step) = start_step p /\
  exists evs,
    trace (log_scalars hook lr p step) = trace p ++ evs /\
    Forall (fun e => exists t v, e = Scalar t v (step_num p)) evs.
Proof.
  unfold log_scalars.
  destruct (emit_scalars_frame (hook step) p) as (H1 & H2 & evs & H3 & H4).
  simpl. repeat split; try assumption.
  exists (evs ++ [Scalar "lr" (lr step) (step_num p)]). split.
  - rewrite H3, H1. now rewrite <- app_assoc.
  - apply Forall_app. split; [assumption|]. constructor; [eauto | constructor].
Qed.

(** What the periodic block adds to the trace, and what it leaves alone. *)
Lemma periodic_frame (step bound : Z) (p : process) :
  (step_num p = start_step p \/ step_num p < bound) ->
  step_num (periodic hook lr c step p) = step_num p /\
  start_step (periodic hook lr c step p) = start_step p /\
  exists evs,
    trace (periodic hook lr c step p) = trace p ++ evs /\
    Forall (scheduled_action c (start_step p) bound) evs /\
    filter is_train_step evs = [].
Proof.
  intros Hb. rewrite diffusion_periodic_by_predicate. cbv zeta.
  assert (Hfire : forall every,
             Schedule.should_fire (step_num p) (start_step p) every = true ->
             step_num p < bound).
  { intros every H. destruct Hb as [E|Hlt]; [|assumption].
    rewrite E, should_fire_at_start in H. discriminate. }
  set (n := step_num p) in *. set (st := start_step p) in *.
  set (p1 := if Schedule.should_fire n st (sample_every c)
             then sample p (Some n) false else p).
  assert (H1 : step_num p1 = n /\ start_step p1 = st /\
               exists evs, trace p1 = trace p ++ evs /\
                           Forall (scheduled_action c st bound) evs /\
                           filter is_train_step evs = []).
  { subst p1. destruct (Schedule.should_fire n st (sample_every c)) eqn:Hs.
    - repeat split. exists [Sample (Some n) false]. repeat split.
      constructor; [|constructor]. exists n. repeat split; eauto.
    - repeat split. exists []. rewrite app_nil_r. repeat split. constructor. }
  destruct H1 as (Hn1 & Hs1 & evs1 & Ht1 & Hf1 & Hn1').
  set (p2 := if Schedule.should_fire n st (save_every c)
             then save c p1 (Some n) else p1).
  assert (H2 : step_num p2 = n /\ start_step p2 = st /\
               exists evs, trace p2 = trace p ++ evs /\
                           Forall (scheduled_action c st bound) evs /\
                           filter is_train_step evs = []).
  { subst p2. destruct (Schedule.should_fire n st (save_every c)) eqn:Hs.
    - destruct (save_steps c p1 (Some n)) as [Ha Hb'].
      split; [congruence|]. split; [congruence|].
      eexists (evs1 ++ [WriteCheckpoint (checkpoint_name c (Some n)) _]).
      split; [rewrite save_trace, Ht1, <- app_assoc; reflexivity|].
      split.
      + apply Forall_app. split; [assumption|].
        constructor; [|constructor]. exists n. repeat split; eauto.
      + rewrite filter_app, Hn1'. reflexivity.
    - repeat split; try assumption. exists evs1. now repeat split. }
  destruct H2 as (Hn2 & Hs2 & evs2 & Ht2 & Hf2 & Hn2').
  destruct (Schedule.should_fire n st (log_every c)) eqn:Hl;
    [destruct (has_writer c)|].
  - destruct (log_scalars_frame p2 step) as (Ha & Hb' & evs & Ht & Hf).
    split; [congruence|]. split; [congruence|].
    exists (evs2 ++ evs). split; [now rewrite Ht, Ht2, <- app_assoc|].
    rewrite Hn2 in Hf.
    split.
    + apply Forall_app. split; [assumption|].
      eapply Forall_impl; [|exact Hf].
      intros e (t & v & E). subst e. simpl. split; eauto.
    + rewrite filter_app, Hn2'. simpl.
      clear - Hf. induction Hf as [|e l (t & v & E) _ IH]; simpl; [reflexivity|].
      subst e. simpl. exact IH.
  - repeat split; try assumption. exists evs2. now repeat split.
  - repeat split; try assumption. exists evs2. now repeat split.
Qed.

Lemma loop_body_frame (step bound : Z) (p : process) :
  (step_num p = start_step p \/ step_num p < bound) ->
  step_num (loop_body hook lr c p step) = step /\
  start_step (loop_body hook lr c p step) = start_step p /\
  exists evs,
    trace (loop_body hook lr c p step) = trace p ++ TrainStep step :: evs /\
    Forall (scheduled_action c (start_step p) bound) evs /\
    filter is_train_step evs = [].
Proof.
  intros Hb. unfold loop_body.
  destruct (periodic_frame step bound (emit p (TrainStep step)) Hb)
    as (H1 & H2 & evs & H3 & H4 & H5).
  simpl in *. repeat split; try assumption.
  exists evs. split; [now rewrite H3, <- app_assoc | now split].
Qed.

Lemma last_nonempty (B : Type) (y : B) (l : list B) (d d' : B) :
  last (y :: l) d = last (y :: l) d'.
Proof.
  revert y. induction l as [|z l IH]; intros y; [reflexivity|].
  change (last (z :: l) d = last (z :: l) d'). apply IH.
Qed.

(** The loop over any list of indices. *)
Lemma loop_frame (l : list Z) (bound : Z) (p : process) :
  (step_num p = start_step p \/ step_num p < bound) ->
  (forall x, In x (removelast l) -> x < bound) ->
  let q := fold_left (loop_body hook lr c) l p in
  step_num q = last l (step_num p) /\
  start_step q = start_step p /\
  exists evs,
    trace q = trace p ++ evs /\
    Forall (scheduled_action c (start_step p) bound) evs /\
    filter is_train_step evs = map TrainStep l.
Proof.
  revert p. induction l as [|x l IH]; intros p Hb Hl; simpl.
  - repeat split. exists []. rewrite app_nil_r. repeat split. constructor.
  - destruct (loop_body_frame x bound p Hb) as (H1 & H2 & evs & H3 & H4 & H5).
    destruct l as [|y l].
    + simpl. repeat split; try assumption.
      exists (TrainStep x :: evs). split; [assumption|]. split.
      * constructor; [exact I | assumption].
      * simpl. now rewrite H5.
    + assert (Hb' : step_num (loop_body hook lr c p x)
                    = start_step (loop_body hook lr c p x)
                    \/ step_num (loop_body hook lr c p x) < bound).
      { right. rewrite H1. apply Hl. simpl. now left. }
      assert (Hl' : forall z, In z (removelast (y :: l)) -> z < bound).
      { intros z Hz. apply Hl. simpl. right. exact Hz. }
      destruct (IH (loop_body hook lr c p x) Hb' Hl')
        as (G1 & G2 & evs' & G3 & G4 & G5).
      split; [rewrite G1; apply last_nonempty|]. split; [congruence|].
      exists (TrainStep x :: evs ++ evs'). split.
      * rewrite G3, H3. rewrite <- app_assoc. reflexivity.
      * split.
        -- constructor; [exact I|]. apply Forall_app. split; [assumption|].
           now rewrite <- H2.
        -- simpl. rewrite filter_app, H5, G5. reflexivity.
Qed.

Lemma range_removelast (a b x : Z) :
  In x (removelast (Py.range a b)) -> a <= x < b - 1.
Proof.
  unfold Py.range.
  destruct (Z.to_nat (b - a)) as [|n] eqn:Hn; [simpl; contradiction|].
  rewrite seq_S, map_app. cbn [map]. rewrite removelast_last.
  intros Hx. apply in_map_iff in Hx. destruct Hx as (i & E & Hi).
  apply in_seq in Hi. lia.
Qed.

Lemma range_last (a b d : Z) :
  last (Py.range a b) d = if a <? b then b - 1 else d.
Proof.
  unfold Py.range.
  destruct (a <? b) eqn:Hab.
  - apply Z.ltb_lt in Hab.
    destruct (Z.to_nat (b - a)) as [|n] eqn:Hn; [lia|].
    rewrite seq_S, map_app. cbn [map]. rewrite last_last. lia.
  - apply Z.ltb_ge in Hab.
    now replace (Z.to_nat (b - a)) with 0%nat by lia.
Qed.

End DiffusionLoop.

Lemma train_loop_last_step
    (hook : Z -> list (string * Q)) (lr : Z -> Q)
    (c : BaseSDTrainProcess.config) (p : BaseSDTrainProcess.process) :
  BaseSDTrainProcess.start_step p = BaseSDTrainProcess.step_num p ->
  let q := BaseSDTrainProcess.train_loop hook lr c p in
  BaseSDTrainProcess.step_num q
  = (if BaseSDTrainProcess.step_num p <? BaseSDTrainProcess.steps c
     then BaseSDTrainProcess.steps c - 1
     else BaseSDTrainProcess.step_num p) /\
  BaseSDTrainProcess.start_step q = BaseSDTrainProcess.start_step p /\
  exists evs,
    BaseSDTrainProcess.trace q = BaseSDTrainProcess.trace p ++ evs /\
    filter is_train_step evs
    = map TrainStep (Py.range (BaseSDTrainProcess.step_num p)
                              (BaseSDTrainProcess.steps c)) /\
    Forall (scheduled_action c (BaseSDTrainProcess.step_num p)
                             (BaseSDTrainProcess.steps c - 1)) evs.
Proof.
  intros Hstart q. subst q. unfold BaseSDTrainProcess.train_loop.
  destruct (loop_frame hook lr c
              (Py.range (BaseSDTrainProcess.step_num p)
                        (BaseSDTrainProcess.steps c))
              (BaseSDTrainProcess.steps c - 1) p)
    as (H1 & H2 & evs & H3 & H4 & H5).
  - left. now symmetry.
  - intros x Hx. apply range_removelast in Hx. lia.
  - rewrite range_last in H1.
    split; [exact H1|]. split; [exact H2|].
    rewrite Hstart in H4. exists evs. now repeat split.
Qed.

(** X7. Entered with [start_step] equal to [step_num], as [run] enters it,
    the loop of the diffusion trainer calls the training hook once for each
    index from [step_num] to [steps - 1] and leaves the counter at
    [steps - 1] (or where it was when there is nothing to do); all it does
    besides are periodic samples, saves and logs at steps below [steps - 1]
    at which the predicate fires, so the last step is never sampled, saved
    or logged inside the loop. *)
Theorem train_loop_runs_to_last_step
    (hook : Z -> list (string * Q)) (lr : Z -> Q)
    (c : BaseSDTrainProcess.config) (p : BaseSDTrainProcess.process) :
  BaseSDTrainProcess.start_step p = BaseSDTrainProcess.step_num p ->
  let q := BaseSDTrainProcess.train_loop hook lr c p in
  BaseSDTrainProcess.step_num q
  = (if BaseSDTrainProcess.step_num p <? BaseSDTrainProcess.steps c
     then BaseSDTrainProcess.steps c - 1
     else BaseSDTrainProcess.step_num p) /\
  BaseSDTrainProcess.start_step q = BaseSDTrainProcess.start_step p /\
  exists evs,
    BaseSDTrainProcess.trace q = BaseSDTrainProcess.trace p ++ evs /\
    filter is_train_step evs
    = map TrainStep (Py.range (BaseSDTrainProcess.step_num p)
                              (BaseSDTrainProcess.steps c)) /\
    Forall (scheduled_action c (BaseSDTrainProcess.step_num p)
                             (BaseSDTrainProcess.steps c - 1)) evs.
Proof. exact (train_loop_last_step hook lr c p). Qed.

Lemma train_loop_runs_to_last_step_witness :
  BaseSDTrainProcess.start_step (BaseSDTrainProcess.init [] None 100)
  = BaseSDTrainProcess.step_num (BaseSDTrainProcess.init [] None 100) /\
  let q := BaseSDTrainProcess.train_loop (fun _ => []) (fun _ => 0%Q) lora_job
             (BaseSDTrainProcess.init [] None 100) in
  BaseSDTrainProcess.step_num q
  = (if BaseSDTrainProcess.step_num (BaseSDTrainProcess.init [] None 100)
        <? BaseSDTrainProcess.steps lora_job
     then BaseSDTrainProcess.steps lora_job - 1
     else BaseSDTrainProcess.step_num (BaseSDTrainProcess.init [] None 100)) /\
  BaseSDTrainProcess.start_step q
  = BaseSDTrainProcess.start_step (BaseSDTrainProcess.init [] None 100) /\
  exists evs,
    BaseSDTrainProcess.trace q
    = BaseSDTrainProcess.trace (BaseSDTrainProcess.init [] None 100) ++ evs /\
    filter is_train_step evs
    = map TrainStep
        (Py.range (BaseSDTrainProcess.step_num (BaseSDTrainProcess.init [] None 100))
                  (BaseSDTrainProcess.steps lora_job)) /\
    Forall (scheduled_action lora_job
              (BaseSDTrainProcess.step_num (BaseSDTrainProcess.init [] None 100))
              (BaseSDTrainProcess.steps lora_job - 1)) evs.
Proof.
  assert (H : BaseSDTrainProcess.start_step (BaseSDTrainProcess.init [] None 100)
              = BaseSDTrainProcess.step_num (BaseSDTrainProcess.init [] None 100))
    by reflexivity.
  split; [exact H|].
  exact (train_loop_runs_to_last_step (fun _ => []) (fun _ => 0%Q) lora_job
           (BaseSDTrainProcess.init [] None 100) H).
Defined.

(** ** A whole run of the diffusion trainer *)

Section DiffusionRun.

Import BaseSDTrainProcess.

Lemma load_weights_counters (p : process) (path : FS.file) :
  start_step p = step_num p ->
  start_step (load_weights p path) = step_num (load_weights p path).
Proof.
  intros H. unfold load_weights.
  destruct (net p); [|assumption].
  destruct (stored_step _); simpl; [reflexivity | assumption].
Qed.

Lemma set_multiplier_counters (p : process) (m : Q) :
  step_num (set_multiplier p m) = step_num p /\
  start_step (set_multiplier p m) = start_step p.
Proof. unfold set_multiplier. destruct (net p); now split. Qed.

(** Building the network and resuming keeps the two counters equal. *)
Lemma setup_network_counters (c : config) (fresh : list Q) (p : process) :
  start_step p = step_num p ->
  start_step (setup_network c fresh p) = step_num (setup_network c fresh p).
Proof.
  intros H. unfold setup_network.
  destruct (has_network_config c); [|assumption].
  destruct (get_latest_save_path c _); [|assumption].
  destruct (set_multiplier_counters
              (load_weights (set_net p (Some (mkNetwork 1 fresh))) f) 1)
    as [H1 H2].
  rewrite H1, H2. now apply load_weights_counters.
Qed.

End DiffusionRun.

(** X8. A run of the diffusion trainer that starts with its two counters
    equal and, after resuming, below [steps], leaves the unsuffixed
    checkpoint on disk carrying the step [steps], and its last sample is
    taken at step [steps]. *)
Theorem run_final_checkpoint_records_steps
    (hook : Z -> list (string * Q)) (lr : Z -> Q)
    (c : BaseSDTrainProcess.config) (fresh : list Q)
    (p : BaseSDTrainProcess.process) :
  BaseSDTrainProcess.start_step p = BaseSDTrainProcess.step_num p ->
  BaseSDTrainProcess.step_num
    (BaseSDTrainProcess.setup_network c fresh
       (BaseSDTrainProcess.emit p LoadModel))
  < BaseSDTrainProcess.steps c ->
  exists d f before multiplier,
    BaseSDTrainProcess.save_root (BaseSDTrainProcess.run hook lr c fresh p)
    = Some d /\
    FS.find (BaseSDTrainProcess.job_name c ++ ".safetensors") d = Some f /\
    BaseSDTrainProcess.stored_step (FS.fmeta f)
    = Some (BaseSDTrainProcess.steps c) /\
    BaseSDTrainProcess.trace (BaseSDTrainProcess.run hook lr c fresh p)
    = before ++ [Sample (Some (BaseSDTrainProcess.steps c)) false;
                 WriteCheckpoint (BaseSDTrainProcess.checkpoint_name c None)
                                 multiplier;
                 Release].
Proof.
  intros Heq Hlt.
  unfold BaseSDTrainProcess.run.
  set (p1 := BaseSDTrainProcess.setup_network c fresh
               (BaseSDTrainProcess.emit p LoadModel)) in *.
  assert (H1 : BaseSDTrainProcess.start_step p1 = BaseSDTrainProcess.step_num p1).
  { subst p1. apply setup_network_counters. exact Heq. }
  set (p2 := if BaseSDTrainProcess.has_first_sample_requested c
             then BaseSDTrainProcess.sample p1 (Some 0) true else p1).
  assert (H2 : BaseSDTrainProcess.start_step p2 = BaseSDTrainProcess.start_step p1
               /\ BaseSDTrainProcess.step_num p2 = BaseSDTrainProcess.step_num p1).
  { subst p2. destruct (BaseSDTrainProcess.has_first_sample_requested c);
      now split. }
  set (p3 := if BaseSDTrainProcess.skip_first_sample c then p2
             else BaseSDTrainProcess.sample p2 (Some 0) false).
  assert (H3 : BaseSDTrainProcess.start_step p3 = BaseSDTrainProcess.start_step p1
               /\ BaseSDTrainProcess.step_num p3 = BaseSDTrainProcess.step_num p1).
  { subst p3. destruct (BaseSDTrainProcess.skip_first_sample c); simpl; tauto. }
  destruct H3 as [H3a H3b].
  assert (H3 : BaseSDTrainProcess.start_step p3 = BaseSDTrainProcess.step_num p3)
    by congruence.
  destruct (train_loop_last_step hook lr c p3 H3) as (Hstep & _).
  rewrite H3b in Hstep. apply Z.ltb_lt in Hlt. rewrite Hlt in Hstep.
  set (q := BaseSDTrainProcess.train_loop hook lr c p3) in *.
  rewrite finish_trace. rewrite Hstep.
  replace (BaseSDTrainProcess.steps c - 1 + 1) with (BaseSDTrainProcess.steps c)
    by lia.
  unfold BaseSDTrainProcess.finish.
  destruct (final_checkpoint_file c
              (BaseSDTrainProcess.sample q
                 (Some (BaseSDTrainProcess.step_num q + 1)) false))
    as (d & f & Hd & Hf & _ & Hs).
  exists d, f. do 2 eexists.
  split; [exact Hd|]. split; [exact Hf|]. split; [|reflexivity].
  rewrite Hs. simpl. rewrite Hstep. f_equal. lia.
Qed.

Lemma run_final_checkpoint_records_steps_witness :
  BaseSDTrainProcess.start_step (BaseSDTrainProcess.init [] None 100)
  = BaseSDTrainProcess.step_num (BaseSDTrainProcess.init [] None 100) /\
  BaseSDTrainProcess.step_num
    (BaseSDTrainProcess.setup_network lora_job []
       (BaseSDTrainProcess.emit (BaseSDTrainProcess.init [] None 100) LoadModel))
  < BaseSDTrainProcess.steps lora_job /\
  exists d f before multiplier,
    BaseSDTrainProcess.save_root
      (BaseSDTrainProcess.run (fun _ => []) (fun _ => 0%Q) lora_job []
         (BaseSDTrainProcess.init [] None 100)) = Some d /\
    FS.find (BaseSDTrainProcess.job_name lora_job ++ ".safetensors") d = Some f /\
    BaseSDTrainProcess.stored_step (FS.fmeta f)
    = Some (BaseSDTrainProcess.steps lora_job) /\
    BaseSDTrainProcess.trace
      (BaseSDTrainProcess.run (fun _ => []) (fun _ => 0%Q) lora_job []
         (BaseSDTrainProcess.init [] None 100))
    = before ++ [Sample (Some (BaseSDTrainProcess.steps lora_job)) false;
                 WriteCheckpoint (BaseSDTrainProcess.checkpoint_name lora_job None)
                                 multiplier;
                 Release].
Proof.
  assert (H1 : BaseSDTrainProcess.start_step (BaseSDTrainProcess.init [] None 100)
               = BaseSDTrainProcess.step_num (BaseSDTrainProcess.init [] None 100))
    by reflexivity.
  assert (H2 : BaseSDTrainProcess.step_num
                 (BaseSDTrainProcess.setup_network lora_job []
                    (BaseSDTrainProcess.emit (BaseSDTrainProcess.init [] None 100)
                       LoadModel))
               < BaseSDTrainProcess.steps lora_job) by (vm_compute; reflexivity).
  split; [exact H1|]. split; [exact H2|].
  exact (run_final_checkpoint_records_steps (fun _ => []) (fun _ => 0%Q) lora_job
           [] (BaseSDTrainProcess.init [] None 100) H1 H2).
Defined.

(** ** Checkpoint names and the two glob patterns *)

Section CheckpointNames.

Lemma prefix_append (a b : string) : String.prefix a (a ++ b) = true.
Proof.
  induction a as [|x a IH]; simpl.
  - now destruct b.
  - destruct (Ascii.ascii_dec x x); [assumption | contradiction].
Qed.

Lemma length_append (a b : string) :
  String.length (a ++ b) = (String.length a + String.length b)%nat.
Proof. induction a as [|x a IH]; simpl; [reflexivity | now rewrite IH]. Qed.

Lemma substring_all (s : string) : String.substring 0 (String.length s) s = s.
Proof. induction s as [|x s IH]; simpl; [reflexivity | now rewrite IH]. Qed.

Lemma substring_skip (a b : string) (n : nat) :
  String.substring (String.length a) n (a ++ b) = String.substring 0 n b.
Proof. induction a as [|x a IH]; simpl; [reflexivity | exact IH]. Qed.

Lemma ends_with_append (a suf : string) : FS.ends_with suf (a ++ suf) = true.
Proof.
  unfold FS.ends_with. rewrite length_append.
  replace (String.length suf <=? String.length a + String.length suf)%nat
    with true by (symmetry; apply Nat.leb_le; lia).
  replace (String.length a + String.length suf - String.length suf)%nat
    with (String.length a) by lia.
  rewrite substring_skip, substring_all. simpl. apply String.eqb_refl.
Qed.

Lemma hidden_append (a b : string) :
  a <> EmptyString -> FS.hidden (a ++ b) = FS.hidden a.
Proof. destruct a; [contradiction | reflexivity]. Qed.

Lemma append_assoc (a b d : string) : ((a ++ b) ++ d = a ++ (b ++ d))%string.
Proof. induction a as [|x a IH]; simpl; [reflexivity | now rewrite IH]. Qed.

Lemma matches_between (pre mid suf : string) :
  pre <> EmptyString ->
  FS.matches pre suf (pre ++ mid ++ suf) = true.
Proof.
  intros Hne. unfold FS.matches.
  rewrite prefix_append.
  rewrite <- append_assoc, ends_with_append.
  rewrite !length_append.
  replace (String.length pre + String.length suf
           <=? String.length pre + String.length mid + String.length suf)%nat
    with true by (symmetry; apply Nat.leb_le; lia).
  rewrite append_assoc, hidden_append by assumption.
  simpl. now destruct (FS.hidden pre).
Qed.

End CheckpointNames.

(** X9. Job names being matched literally: every step-suffixed checkpoint
    name matches the pruning pattern [{job_name}_*.safetensors], whatever
    the job name, the empty one included; and a checkpoint name, final or
    step-suffixed, matches the resume pattern [{job_name}*.safetensors] as
    soon as the job name is not empty or the name is step-suffixed. *)
Theorem checkpoint_names_match_patterns
    (c : BaseSDTrainProcess.config) (step : option Z) :
  (forall s,
      FS.matches (BaseSDTrainProcess.job_name c ++ "_") ".safetensors"
        (BaseSDTrainProcess.checkpoint_name c (Some s)) = true) /\
  (BaseSDTrainProcess.job_name c <> EmptyString \/ step <> None ->
   FS.matches (BaseSDTrainProcess.job_name c) ".safetensors"
     (BaseSDTrainProcess.checkpoint_name c step) = true).
Proof.
  assert (Hprune : forall s,
             FS.matches (BaseSDTrainProcess.job_name c ++ "_") ".safetensors"
               (BaseSDTrainProcess.checkpoint_name c (Some s)) = true).
  { intros s. unfold BaseSDTrainProcess.checkpoint_name,
      BaseSDTrainProcess.step_suffix.
    replace (BaseSDTrainProcess.job_name c
             ++ ("_" ++ Py.zfill (Py.str s) 9) ++ ".safetensors")%string
      with ((BaseSDTrainProcess.job_name c ++ "_")
            ++ Py.zfill (Py.str s) 9 ++ ".safetensors")%string
      by (now rewrite append_assoc).
    apply matches_between.
    destruct (BaseSDTrainProcess.job_name c); discriminate. }
  split; [exact Hprune|].
  intros Hcase.
  destruct (BaseSDTrainProcess.job_name c) as [|x job] eqn:Hjob.
  - destruct Hcase as [Hne|Hstep]; [now contradiction Hne|].
    destruct step as [s|]; [|now contradiction Hstep].
    specialize (Hprune s). rewrite ?Hjob in Hprune.
    unfold FS.matches in *.
    apply andb_true_iff in Hprune. destruct Hprune as [Hprune _].
    apply andb_true_iff in Hprune. destruct Hprune as [Hprune Hlen].
    apply andb_true_iff in Hprune. destruct Hprune as [_ Hend].
    assert (Hname : BaseSDTrainProcess.checkpoint_name c (Some s)
                    = String "_" (Py.zfill (Py.str s) 9 ++ ".safetensors")).
    { unfold BaseSDTrainProcess.checkpoint_name,
        BaseSDTrainProcess.step_suffix.
      rewrite Hjob. reflexivity. }
    apply Nat.leb_le in Hlen.
    assert (Hlen' : (String.length "" + String.length ".safetensors"
                     <=? String.length
                           (BaseSDTrainProcess.checkpoint_name c (Some s)))%nat
                    = true).
    { apply Nat.leb_le. rewrite Hname in *. simpl in *. lia. }
    rewrite Hend, Hlen', Hname. reflexivity.
  - unfold BaseSDTrainProcess.checkpoint_name. rewrite ?Hjob.
    apply matches_between. discriminate.
Qed.

Lemma checkpoint_names_match_patterns_witness :
  (BaseSDTrainProcess.job_name lora_job <> EmptyString
   \/ Some 5 <> @None Z) /\
  (forall s,
      FS.matches (BaseSDTrainProcess.job_name lora_job ++ "_") ".safetensors"
        (BaseSDTrainProcess.checkpoint_name lora_job (Some s)) = true) /\
  FS.matches (BaseSDTrainProcess.job_name lora_job) ".safetensors"
    (BaseSDTrainProcess.checkpoint_name lora_job (Some 5)) = true.
Proof.
  assert (H : BaseSDTrainProcess.job_name lora_job <> EmptyString
              \/ Some 5 <> @None Z)
    by (left; discriminate).
  split; [exact H|].
  split.
  - exact (proj1 (checkpoint_names_match_patterns lora_job (Some 5))).
  - exact (proj2 (checkpoint_names_match_patterns lora_job (Some 5)) H).
Defined.

(** A job without a name: its step saves match both patterns, its final
    checkpoint [.safetensors] is a hidden file and matches neither. *)
Example unnamed_job_checkpoints :
  let c := BaseSDTrainProcess.mkConfig "" true 10 false true None (Some 5) None
             1 false false false in
  FS.matches (BaseSDTrainProcess.job_name c ++ "_") ".safetensors"
    (BaseSDTrainProcess.checkpoint_name c (Some 5)) = true /\
  FS.matches (BaseSDTrainProcess.job_name c) ".safetensors"
    (BaseSDTrainProcess.checkpoint_name c (Some 5)) = true /\
  FS.matches (BaseSDTrainProcess.job_name c) ".safetensors"
    (BaseSDTrainProcess.checkpoint_name c None) = false.
Proof. vm_compute. repeat split. Qed.

(** ** Sample requests *)

Section Requests.

Import SampleRequests.

Variable sc : SampleConfig.
Variable folder : string.
Variable step : option Z.

Lemma request_loop (n k : nat) (current_seed : Z) (l : list GenerateImageConfig) :
  (walk_seed sc = false -> current_seed = seed sc) ->
  snd (fold_left (request_body sc folder step) (map Z.of_nat (seq k n))
                 (current_seed, l))
  = l ++ map (request_for sc folder step) (seq k n).
Proof.
  revert k current_seed l. induction n as [|n IH]; intros k cs l Hcs; simpl.
  - now rewrite app_nil_r.
  - rewrite IH.
    + rewrite <- app_assoc. simpl. unfold request_for at 2.
      rewrite Nat2Z.id. destruct (walk_seed sc); [reflexivity|].
      now rewrite Hcs.
    + intros Hw. rewrite Hw. now apply Hcs.
Qed.

Lemma requests_closed_form :
  snd (fold_left (request_body sc folder step)
                 (Py.range 0 (Z.of_nat (List.length (prompts sc))))
                 (seed sc, []))
  = map (request_for sc folder step) (seq 0 (List.length (prompts sc))).
Proof.
  unfold Py.range.
  replace (Z.to_nat (Z.of_nat (List.length (prompts sc)) - 0))
    with (List.length (prompts sc)) by lia.
  rewrite (map_ext (fun i => 0 + Z.of_nat i) Z.of_nat) by (intros; lia).
  now rewrite request_loop.
Qed.

End Requests.

(** X10. [sample] builds one request per prompt, in order: request [i]
    carries prompt [i], the seed [seed + i] when the seed walks and [seed]
    otherwise, and the output path
    [<save_root>/samples/[time]_<step suffix>_[count].png] shared by all
    requests. *)
Theorem sample_requests_per_prompt (save_root : string)
    (first_sample_config sample_config : SampleRequests.SampleConfig)
    (step : option Z) (is_first : bool) (i : nat) (p : string) :
  let sc := if is_first then first_sample_config else sample_config in
  nth_error (SampleRequests.prompts sc) i = Some p ->
  List.length (SampleRequests.gen_img_config_list save_root first_sample_config
                 sample_config step is_first)
  = List.length (SampleRequests.prompts sc) /\
  exists g,
    nth_error (SampleRequests.gen_img_config_list save_root first_sample_config
                 sample_config step is_first) i = Some g /\
    SampleRequests.gi_prompt g = p /\
    SampleRequests.gi_seed g
    = (if SampleRequests.walk_seed sc
       then SampleRequests.seed sc + Z.of_nat i
       else SampleRequests.seed sc) /\
    SampleRequests.gi_output_path g
    = SampleRequests.path_join (SampleRequests.path_join save_root "samples")
        (SampleRequests.filename step).
Proof.
  intros sc Hp. unfold SampleRequests.gen_img_config_list. fold sc.
  rewrite requests_closed_form. split.
  - now rewrite length_map, length_seq.
  - assert (Hi : (i < List.length (SampleRequests.prompts sc))%nat).
    { apply nth_error_Some. congruence. }
    eexists. split.
    + apply map_nth_error. rewrite nth_error_seq.
      apply Nat.ltb_lt in Hi. rewrite Hi. reflexivity.
    + simpl. repeat split.
      apply nth_error_nth. exact Hp.
Qed.

Lemma sample_requests_per_prompt_witness :
  nth_error (SampleRequests.prompts
               (if false then walking_prompts else walking_prompts)) 2
  = Some "a bird"%string /\
  List.length (SampleRequests.gen_img_config_list "out/job" walking_prompts
                 walking_prompts (Some 5) false)
  = List.length (SampleRequests.prompts
                   (if false then walking_prompts else walking_prompts)) /\
  exists g,
    nth_error (SampleRequests.gen_img_config_list "out/job" walking_prompts
                 walking_prompts (Some 5) false) 2 = Some g /\
    SampleRequests.gi_prompt g = "a bird"%string /\
    SampleRequests.gi_seed g
    = (if SampleRequests.walk_seed
            (if false then walking_prompts else walking_prompts)
       then SampleRequests.seed
              (if false then walking_prompts else walking_prompts)
            + Z.of_nat 2
       else SampleRequests.seed
              (if false then walking_prompts else walking_prompts)) /\
    SampleRequests.gi_output_path g
    = SampleRequests.path_join (SampleRequests.path_join "out/job" "samples")
        (SampleRequests.filename (Some 5)).
Proof.
  assert (H : nth_error (SampleRequests.prompts
                           (if false then walking_prompts else walking_prompts)) 2
              = Some "a bird"%string) by reflexivity.
  split; [exact H|].
  exact (sample_requests_per_prompt "out/job" walking_prompts walking_prompts
           (Some 5) false 2 "a bird" H).
Defined.

(** The path of the requests for step 5 under [out/job]. *)
Example sample_output_path :
  map SampleRequests.gi_output_path
    (SampleRequests.gen_img_config_list "out/job" walking_prompts walking_prompts
       (Some 5) false)
  = ["out/job/samples/[time]__000000005_[count].png";
     "out/job/samples/[time]__000000005_[count].png";
     "out/job/samples/[time]__000000005_[count].png"]%string.
Proof. reflexivity. Qed.

(** ** Cycling through the data loader *)

Section Cycling.

Variable batch : Type.
Variable dl : list batch.
Variable d : batch.

Lemma skipn_nth (k : nat) :
  (k < List.length dl)%nat -> skipn k dl = nth k dl d :: skipn (S k) dl.
Proof.
  revert k. induction dl as [|b l IH]; intros k Hk; simpl in Hk; [lia|].
  destruct k as [|k]; [reflexivity|].
  simpl. apply IH. lia.
Qed.

Lemma draw_from (n k : nat) :
  dl <> [] -> (k <= List.length dl)%nat ->
  Batches.draw (Some dl) (skipn k dl) n
  = Some (map (fun i => Some (nth ((k + i) mod List.length dl) dl d)) (seq 0 n)).
Proof.
  intros Hne. revert k. induction n as [|n IH]; intros k Hk; [reflexivity|].
  assert (Hlen : (0 < List.length dl)%nat).
  { destruct dl; [contradiction | simpl; lia]. }
  cbn [seq]. rewrite <- seq_shift. cbn [map]. rewrite map_map.
  cbn [Batches.draw].
  destruct (Nat.eq_dec k (List.length dl)) as [E|Hlt].
  - subst k. rewrite skipn_all.
    assert (Hnext : Batches.next (Batches.iter dl)
                    = Some (nth 0 dl d, skipn 1 dl)).
    { unfold Batches.iter. destruct dl; [contradiction | reflexivity]. }
    unfold Batches.next_batch. rewrite Hnext. cbn [Batches.next].
    rewrite (IH 1%nat) by lia.
    f_equal. f_equal.
    + f_equal. now rewrite Nat.add_0_r, Nat.Div0.mod_same.
    + apply map_ext. intros i. do 2 f_equal.
      replace (List.length dl + S i)%nat with (1 + i + 1 * List.length dl)%nat
        by lia.
      now rewrite Nat.Div0.mod_add.
  - rewrite (skipn_nth k) by lia. unfold Batches.next_batch, Batches.next.
    rewrite (IH (S k)) by lia.
    f_equal. f_equal.
    + f_equal. rewrite Nat.add_0_r, Nat.mod_small by lia. reflexivity.
    + apply map_ext. intros i. do 3 f_equal. lia.
Qed.

End Cycling.

(** X11. With a non-empty data loader the loop never runs out of batches:
    iteration [i] trains on batch [i mod len] of the loader, which is
    restarted each time it is exhausted. *)
Theorem batches_cycle (batch : Type) (dl : list batch) (d : batch) (n : nat) :
  dl <> [] ->
  Batches.loop_batches (Some dl) n
  = Some (map (fun i => Some (nth (i mod List.length dl) dl d)) (seq 0 n)).
Proof.
  intros Hne. unfold Batches.loop_batches, Batches.iter.
  change dl with (skipn 0 dl) at 2.
  rewrite (draw_from batch dl d n 0 Hne) by lia.
  reflexivity.
Qed.

Lemma batches_cycle_witness :
  [1; 2; 3] <> [] /\
  Batches.loop_batches (Some [1; 2; 3]) 7
  = Some (map (fun i => Some (nth (i mod List.length [1; 2; 3]) [1; 2; 3] 0))
              (seq 0 7)).
Proof.
  assert (H : [1; 2; 3] <> []) by discriminate.
  split; [exact H|].
  exact (batches_cycle Z [1; 2; 3] 0 7 H).
Defined.

(** Three batches over seven steps: the fourth request starts over. *)
Example seven_steps_over_three_batches :
  Batches.loop_batches (Some [1; 2; 3]) 7
  = Some [Some 1; Some 2; Some 3; Some 1; Some 2; Some 3; Some 1].
Proof. reflexivity. Qed.

(** An empty data loader lets [StopIteration] escape at the first step. *)
Example empty_loader_stops :
  Batches.loop_batches (Some (@nil Z)) 1 = None.
Proof. reflexivity. Qed.

(** ** Starting the autoencoder trainer *)

Section VAEInit.

Variables params grads opt_state : Type.

Import TrainVAEProcess.

Lemma check_datasets_ok (ds : list dataset) :
  check_datasets ds = Ok tt <-> Forall dataset_ok ds.
Proof.
  induction ds as [|d ds IH]; simpl.
  - split; [constructor | reflexivity].
  - destruct (ds_path d) as [path|] eqn:Hpath.
    + destruct (ds_is_dir d) eqn:Hdir.
      * rewrite IH. split.
        -- intros H. constructor; [|exact H].
           split; [rewrite Hpath; discriminate | exact Hdir].
        -- intros H. now inversion H.
      * split; [discriminate|]. intros H. inversion H as [|? ? [_ Hd] _].
        congruence.
    + split; [discriminate|]. intros H. inversion H as [|? ? [Hp _] _].
      now contradiction Hp.
Qed.

Lemma check_datasets_cases (ds : list dataset) :
  check_datasets ds = Ok tt \/ exists msg, check_datasets ds = Raise (ValueError msg).
Proof.
  induction ds as [|d ds IH]; simpl; [now left|].
  destruct (ds_path d); [|eauto]. destruct (ds_is_dir d); [exact IH | eauto].
Qed.

End VAEInit.

(** X12. The constructor of the autoencoder trainer succeeds exactly when
    [vae_path] and [datasets] are given, every dataset has a path that is a
    directory, sampling is not asked for without sample sources, and an
    epoch count or a step count is given; the process it returns starts at
    step 0 and epoch 0 with the configured budgets, an existing save root and
    no effect performed yet. *)
Theorem init_succeeds_iff (params grads opt_state : Type)
    (c : TrainVAEProcess.config) (root : option FS.dir) (now : Z)
    (p : TrainVAEProcess.process params grads opt_state) :
  TrainVAEProcess.init c root now = Ok p <->
  (TrainVAEProcess.vae_path c <> None /\
   (exists ds, TrainVAEProcess.datasets_objects c = Some ds
               /\ Forall dataset_ok ds) /\
   ~ (TrainVAEProcess.sample_every c <> None
      /\ TrainVAEProcess.sample_sources c = None) /\
   ~ (TrainVAEProcess.epochs c = None /\ TrainVAEProcess.max_steps c = None)) /\
  p = TrainVAEProcess.mkProcess 0 0 (TrainVAEProcess.max_steps c)
        (TrainVAEProcess.epochs c) None None [] [] []
        (Some (match root with Some d => d | None => [] end)) now [].
Proof.
  unfold TrainVAEProcess.init, TrainVAEProcess.required, bind.
  destruct (TrainVAEProcess.vae_path c) as [vp|].
  2:{ split; [discriminate|]. intros [[H _] _]. now contradiction H. }
  destruct (TrainVAEProcess.datasets_objects c) as [ds|].
  2:{ split; [discriminate|]. intros [(_ & (ds & H & _) & _) _]. discriminate. }
  assert (Hds : forall q : TrainVAEProcess.process params grads opt_state,
             (match TrainVAEProcess.check_datasets ds with
              | Ok _ => Ok q
              | Raise e => Raise e
              end = Ok p)
             <-> (Forall dataset_ok ds /\ p = q)).
  { intros q. rewrite <- check_datasets_ok.
    destruct (TrainVAEProcess.check_datasets ds) as [[]|e].
    - split; [intros H; inversion H; now split | intros [_ H]; now subst].
    - split; [discriminate | intros [H _]; discriminate]. }
  destruct (TrainVAEProcess.sample_every c) as [se|],
    (TrainVAEProcess.sample_sources c) as [ss|],
    (TrainVAEProcess.epochs c) as [ep|],
    (TrainVAEProcess.max_steps c) as [ms|];
    try (rewrite Hds; destruct root;
         (split;
          [intros [Hf Hp]; split;
           [repeat split;
            [discriminate | exists ds; now split
            | intros [H1 H2]; try discriminate; now try contradiction H1
            | intros [H1 H2]; discriminate]
           | exact Hp]
          | intros [(_ & (ds' & E & Hf) & _) Hp]; inversion E; subst ds';
            now split]));
    (split; [discriminate|]);
    intros [(_ & _ & H1 & H2) _];
    try (exfalso; apply H1; split; [discriminate | reflexivity]);
    try (exfalso; apply H2; split; reflexivity).
Qed.

(** ** Steps and budget of the autoencoder trainer *)

Section Preserving.

Variables params grads opt_state : Type.

Import TrainVAEProcess.

Lemma preserves_ret (A : Type) (a : A) :
  preserves (ret a : M params grads opt_state A).
Proof. intros p r p' H. inversion H; now subst. Qed.

Lemma preserves_raise (A : Type) (e : error) :
  preserves (raise e : M params grads opt_state A).
Proof. intros p r p' H. inversion H; now subst. Qed.

Lemma preserves_lift (A : Type) (x : result A) :
  preserves (lift x : M params grads opt_state A).
Proof. intros p r p' H. inversion H; now subst. Qed.

Lemma preserves_gets (A : Type) (f : process params grads opt_state -> A) :
  preserves (gets f).
Proof. intros p r p' H. inversion H; now subst. Qed.

Lemma preserves_modify (f : process params grads opt_state
                            -> process params grads opt_state) :
  (forall p, step_num (f p) = step_num p
             /\ cur_max_steps (f p) = cur_max_steps p) ->
  preserves (modify f).
Proof. intros Hf p r p' H. inversion H; subst. apply Hf. Qed.

Lemma preserves_bind (A B : Type) (m : M params grads opt_state A)
    (k : A -> M params grads opt_state B) :
  preserves m -> (forall a, preserves (k a)) -> preserves (bindM m k).
Proof.
  intros Hm Hk p r p' H. unfold bindM in H.
  destruct (m p) as [[a|e] p1] eqn:Hmp.
  - destruct (Hm _ _ _ Hmp) as [H1 H2].
    destruct (Hk a _ _ _ H) as [H3 H4].
    split; congruence.
  - inversion H; subst. exact (Hm _ _ _ Hmp).
Qed.

(** How a sequence of two computations can end. *)
Lemma bindM_inv (A B : Type) (m : M params grads opt_state A)
    (k : A -> M params grads opt_state B)
    (p p' : process params grads opt_state) (r : result B) :
  bindM m k p = (r, p') ->
  (exists a p1, m p = (Ok a, p1) /\ k a p1 = (r, p'))
  \/ (exists e, m p = (Raise e, p') /\ r = Raise e).
Proof.
  unfold bindM. destruct (m p) as [[a|e] p1].
  - intros H. left. now exists a, p1.
  - intros H. inversion H; subst. right. now exists e.
Qed.

End Preserving.

Ltac preserves_auto :=
  repeat match goal with
    | |- preserves (TrainVAEProcess.bindM _ _) =>
        apply preserves_bind; [|intros ?]
    | |- preserves (TrainVAEProcess.ret _) => apply preserves_ret
    | |- preserves (TrainVAEProcess.raise _) => apply preserves_raise
    | |- preserves (TrainVAEProcess.lift _) => apply preserves_lift
    | |- preserves (TrainVAEProcess.gets _) => apply preserves_gets
    | |- preserves (TrainVAEProcess.modify _) =>
        apply preserves_modify;
        let p := fresh "p" in
        intros p; destruct p; simpl;
        repeat match goal with
          | |- context [match ?x with _ => _ end] => destruct x
          end;
        split; reflexivity
    | |- preserves (if ?b then _ else _) => destruct b
    | |- preserves (match ?x with _ => _ end) => destruct x
    end.

Ltac quiet_auto :=
  repeat match goal with
    | |- extends _ (TrainVAEProcess.bindM _ _) =>
        apply extends_bind; [|intros ?]
    | |- extends _ (TrainVAEProcess.ret _) => apply extends_ret
    | |- extends _ (TrainVAEProcess.raise _) => apply extends_raise
    | |- extends _ (TrainVAEProcess.lift _) => apply extends_lift
    | |- extends _ (TrainVAEProcess.gets _) => apply extends_gets
    | |- extends _ (TrainVAEProcess.modify (TrainVAEProcess.emit _)) =>
        apply extends_emit; reflexivity
    | |- extends _ (TrainVAEProcess.modify _) =>
        apply extends_silent;
        let p := fresh "p" in
        intros p; destruct p; simpl;
        repeat match goal with
          | |- context [match ?x with _ => _ end] => destruct x
          end;
        reflexivity
    | |- extends _ (if ?b then _ else _) => destruct b
    | |- extends _ (match ?x with _ => _ end) => destruct x
    end.

Section VAESteps.

Variables features params grads opt_state : Type.
Variable model : params -> list features -> list Q.
Variable get_gradient_penalty : params -> list features -> list features -> Q.
Variable loss_gradient : params -> list features -> grads.
Variable optimizer_step : opt_state -> params -> option grads -> opt_state * params.
Variable fresh_critic : params.
Variable fresh_optimizer : opt_state.
Variable state_dict : params -> list Q.
Variable load_state_dict : list Q -> params.
Variable base_vae : list Q.
Variable n_batches : nat.
Variable forward : Z -> TrainVAEProcess.forward_pass features.

Import TrainVAEProcess.

Variable c : config.
Variable start : Z.

Lemma save_quiet (step : option Z) :
  extends quiet (save state_dict c step : M params grads opt_state unit).
Proof. unfold save, critic_save. quiet_auto. Qed.

Lemma save_preserves (step : option Z) :
  preserves (save state_dict c step : M params grads opt_state unit).
Proof. unfold save, critic_save. preserves_auto. Qed.

Lemma compose_loss_quiet (f : forward_pass features) (d : Q) :
  extends quiet (compose_loss model c f d : M params grads opt_state step_losses).
Proof.
  unfold compose_loss, get_style_loss, get_content_loss, get_kld_loss,
    get_mse_loss, get_tv_loss, critic_generator.
  quiet_auto.
Qed.

Lemma compose_loss_preserves (f : forward_pass features) (d : Q) :
  preserves (compose_loss model c f d : M params grads opt_state step_losses).
Proof.
  unfold compose_loss, get_style_loss, get_content_loss, get_kld_loss,
    get_mse_loss, get_tv_loss, critic_generator.
  preserves_auto.
Qed.

Lemma critic_discriminator_quiet (f : forward_pass features) :
  extends quiet (critic_discriminator model get_gradient_penalty loss_gradient
                   optimizer_step c f : M params grads opt_state Q).
Proof. unfold critic_discriminator. quiet_auto. Qed.

Lemma critic_discriminator_preserves (f : forward_pass features) :
  preserves (critic_discriminator model get_gradient_penalty loss_gradient
               optimizer_step c f : M params grads opt_state Q).
Proof. unfold critic_discriminator. preserves_auto. Qed.

Lemma step_loss_quiet (f : forward_pass features) :
  extends quiet (step_loss model get_gradient_penalty loss_gradient
                   optimizer_step c f : M params grads opt_state step_losses).
Proof.
  unfold step_loss.
  apply extends_bind; [unfold vgg_pass; quiet_auto|]. intros _.
  apply extends_bind; [apply critic_discriminator_quiet|]. intros d.
  apply compose_loss_quiet.
Qed.

Lemma step_loss_preserves (f : forward_pass features) :
  preserves (step_loss model get_gradient_penalty loss_gradient
               optimizer_step c f : M params grads opt_state step_losses).
Proof.
  unfold step_loss.
  apply preserves_bind; [unfold vgg_pass; preserves_auto|]. intros _.
  apply preserves_bind; [apply critic_discriminator_preserves|]. intros d.
  apply compose_loss_preserves.
Qed.

Lemma log_scalars_quiet (keys : list string) (n : Z) :
  extends quiet (log_scalars keys n : M params grads opt_state unit).
Proof. induction keys as [|key keys IH]; simpl; quiet_auto. exact IH. Qed.

Lemma log_scalars_preserves (keys : list string) (n : Z) :
  preserves (log_scalars keys n : M params grads opt_state unit).
Proof. induction keys as [|key keys IH]; simpl; preserves_auto. exact IH. Qed.

Lemma epoch_scalars_quiet (keys : list string) (epoch : Z) :
  extends quiet (epoch_scalars keys epoch : M params grads opt_state unit).
Proof. induction keys as [|key keys IH]; simpl; quiet_auto; exact IH. Qed.

Lemma epoch_scalars_preserves (keys : list string) (epoch : Z) :
  preserves (epoch_scalars keys epoch : M params grads opt_state unit).
Proof. induction keys as [|key keys IH]; simpl; preserves_auto; exact IH. Qed.

Lemma sample_quiet (step : option Z) :
  extends quiet (sample c step : M params grads opt_state unit).
Proof. unfold sample. quiet_auto. Qed.

Lemma sample_preserves (step : option Z) :
  preserves (sample c step : M params grads opt_state unit).
Proof. unfold sample. preserves_auto. Qed.

Lemma periodic_quiet :
  extends quiet (periodic state_dict c start : M params grads opt_state unit).
Proof.
  unfold periodic.
  apply extends_bind; [apply extends_gets|]. intros n.
  destruct (negb (n =? start)); [|apply extends_ret].
  apply extends_bind; [|intros _].
  { destruct (Schedule.interval_due (sample_every c) n);
      [apply sample_quiet | apply extends_ret]. }
  apply extends_bind; [|intros _].
  { destruct (Schedule.interval_due (save_every c) n);
      [apply save_quiet | apply extends_ret]. }
  destruct (Schedule.interval_due (Some (log_every c)) n); [|apply extends_ret].
  apply extends_bind; [|intros _; quiet_auto].
  destruct (has_writer c); [|apply extends_ret].
  apply extends_bind; [apply extends_gets|]. intros d.
  apply log_scalars_quiet.
Qed.

Lemma periodic_preserves :
  preserves (periodic state_dict c start : M params grads opt_state unit).
Proof.
  unfold periodic.
  apply preserves_bind; [apply preserves_gets|]. intros n.
  destruct (negb (n =? start)); [|apply preserves_ret].
  apply preserves_bind; [|intros _].
  { destruct (Schedule.interval_due (sample_every c) n);
      [apply sample_preserves | apply preserves_ret]. }
  apply preserves_bind; [|intros _].
  { destruct (Schedule.interval_due (save_every c) n);
      [apply save_preserves | apply preserves_ret]. }
  destruct (Schedule.interval_due (Some (log_every c)) n); [|apply preserves_ret].
  apply preserves_bind; [|intros _; preserves_auto].
  destruct (has_writer c); [|apply preserves_ret].
  apply preserves_bind; [apply preserves_gets|]. intros d.
  apply log_scalars_preserves.
Qed.

Lemma end_epoch_quiet (epoch : Z) :
  extends quiet (end_epoch c epoch : M params grads opt_state unit).
Proof.
  unfold end_epoch.
  apply extends_bind; [|intros _; quiet_auto].
  destruct (has_writer c); [|apply extends_ret].
  apply extends_bind; [apply extends_gets|]. intros d.
  apply epoch_scalars_quiet.
Qed.

Lemma end_epoch_preserves (epoch : Z) :
  preserves (end_epoch c epoch : M params grads opt_state unit).
Proof.
  unfold end_epoch.
  apply preserves_bind; [|intros _; preserves_auto].
  destruct (has_writer c); [|apply preserves_ret].
  apply preserves_bind; [apply preserves_gets|]. intros d.
  apply epoch_scalars_preserves.
Qed.

End VAESteps.

Section VAELoop.

Variables features params grads opt_state : Type.
Variable model : params -> list features -> list Q.
Variable get_gradient_penalty : params -> list features -> list features -> Q.
Variable loss_gradient : params -> list features -> grads.
Variable optimizer_step : opt_state -> params -> option grads -> opt_state * params.
Variable state_dict : params -> list Q.
Variable n_batches : nat.
Variable forward : Z -> TrainVAEProcess.forward_pass features.

Import TrainVAEProcess.

Variable c : config.
Variable start : Z.

Lemma quiet_filter (evs : list event) :
  Forall quiet evs -> filter is_train_step evs = [].
Proof.
  induction 1 as [|e evs He _ IH]; simpl; [reflexivity|].
  unfold quiet in He. now rewrite He.
Qed.

Lemma quiet_within (lo hi : Z) (evs : list event) :
  Forall quiet evs -> Forall (within_budget lo hi) evs.
Proof.
  intros H. eapply Forall_impl; [|exact H].
  intros e He j E. subst e. discriminate He.
Qed.

Lemma within_weaken (lo lo' hi hi' : Z) (evs : list event) :
  lo' <= lo -> hi <= hi' ->
  Forall (within_budget lo hi) evs -> Forall (within_budget lo' hi') evs.
Proof.
  intros H1 H2 H. eapply Forall_impl; [|exact H].
  intros e He j E. specialize (He j E). lia.
Qed.

(** One pass through the loop body: it adds the training step of the
    current counter and, when it returns, has advanced the counter by one. *)
Lemma train_body_step (p p' : process params grads opt_state) (r : result unit) :
  train_body model get_gradient_penalty loss_gradient optimizer_step state_dict
    forward c start p = (r, p') ->
  cur_max_steps p' = cur_max_steps p /\
  step_num p <= step_num p' /\
  exists evs,
    trace p' = trace p ++ evs /\
    Forall (within_budget (step_num p) (step_num p + 1)) evs /\
    (r = Ok tt ->
     step_num p' = step_num p + 1 /\
     filter is_train_step evs = [TrainStep (step_num p)]).
Proof.
  unfold train_body. intros H.
  apply bindM_inv in H. destruct H as [(n & p0 & Hg & H)|(e & Hg & _)];
    [|discriminate Hg].
  inversion Hg; subst n p0; clear Hg.
  apply bindM_inv in H. destruct H as [(l & p2 & H2 & H)|(e & H2 & Hr)].
  2:{ destruct (step_loss_quiet _ _ _ _ model get_gradient_penalty
                  loss_gradient optimizer_step c _ _ _ _ H2) as (evs & Ht & Hq).
      destruct (step_loss_preserves _ _ _ _ model get_gradient_penalty
                  loss_gradient optimizer_step c _ _ _ _ H2) as [Hs Hm].
      split; [exact Hm|]. split; [lia|]. exists evs. split; [exact Ht|].
      split; [now apply quiet_within | subst r; discriminate]. }
  destruct (step_loss_quiet _ _ _ _ model get_gradient_penalty
              loss_gradient optimizer_step c _ _ _ _ H2) as (evs2 & Ht2 & Hq2).
  destruct (step_loss_preserves _ _ _ _ model get_gradient_penalty
              loss_gradient optimizer_step c _ _ _ _ H2) as [Hs2 Hm2].
  apply bindM_inv in H. destruct H as [([] & p3 & H3 & H)|(e & H3 & _)];
    [|discriminate H3].
  inversion H3; subst p3; clear H3.
  apply bindM_inv in H. destruct H as [([] & p4 & H4 & H)|(e & H4 & _)];
    [|discriminate H4].
  inversion H4; subst p4; clear H4.
  apply bindM_inv in H. destruct H as [([] & p5 & H5 & H)|(e & H5 & _)];
    [|discriminate H5].
  inversion H5; subst p5; clear H5.
  set (p5 := set_log_losses _ _) in H.
  assert (Ht5 : trace p5 = trace p ++ evs2 ++ [TrainStep (step_num p)]).
  { subst p5. simpl. rewrite Ht2. now rewrite <- !app_assoc. }
  assert (Hs5 : step_num p5 = step_num p) by (subst p5; simpl; congruence).
  assert (Hm5 : cur_max_steps p5 = cur_max_steps p)
    by (subst p5; simpl; congruence).
  assert (Hpre : Forall (within_budget (step_num p) (step_num p + 1))
                   (evs2 ++ [TrainStep (step_num p)])).
  { apply Forall_app. split; [now apply quiet_within|].
    constructor; [|constructor]. intros j E. inversion E. lia. }
  apply bindM_inv in H. destruct H as [([] & p6 & H6 & H)|(e & H6 & Hr)].
  2:{ destruct (periodic_quiet _ _ _ state_dict c start _ _ _ H6)
        as (evs & Ht & Hq).
      destruct (periodic_preserves _ _ _ state_dict c start _ _ _ H6) as [Hs Hm].
      split; [congruence|]. split; [lia|].
      exists ((evs2 ++ [TrainStep (step_num p)]) ++ evs).
      split; [now rewrite Ht, Ht5, <- !app_assoc|].
      split; [apply Forall_app; split; [exact Hpre | now apply quiet_within]
             | subst r; discriminate]. }
  destruct (periodic_quiet _ _ _ state_dict c start _ _ _ H6) as (evs6 & Ht6 & Hq6).
  destruct (periodic_preserves _ _ _ state_dict c start _ _ _ H6) as [Hs6 Hm6].
  inversion H; subst r p'; clear H. simpl.
  split; [congruence|]. split; [lia|].
  exists ((evs2 ++ [TrainStep (step_num p)]) ++ evs6).
  split; [now rewrite Ht6, Ht5, <- !app_assoc|].
  split; [apply Forall_app; split; [exact Hpre | now apply quiet_within]|].
  intros _. split; [lia|].
  rewrite !filter_app, (quiet_filter evs2),
    (quiet_filter evs6) by assumption.
  reflexivity.
Qed.

Lemma budget_spent_value (p p' : process params grads opt_state)
    (r : result bool) (ms : Z) :
  cur_max_steps p = Some ms ->
  budget_spent p = (r, p') -> r = Ok (ms <=? step_num p) /\ p' = p.
Proof.
  unfold budget_spent, bindM, gets, ret. intros Hm. rewrite Hm.
  intros H. inversion H. now split.
Qed.

Lemma range_cons (a b : Z) : a < b -> Py.range a b = a :: Py.range (a + 1) b.
Proof.
  intros Hab. unfold Py.range.
  replace (Z.to_nat (b - a)) with (S (Z.to_nat (b - (a + 1)))) by lia.
  cbn [seq map]. rewrite <- seq_shift, map_map.
  f_equal; [lia|]. apply map_ext. intros i. lia.
Qed.

Lemma range_empty (a b : Z) : b <= a -> Py.range a b = [].
Proof.
  intros H. unfold Py.range. now replace (Z.to_nat (b - a)) with 0%nat by lia.
Qed.

Lemma range_app (a b d : Z) :
  a <= b -> b <= d -> Py.range a d = Py.range a b ++ Py.range b d.
Proof.
  intros Hab Hbd. unfold Py.range.
  replace (Z.to_nat (d - a)) with (Z.to_nat (b - a) + Z.to_nat (d - b))%nat by lia.
  rewrite seq_app, map_app. f_equal. simpl.
  generalize (Z.to_nat (d - b)). intros n.
  assert (Hshift : forall k m,
             seq (k + m) n = map (fun i => (k + i)%nat) (seq m n)).
  { intros k. induction n as [|n IH]; intros m; simpl; [reflexivity|].
    f_equal. rewrite <- IH. f_equal. lia. }
  rewrite <- (Nat.add_0_r (Z.to_nat (b - a))), Hshift, map_map.
  apply map_ext. intros i. lia.
Qed.

(** The batches of one epoch. *)
Lemma batch_loop_steps (k : nat) (ms : Z)
    (p p' : process params grads opt_state) (r : result unit) :
  cur_max_steps p = Some ms ->
  batch_loop model get_gradient_penalty loss_gradient optimizer_step state_dict
    forward k c start p = (r, p') ->
  cur_max_steps p' = Some ms /\
  step_num p <= step_num p' /\
  exists evs,
    trace p' = trace p ++ evs /\
    Forall (within_budget (step_num p) ms) evs /\
    (r = Ok tt ->
     filter is_train_step evs
     = map TrainStep (Py.range (step_num p) (step_num p')) /\
     step_num p' = (if ms <=? step_num p then step_num p
                    else Z.min (step_num p + Z.of_nat k) ms)).
Proof.
  revert p. induction k as [|k IH]; intros p Hm H.
  - simpl in H. inversion H; subst r p'; clear H.
    split; [exact Hm|]. split; [lia|]. exists []. rewrite app_nil_r.
    split; [reflexivity|]. split; [constructor|]. intros _.
    rewrite range_empty by lia. split; [reflexivity|].
    destruct (ms <=? step_num p) eqn:Hle; [reflexivity|].
    apply Z.leb_gt in Hle. lia.
  - cbn [batch_loop] in H.
    apply bindM_inv in H. destruct H as [(stop & p0 & Hb & H)|(e & Hb & _)].
    2:{ apply (budget_spent_value _ _ _ ms Hm) in Hb. destruct Hb; discriminate. }
    apply (budget_spent_value _ _ _ ms Hm) in Hb. destruct Hb as [Hstop Hp0].
    inversion Hstop; subst stop p0; clear Hstop.
    destruct (ms <=? step_num p) eqn:Hle.
    + inversion H; subst r p'; clear H.
      split; [exact Hm|]. split; [lia|]. exists []. rewrite app_nil_r.
      split; [reflexivity|]. split; [constructor|]. intros _.
      rewrite range_empty by lia. now split.
    + apply Z.leb_gt in Hle.
      apply bindM_inv in H. destruct H as [([] & p1 & H1 & H)|(e & H1 & Hr)].
      2:{ apply train_body_step in H1.
          destruct H1 as (Hm1 & Hs1 & evs & Ht & Hw & _).
          split; [congruence|]. split; [exact Hs1|]. exists evs.
          split; [exact Ht|].
          split; [eapply within_weaken; [| |exact Hw]; lia
                 | subst r; discriminate]. }
      apply train_body_step in H1.
      destruct H1 as (Hm1 & Hs1 & evs1 & Ht1 & Hw1 & Hok1).
      destruct (Hok1 eq_refl) as [Hstep1 Hf1].
      assert (Hm1' : cur_max_steps p1 = Some ms) by congruence.
      destruct (IH p1 Hm1' H) as (Hm2 & Hs2 & evs2 & Ht2 & Hw2 & Hok2).
      split; [exact Hm2|]. split; [lia|]. exists (evs1 ++ evs2).
      split; [now rewrite Ht2, Ht1, app_assoc|].
      split.
      * apply Forall_app. split.
        -- eapply within_weaken; [| |exact Hw1]; lia.
        -- eapply within_weaken; [| |exact Hw2]; lia.
      * intros Hr. destruct (Hok2 Hr) as [Hf2 Hstep2].
        rewrite filter_app, Hf1, Hf2, Hstep1.
        assert (Hlt : step_num p < step_num p').
        { rewrite Hstep2.
          destruct (ms <=? step_num p1); lia. }
        split.
        -- rewrite (range_cons (step_num p) (step_num p')) by lia. reflexivity.
        -- rewrite Hstep2, Hstep1.
           destruct (ms <=? step_num p + 1) eqn:Hle'.
           ++ apply Z.leb_le in Hle'. lia.
           ++ apply Z.leb_gt in Hle'. lia.
Qed.

(** The epochs of a run. *)
Lemma epoch_loop_steps (epoch_range : list Z) (ms : Z)
    (p p' : process params grads opt_state) (r : result unit) :
  cur_max_steps p = Some ms ->
  epoch_loop model get_gradient_penalty loss_gradient optimizer_step state_dict
    n_batches forward epoch_range c start p = (r, p') ->
  cur_max_steps p' = Some ms /\
  step_num p <= step_num p' /\
  exists evs,
    trace p' = trace p ++ evs /\
    Forall (within_budget (step_num p) ms) evs /\
    (r = Ok tt ->
     filter is_train_step evs
     = map TrainStep (Py.range (step_num p) (step_num p')) /\
     step_num p' = (if ms <=? step_num p then step_num p
                    else Z.min (step_num p
                                + Z.of_nat (List.length epoch_range)
                                  * Z.of_nat n_batches) ms)).
Proof.
  revert p. induction epoch_range as [|epoch rest IH]; intros p Hm H.
  - simpl in H. inversion H; subst r p'; clear H.
    split; [exact Hm|]. split; [lia|]. exists []. rewrite app_nil_r.
    split; [reflexivity|]. split; [constructor|]. intros _.
    rewrite range_empty by lia. split; [reflexivity|].
    destruct (ms <=? step_num p) eqn:Hle; [reflexivity|].
    apply Z.leb_gt in Hle. simpl. lia.
  - cbn [epoch_loop] in H.
    apply bindM_inv in H. destruct H as [(stop & p0 & Hb & H)|(e & Hb & _)].
    2:{ apply (budget_spent_value _ _ _ ms Hm) in Hb. destruct Hb; discriminate. }
    apply (budget_spent_value _ _ _ ms Hm) in Hb. destruct Hb as [Hstop Hp0].
    inversion Hstop; subst stop p0; clear Hstop.
    destruct (ms <=? step_num p) eqn:Hle.
    + inversion H; subst r p'; clear H.
      split; [exact Hm|]. split; [lia|]. exists []. rewrite app_nil_r.
      split; [reflexivity|]. split; [constructor|]. intros _.
      rewrite range_empty by lia. now split.
    + apply Z.leb_gt in Hle.
      apply bindM_inv in H. destruct H as [([] & p1 & H1 & H)|(e & H1 & Hr)].
      2:{ apply (batch_loop_steps _ ms _ _ _ Hm) in H1.
          destruct H1 as (Hm1 & Hs1 & evs & Ht & Hw & _).
          split; [exact Hm1|]. split; [exact Hs1|]. exists evs.
          split; [exact Ht|]. split; [exact Hw | subst r; discriminate]. }
      apply (batch_loop_steps _ ms _ _ _ Hm) in H1.
      destruct H1 as (Hm1 & Hs1 & evs1 & Ht1 & Hw1 & Hok1).
      destruct (Hok1 eq_refl) as [Hf1 Hstep1].
      apply Z.leb_gt in Hle. rewrite Hle in Hstep1. apply Z.leb_gt in Hle.
      apply bindM_inv in H. destruct H as [([] & p2 & H2 & H)|(e & H2 & Hr)].
      2:{ destruct (end_epoch_quiet _ _ _ c epoch _ _ _ H2) as (evs & Ht & Hq).
          destruct (end_epoch_preserves _ _ _ c epoch _ _ _ H2) as [Hs Hmx].
          split; [congruence|]. split; [lia|]. exists (evs1 ++ evs).
          split; [now rewrite Ht, Ht1, app_assoc|].
          split; [apply Forall_app; split; [exact Hw1 | now apply quiet_within]
                 | subst r; discriminate]. }
      destruct (end_epoch_quiet _ _ _ c epoch _ _ _ H2) as (evs2 & Ht2 & Hq2).
      destruct (end_epoch_preserves _ _ _ c epoch _ _ _ H2) as [Hs2 Hm2].
      assert (Hm2' : cur_max_steps p2 = Some ms) by congruence.
      destruct (IH p2 Hm2' H) as (Hm3 & Hs3 & evs3 & Ht3 & Hw3 & Hok3).
      split; [exact Hm3|]. split; [lia|]. exists (evs1 ++ evs2 ++ evs3).
      split; [rewrite Ht3, Ht2, Ht1; now rewrite <- !app_assoc|].
      split.
      * apply Forall_app. split; [exact Hw1|].
        apply Forall_app. split; [now apply quiet_within|].
        eapply within_weaken; [| |exact Hw3]; lia.
      * intros Hr. destruct (Hok3 Hr) as [Hf3 Hstep3].
        rewrite !filter_app, Hf1, (quiet_filter evs2 Hq2), Hf3. cbn [app].
        rewrite Hs2 in *.
        split.
        -- rewrite <- map_app. f_equal. symmetry. apply range_app; lia.
        -- rewrite Hstep3, Hstep1.
           destruct (ms <=? Z.min (step_num p + Z.of_nat n_batches) ms) eqn:Hle'.
           ++ apply Z.leb_le in Hle'.
              assert (0 <= Z.of_nat (List.length rest) * Z.of_nat n_batches)
                by (apply Z.mul_nonneg_nonneg; lia).
              cbn [List.length]. rewrite Nat2Z.inj_succ, Z.mul_succ_l. lia.
           ++ apply Z.leb_gt in Hle'. cbn [List.length].
              rewrite Nat2Z.inj_succ, Z.mul_succ_l. lia.
Qed.

End VAELoop.

Section VAEBudget.

Variables features params grads opt_state : Type.
Variable model : params -> list features -> list Q.
Variable get_gradient_penalty : params -> list features -> list features -> Q.
Variable loss_gradient : params -> list features -> grads.
Variable optimizer_step : opt_state -> params -> option grads -> opt_state * params.
Variable fresh_critic : params.
Variable fresh_optimizer : opt_state.
Variable state_dict : params -> list Q.
Variable load_state_dict : list Q -> params.
Variable base_vae : list Q.
Variable n_batches : nat.
Variable forward : Z -> TrainVAEProcess.forward_pass features.

Import TrainVAEProcess.

(** The budgets [run] settles on: whole epochs only, never more steps than
    asked for. *)
Lemma settle_budget_spec (p p' : process params grads opt_state)
    (r : result unit) (m : Z) :
  cur_max_steps p = Some m ->
  settle_budget n_batches p = (r, p') ->
  (n_batches = 0%nat /\ r = Raise ZeroDivisionError /\ p' = p) \/
  (n_batches <> 0%nat /\ r = Ok tt /\
   p' = set_budget p
          (Some (Z.of_nat n_batches * settled_epochs n_batches m (cur_epochs p)))
          (Some (settled_epochs n_batches m (cur_epochs p))) /\
   Z.of_nat n_batches * settled_epochs n_batches m (cur_epochs p) <= m).
Proof.
  intros Hm. unfold settle_budget, bindM, gets, modify, raise. rewrite Hm.
  destruct (n_batches =? 0)%nat eqn:Hn.
  - apply Nat.eqb_eq in Hn. intros H. inversion H. left. now repeat split.
  - apply Nat.eqb_neq in Hn. intros H. right.
    assert (HL : 0 < Z.of_nat n_batches) by lia.
    assert (He : (match cur_epochs p with
                  | Some e => if m / Z.of_nat n_batches <? e
                              then m / Z.of_nat n_batches else e
                  | None => m / Z.of_nat n_batches
                  end) = settled_epochs n_batches m (cur_epochs p)).
    { unfold settled_epochs. destruct (cur_epochs p) as [e|]; [|reflexivity].
      destruct (m / Z.of_nat n_batches <? e) eqn:Hlt;
        [apply Z.ltb_lt in Hlt | apply Z.ltb_ge in Hlt]; lia. }
    rewrite He in H.
    assert (Hle : Z.of_nat n_batches * settled_epochs n_batches m (cur_epochs p)
                  <= m).
    { pose proof (Z.mul_div_le m (Z.of_nat n_batches) HL) as Hd.
      assert (settled_epochs n_batches m (cur_epochs p) <= m / Z.of_nat n_batches).
      { unfold settled_epochs. destruct (cur_epochs p); lia. }
      nia. }
    destruct (_ <? m) eqn:Hlt in H.
    + inversion H. now repeat split.
    + apply Z.ltb_ge in Hlt. inversion H.
      assert (Heq : Z.of_nat n_batches
                    * settled_epochs n_batches m (cur_epochs p) = m) by lia.
      rewrite Heq. now repeat split.
Qed.

Lemma load_vae_counters (c : config) (p p' : process params grads opt_state)
    (r : result unit) :
  load_vae base_vae c p = (r, p') ->
  r = Ok tt /\ trace p' = trace p ++ [LoadModel] /\
  step_num p' = step_num p /\ epoch_num p' = epoch_num p /\
  cur_max_steps p' = cur_max_steps p /\ cur_epochs p' = cur_epochs p.
Proof.
  unfold load_vae, bindM, gets, modify, ret.
  destruct p as [sn en ms ep v cs m el ll rt k tr]. simpl.
  destruct v; simpl; intros H; inversion H; now subst.
Qed.

Lemma critic_choice_counters (c : config) (p p' : process params grads opt_state)
    (r : result unit) :
  (if (Py.positive (style_weight c) || Py.positive (content_weight c)
       || use_critic c)%bool
   then (if use_critic c
         then critic_setup fresh_critic fresh_optimizer load_state_dict c
         else ret tt)
   else ret tt) p = (r, p') ->
  r = Ok tt /\ trace p' = trace p /\
  step_num p' = step_num p /\ epoch_num p' = epoch_num p /\
  cur_max_steps p' = cur_max_steps p /\ cur_epochs p' = cur_epochs p.
Proof.
  unfold critic_setup, bindM, gets, modify, ret.
  destruct p as [sn en ms ep v cs m el ll rt k tr].
  destruct (_ || _ || _)%bool; [destruct (use_critic c)|];
    simpl; intros H; inversion H; now subst.
Qed.

Lemma sample_counters (c : config) (step : option Z)
    (p p' : process params grads opt_state) (r : result unit) :
  sample c step p = (r, p') ->
  (sample_sources c = None /\ r = Raise TypeError /\ p' = p) \/
  (sample_sources c <> None /\ r = Ok tt /\
   trace p' = trace p ++ [Sample step false] /\
   step_num p' = step_num p /\ epoch_num p' = epoch_num p /\
   cur_max_steps p' = cur_max_steps p /\ cur_epochs p' = cur_epochs p).
Proof.
  unfold sample, modify, raise.
  destruct (sample_sources c) as [s|]; intros H; inversion H; subst.
  - right. destruct p. simpl. repeat split. discriminate.
  - left. now repeat split.
Qed.

(** The steps a run trains, for a process that starts at step 0 of epoch 0
    as [__init__] leaves it. *)
Lemma run_steps (c : config) (p p' : process params grads opt_state)
    (r : result unit) (m : Z) :
  cur_max_steps p = Some m -> step_num p = 0 -> epoch_num p = 0 ->
  run model get_gradient_penalty loss_gradient optimizer_step fresh_critic
    fresh_optimizer state_dict load_state_dict base_vae n_batches forward c p
  = (r, p') ->
  exists evs,
    trace p' = trace p ++ evs /\
    Forall (within_budget 0 (Z.of_nat n_batches
                             * settled_epochs n_batches m (cur_epochs p))) evs /\
    Forall (within_budget 0 m) evs /\
    (r = Ok tt ->
     filter is_train_step evs
     = map TrainStep
         (Py.range 0 (Z.of_nat n_batches
                      * settled_epochs n_batches m (cur_epochs p)))).
Proof.
  intros Hm Hs He. unfold run. intros H.
  set (e := settled_epochs n_batches m (cur_epochs p)).
  set (L := Z.of_nat n_batches).
  apply bindM_inv in H. destruct H as [([] & p1 & H1 & H)|(err & H1 & Hr)].
  2:{ apply (settle_budget_spec _ _ _ m Hm) in H1.
      destruct H1 as [(_ & _ & ->)|(_ & Hok & _)]; [|discriminate].
      exists []. rewrite app_nil_r. repeat split; try constructor.
      subst r. discriminate. }
  apply (settle_budget_spec _ _ _ m Hm) in H1.
  destruct H1 as [(_ & Hbad & _)|(Hn & _ & Hp1 & Hle)]; [discriminate|].
  fold e L in Hp1, Hle.
  assert (Hweak : forall evs, Forall (within_budget 0 (L * e)) evs ->
                              Forall (within_budget 0 m) evs).
  { intros evs. apply within_weaken; lia. }
  assert (Ht1 : trace p1 = trace p) by (subst p1; reflexivity).
  assert (Hs1 : step_num p1 = 0) by (subst p1; exact Hs).
  assert (He1 : epoch_num p1 = 0) by (subst p1; exact He).
  assert (Hm1 : cur_max_steps p1 = Some (L * e)) by (subst p1; reflexivity).
  assert (Hc1 : cur_epochs p1 = Some e) by (subst p1; reflexivity).
  clear Hp1.
  apply bindM_inv in H. destruct H as [(st & p0 & Hg & H)|(err & Hg & _)];
    [|discriminate Hg].
  inversion Hg; subst st p0; clear Hg.
  apply bindM_inv in H. destruct H as [([] & p2 & H2 & H)|(err & H2 & _)].
  2:{ apply load_vae_counters in H2. destruct H2 as [H2 _]. discriminate. }
  apply load_vae_counters in H2.
  destruct H2 as (_ & Ht2 & Hs2 & He2 & Hm2 & Hc2).
  apply bindM_inv in H. destruct H as [([] & p3 & H3 & H)|(err & H3 & _)].
  2:{ apply critic_choice_counters in H3. destruct H3 as [H3 _]. discriminate. }
  apply critic_choice_counters in H3.
  destruct H3 as (_ & Ht3 & Hs3 & He3 & Hm3 & Hc3).
  apply bindM_inv in H. destruct H as [([] & p4 & H4 & H)|(err & H4 & Hr)].
  2:{ apply sample_counters in H4.
      destruct H4 as [(_ & _ & ->)|(_ & Hok & _)]; [|discriminate].
      exists [LoadModel]. split; [congruence|].
      assert (Hq : Forall quiet [LoadModel]) by (repeat constructor).
      split; [now apply quiet_within|]. split; [now apply quiet_within|].
      subst r. discriminate. }
  apply sample_counters in H4.
  destruct H4 as [(_ & Hbad & _)|(_ & _ & Ht4 & Hs4 & He4 & Hm4 & Hc4)];
    [discriminate|].
  apply bindM_inv in H. destruct H as [([] & p5 & H5 & H)|(err & H5 & _)];
    [|discriminate H5].
  inversion H5; subst p5; clear H5.
  set (p5 := set_log_losses _ _) in H.
  assert (Ht5 : trace p5 = trace p ++ [LoadModel; Sample None false]).
  { subst p5. simpl. rewrite Ht4, Ht3, Ht2, Ht1. now rewrite <- app_assoc. }
  assert (Hs5 : step_num p5 = 0) by (subst p5; simpl; congruence).
  assert (He5 : epoch_num p5 = 0) by (subst p5; simpl; congruence).
  assert (Hm5 : cur_max_steps p5 = Some (L * e))
    by (subst p5; simpl; congruence).
  assert (Hc5 : cur_epochs p5 = Some e) by (subst p5; simpl; congruence).
  assert (Hq5 : Forall quiet [LoadModel; Sample None false])
    by (repeat constructor).
  apply bindM_inv in H. destruct H as [(en & p0 & Hg & H)|(err & Hg & _)];
    [|discriminate Hg].
  inversion Hg; subst en p0; clear Hg.
  apply bindM_inv in H. destruct H as [(ep & p0 & Hg & H)|(err & Hg & _)];
    [|discriminate Hg].
  inversion Hg; subst ep p0; clear Hg.
  replace (epoch_num p4) with 0 in H by congruence.
  replace (cur_epochs p4) with (Some e) in H by congruence.
  apply bindM_inv in H. destruct H as [([] & p6 & H6 & H)|(err & H6 & Hr)].
  2:{ eapply epoch_loop_steps in H6; [|exact Hm5].
      destruct H6 as (_ & _ & evs & Ht & Hw & _). rewrite Hs5 in Hw.
      exists ([LoadModel; Sample None false] ++ evs).
      split; [now rewrite Ht, Ht5, <- app_assoc|].
      assert (Hall : Forall (within_budget 0 (L * e))
                       ([LoadModel; Sample None false] ++ evs)).
      { apply Forall_app. split; [now apply quiet_within | exact Hw]. }
      split; [exact Hall|]. split; [now apply Hweak|].
      subst r. discriminate. }
  eapply epoch_loop_steps in H6; [|exact Hm5].
  destruct H6 as (_ & _ & evs6 & Ht6 & Hw6 & Hok6). rewrite Hs5 in Hw6, Hok6.
  destruct (Hok6 eq_refl) as [Hf6 Hstep6].
  destruct (save_quiet _ _ _ state_dict c None _ _ _ H) as (evs7 & Ht7 & Hq7).
  exists ([LoadModel; Sample None false] ++ evs6 ++ evs7).
  split; [rewrite Ht7, Ht6, Ht5; now rewrite <- !app_assoc|].
  assert (Hall : Forall (within_budget 0 (L * e))
                   ([LoadModel; Sample None false] ++ evs6 ++ evs7)).
  { apply Forall_app. split; [now apply quiet_within|].
    apply Forall_app. split; [exact Hw6 | now apply quiet_within]. }
  split; [exact Hall|]. split; [now apply Hweak|].
  intros _.
  rewrite !filter_app, (quiet_filter _ Hq5), (quiet_filter _ Hq7), Hf6.
  cbn [app]. rewrite app_nil_r. f_equal.
  assert (HL : 0 < L) by (subst L; lia).
  destruct (L * e <=? 0) eqn:Hz.
  - apply Z.leb_le in Hz. rewrite Hstep6.
    rewrite (range_empty 0 0), (range_empty 0 (L * e)) by lia. reflexivity.
  - apply Z.leb_gt in Hz. rewrite Hstep6. f_equal.
    unfold Py.range. rewrite length_map, length_seq.
    assert (0 < e) by nia.
    rewrite Z2Nat.id by lia. fold L. lia.
Qed.

End VAEBudget.

Section VAELaunch.

Variables features params grads opt_state : Type.
Variable model : params -> list features -> list Q.
Variable get_gradient_penalty : params -> list features -> list features -> Q.
Variable loss_gradient : params -> list features -> grads.
Variable optimizer_step : opt_state -> params -> option grads -> opt_state * params.
Variable fresh_critic : params.
Variable fresh_optimizer : opt_state.
Variable state_dict : params -> list Q.
Variable load_state_dict : list Q -> params.
Variable base_vae : list Q.
Variable forward : Z -> TrainVAEProcess.forward_pass features.

Import TrainVAEProcess.

Lemma init_state (c : config) (root : option FS.dir) (now : Z)
    (p : process params grads opt_state) :
  init c root now = Ok p ->
  step_num p = 0 /\ epoch_num p = 0 /\ cur_max_steps p = max_steps c /\
  cur_epochs p = epochs c /\ trace p = [].
Proof.
  unfold init, required, bind.
  destruct (vae_path c); [|discriminate].
  destruct (datasets_objects c) as [ds|]; [|discriminate].
  destruct (sample_every c), (sample_sources c), (epochs c), (max_steps c),
    (check_datasets ds) as [[]|?]; try discriminate;
    intros H; inversion H; now repeat split.
Qed.

Lemma run_without_budget (n_batches : nat) (c : config)
    (p : process params grads opt_state) :
  cur_max_steps p = None ->
  run model get_gradient_penalty loss_gradient optimizer_step fresh_critic
    fresh_optimizer state_dict load_state_dict base_vae n_batches forward c p
  = (Raise TypeError, p).
Proof.
  intros Hm. unfold run, settle_budget, bindM, gets, raise. now rewrite Hm.
Qed.

Lemma run_without_batches (c : config) (p : process params grads opt_state)
    (m : Z) :
  cur_max_steps p = Some m ->
  run model get_gradient_penalty loss_gradient optimizer_step fresh_critic
    fresh_optimizer state_dict load_state_dict base_vae 0 forward c p
  = (Raise ZeroDivisionError, p).
Proof.
  intros Hm. unfold run, settle_budget, bindM, gets, raise. now rewrite Hm.
Qed.

Lemma run_without_sources (n_batches : nat) (c : config)
    (p p' : process params grads opt_state) (r : result unit) :
  sample_sources c = None ->
  run model get_gradient_penalty loss_gradient optimizer_step fresh_critic
    fresh_optimizer state_dict load_state_dict base_vae n_batches forward c p
  = (r, p') ->
  (exists e, r = Raise e) /\
  (trace p' = trace p \/ trace p' = trace p ++ [LoadModel]).
Proof.
  intros Hnone. unfold run. intros H.
  apply bindM_inv in H. destruct H as [([] & p1 & H1 & H)|(err & H1 & Hr)].
  2:{ eapply settle_budget_frame in H1. destruct H1 as [Ht _].
      split; [now exists err | now left]. }
  eapply settle_budget_frame in H1. destruct H1 as [Ht1 _].
  apply bindM_inv in H. destruct H as [(st & p0 & Hg & H)|(err & Hg & _)];
    [|discriminate Hg].
  inversion Hg; subst st p0; clear Hg.
  apply bindM_inv in H. destruct H as [([] & p2 & H2 & H)|(err & H2 & _)].
  2:{ eapply load_vae_counters in H2. destruct H2 as [H2 _]. discriminate. }
  eapply load_vae_counters in H2. destruct H2 as (_ & Ht2 & _).
  apply bindM_inv in H. destruct H as [([] & p3 & H3 & H)|(err & H3 & _)].
  2:{ eapply critic_choice_counters in H3. destruct H3 as [H3 _].
      discriminate. }
  eapply critic_choice_counters in H3. destruct H3 as (_ & Ht3 & _).
  apply bindM_inv in H. destruct H as [([] & p4 & H4 & H)|(err & H4 & Hr)].
  - apply sample_counters in H4.
    destruct H4 as [(_ & Hbad & _)|(Hsome & _)];
      [discriminate | contradiction].
  - apply sample_counters in H4.
    destruct H4 as [(_ & _ & ->)|(Hsome & _)]; [|contradiction].
    split; [now exists err | right; congruence].
Qed.

(** X13. The autoencoder trainer never trains a step outside its step
    budget: however a launch ends, every training step in its trace is
    numbered from 0 and below [max_steps]. *)
Theorem autoencoder_trains_within_max_steps (n_batches : nat) (c : config)
    (root : option FS.dir) (now : Z) (r : result unit) (tr : list event)
    (m j : Z) :
  max_steps c = Some m ->
  launch model get_gradient_penalty loss_gradient optimizer_step fresh_critic
    fresh_optimizer state_dict load_state_dict base_vae n_batches forward
    c root now = (r, tr) ->
  In (TrainStep j) tr ->
  0 <= j < m.
Proof.
  intros Hm. unfold launch.
  destruct (init c root now) as [p|err] eqn:Hinit.
  2:{ intros H. inversion H; subst. intros []. }
  apply init_state in Hinit. destruct Hinit as (Hs & He & Hms & _ & Htr).
  destruct (run _ _ _ _ _ _ _ _ _ _ _ c p) as [r' p'] eqn:Hrun.
  intros H. inversion H; subst r' tr; clear H.
  assert (Hcm : cur_max_steps p = Some m) by congruence.
  eapply run_steps in Hrun; [| exact Hcm | exact Hs | exact He].
  destruct Hrun as (evs & Ht & _ & Hw & _).
  rewrite Ht, Htr. cbn [app]. intros Hin.
  rewrite Forall_forall in Hw. exact (Hw _ Hin j eq_refl).
Qed.

(** X14. A launch of the autoencoder trainer that completes has trained
    whole epochs only: with [n] batches per epoch, a budget of [max_steps]
    steps and an optional epoch count, the training steps of its trace are
    exactly the steps [0 .. n * e - 1] in order, where [e] is [max_steps // n]
    capped by the epoch count. *)
Theorem completed_run_trains_whole_epochs (n_batches : nat) (c : config)
    (root : option FS.dir) (now : Z) (tr : list event) (m : Z) :
  max_steps c = Some m ->
  launch model get_gradient_penalty loss_gradient optimizer_step fresh_critic
    fresh_optimizer state_dict load_state_dict base_vae n_batches forward
    c root now = (Ok tt, tr) ->
  filter is_train_step tr
  = map TrainStep
      (Py.range 0 (Z.of_nat n_batches * settled_epochs n_batches m (epochs c))).
Proof.
  intros Hm. unfold launch.
  destruct (init c root now) as [p|err] eqn:Hinit; [|discriminate].
  apply init_state in Hinit. destruct Hinit as (Hs & He & Hms & Hep & Htr).
  destruct (run _ _ _ _ _ _ _ _ _ _ _ c p) as [r' p'] eqn:Hrun.
  intros H. inversion H; subst r' tr; clear H.
  assert (Hcm : cur_max_steps p = Some m) by congruence.
  eapply run_steps in Hrun; [| exact Hcm | exact Hs | exact He].
  destruct Hrun as (evs & Ht & _ & _ & Hok).
  rewrite Ht, Htr. cbn [app]. rewrite (Hok eq_refl), Hep. reflexivity.
Qed.

(** X15. A job that names [epochs] and no [max_steps] passes the
    constructor and then fails in [run] with a [TypeError], before the model
    is loaded or anything else is done. *)
Theorem epochs_only_job_fails_in_run (n_batches : nat) (c : config)
    (root : option FS.dir) (now : Z) (p : process params grads opt_state) :
  max_steps c = None ->
  init c root now = Ok p ->
  launch model get_gradient_penalty loss_gradient optimizer_step fresh_critic
    fresh_optimizer state_dict load_state_dict base_vae n_batches forward
    c root now = (Raise TypeError, []).
Proof.
  intros Hm Hinit. unfold launch. rewrite Hinit.
  apply init_state in Hinit. destruct Hinit as (_ & _ & Hms & _ & Htr).
  rewrite run_without_budget by congruence. now rewrite Htr.
Qed.

(** X16. With a data loader that yields no batch, a job with a step budget
    fails in [run] with a [ZeroDivisionError], before the model is loaded or
    anything else is done. *)
Theorem empty_loader_fails_in_run (c : config)
    (root : option FS.dir) (now : Z) (p : process params grads opt_state)
    (m : Z) :
  max_steps c = Some m ->
  init c root now = Ok p ->
  launch model get_gradient_penalty loss_gradient optimizer_step fresh_critic
    fresh_optimizer state_dict load_state_dict base_vae 0 forward
    c root now = (Raise ZeroDivisionError, []).
Proof.
  intros Hm Hinit. unfold launch. rewrite Hinit.
  apply init_state in Hinit. destruct Hinit as (_ & _ & Hms & _ & Htr).
  rewrite (run_without_batches c p m) by congruence. now rewrite Htr.
Qed.

(** X17. A job without [sample_sources] never completes: its launch ends in
    an error, at the latest at the first sample, having done nothing or
    only loaded the model. *)
Theorem no_sample_sources_never_completes (n_batches : nat) (c : config)
    (root : option FS.dir) (now : Z) (r : result unit) (tr : list event) :
  sample_sources c = None ->
  launch model get_gradient_penalty loss_gradient optimizer_step fresh_critic
    fresh_optimizer state_dict load_state_dict base_vae n_batches forward
    c root now = (r, tr) ->
  (exists e, r = Raise e) /\ (tr = [] \/ tr = [LoadModel]).
Proof.
  intros Hnone. unfold launch.
  destruct (init c root now) as [p|err] eqn:Hinit.
  2:{ intros H. inversion H; subst. split; [now exists err | now left]. }
  apply init_state in Hinit. destruct Hinit as (_ & _ & _ & _ & Htr).
  destruct (run _ _ _ _ _ _ _ _ _ _ _ c p) as [r' p'] eqn:Hrun.
  intros H. inversion H; subst r' tr; clear H.
  apply (run_without_sources _ _ _ _ _ Hnone) in Hrun.
  destruct Hrun as [Hr [Ht|Ht]]; (split; [exact Hr|]); rewrite Ht, Htr;
    [now left | now right].
Qed.

End VAELaunch.

Lemma autoencoder_trains_within_max_steps_witness :
  TrainVAEProcess.max_steps vae_job_ten_steps = Some 10 /\
  TrainVAEProcess.launch linear_model no_penalty linear_loss_gradient
    gradient_descent 1%Q tt (fun w => [w]) (fun l => hd 0%Q l) [] 4 rising_mse
    vae_job_ten_steps None 0
  = (Ok tt,
     [LoadModel; Sample None false; ComputeTerm Mse; TrainStep 0;
      ComputeTerm Mse; TrainStep 1; ComputeTerm Mse; TrainStep 2;
      ComputeTerm Mse; TrainStep 3; ComputeTerm Mse; TrainStep 4;
      ComputeTerm Mse; TrainStep 5; ComputeTerm Mse; TrainStep 6;
      ComputeTerm Mse; TrainStep 7;
      WriteCheckpoint "vae.safetensors" None]) /\
  In (TrainStep 7)
     [LoadModel; Sample None false; ComputeTerm Mse; TrainStep 0;
      ComputeTerm Mse; TrainStep 1; ComputeTerm Mse; TrainStep 2;
      ComputeTerm Mse; TrainStep 3; ComputeTerm Mse; TrainStep 4;
      ComputeTerm Mse; TrainStep 5; ComputeTerm Mse; TrainStep 6;
      ComputeTerm Mse; TrainStep 7;
      WriteCheckpoint "vae.safetensors" None] /\
  0 <= 7 < 10.
Proof.
  assert (H1 : TrainVAEProcess.max_steps vae_job_ten_steps = Some 10)
    by reflexivity.
  assert (H2 : TrainVAEProcess.launch linear_model no_penalty
                 linear_loss_gradient gradient_descent 1%Q tt (fun w => [w])
                 (fun l => hd 0%Q l) [] 4 rising_mse vae_job_ten_steps None 0
               = (Ok tt,
                  [LoadModel; Sample None false; ComputeTerm Mse; TrainStep 0;
                   ComputeTerm Mse; TrainStep 1; ComputeTerm Mse; TrainStep 2;
                   ComputeTerm Mse; TrainStep 3; ComputeTerm Mse; TrainStep 4;
                   ComputeTerm Mse; TrainStep 5; ComputeTerm Mse; TrainStep 6;
                   ComputeTerm Mse; TrainStep 7;
                   WriteCheckpoint "vae.safetensors" None]))
    by (vm_compute; reflexivity).
  assert (H3 : In (TrainStep 7)
                 [LoadModel; Sample None false; ComputeTerm Mse; TrainStep 0;
                  ComputeTerm Mse; TrainStep 1; ComputeTerm Mse; TrainStep 2;
                  ComputeTerm Mse; TrainStep 3; ComputeTerm Mse; TrainStep 4;
                  ComputeTerm Mse; TrainStep 5; ComputeTerm Mse; TrainStep 6;
                  ComputeTerm Mse; TrainStep 7;
                  WriteCheckpoint "vae.safetensors" None])
    by (simpl; tauto).
  repeat (split; [assumption|]).
  exact (autoencoder_trains_within_max_steps Q Q Q unit linear_model
           no_penalty linear_loss_gradient gradient_descent 1%Q tt
           (fun w => [w]) (fun l => hd 0%Q l) [] rising_mse 4
           vae_job_ten_steps None 0 _ _ 10 7 H1 H2 H3).
Defined.

Lemma completed_run_trains_whole_epochs_witness :
  TrainVAEProcess.max_steps vae_job_ten_steps = Some 10 /\
  TrainVAEProcess.launch linear_model no_penalty linear_loss_gradient
    gradient_descent 1%Q tt (fun w => [w]) (fun l => hd 0%Q l) [] 4 rising_mse
    vae_job_ten_steps None 0
  = (Ok tt,
     [LoadModel; Sample None false; ComputeTerm Mse; TrainStep 0;
      ComputeTerm Mse; TrainStep 1; ComputeTerm Mse; TrainStep 2;
      ComputeTerm Mse; TrainStep 3; ComputeTerm Mse; TrainStep 4;
      ComputeTerm Mse; TrainStep 5; ComputeTerm Mse; TrainStep 6;
      ComputeTerm Mse; TrainStep 7;
      WriteCheckpoint "vae.safetensors" None]) /\
  filter is_train_step
     [LoadModel; Sample None false; ComputeTerm Mse; TrainStep 0;
      ComputeTerm Mse; TrainStep 1; ComputeTerm Mse; TrainStep 2;
      ComputeTerm Mse; TrainStep 3; ComputeTerm Mse; TrainStep 4;
      ComputeTerm Mse; TrainStep 5; ComputeTerm Mse; TrainStep 6;
      ComputeTerm Mse; TrainStep 7;
      WriteCheckpoint "vae.safetensors" None]
  = map TrainStep
      (Py.range 0 (Z.of_nat 4
                   * settled_epochs 4 10
                       (TrainVAEProcess.epochs vae_job_ten_steps))).
Proof.
  assert (H1 : TrainVAEProcess.max_steps vae_job_ten_steps = Some 10)
    by reflexivity.
  assert (H2 : TrainVAEProcess.launch linear_model no_penalty
                 linear_loss_gradient gradient_descent 1%Q tt (fun w => [w])
                 (fun l => hd 0%Q l) [] 4 rising_mse vae_job_ten_steps None 0
               = (Ok tt,
                  [LoadModel; Sample None false; ComputeTerm Mse; TrainStep 0;
                   ComputeTerm Mse; TrainStep 1; ComputeTerm Mse; TrainStep 2;
                   ComputeTerm Mse; TrainStep 3; ComputeTerm Mse; TrainStep 4;
                   ComputeTerm Mse; TrainStep 5; ComputeTerm Mse; TrainStep 6;
                   ComputeTerm Mse; TrainStep 7;
                   WriteCheckpoint "vae.safetensors" None]))
    by (vm_compute; reflexivity).
  repeat (split; [assumption|]).
  exact (completed_run_trains_whole_epochs Q Q Q unit linear_model
           no_penalty linear_loss_gradient gradient_descent 1%Q tt
           (fun w => [w]) (fun l => hd 0%Q l) [] rising_mse 4
           vae_job_ten_steps None 0 _ 10 H1 H2).
Defined.

Lemma epochs_only_job_fails_in_run_witness :
  TrainVAEProcess.max_steps vae_job_epochs_only = None /\
  TrainVAEProcess.init vae_job_epochs_only None 0
  = Ok (@TrainVAEProcess.mkProcess Q Q unit 0 0 None (Some 2) None None [] [] []
          (Some []) 0 []) /\
  TrainVAEProcess.launch linear_model no_penalty linear_loss_gradient
    gradient_descent 1%Q tt (fun w => [w]) (fun l => hd 0%Q l) [] 4 rising_mse
    vae_job_epochs_only None 0
  = (Raise TypeError, []).
Proof.
  assert (H1 : TrainVAEProcess.max_steps vae_job_epochs_only = None)
    by reflexivity.
  assert (H2 : TrainVAEProcess.init vae_job_epochs_only None 0
               = Ok (@TrainVAEProcess.mkProcess Q Q unit 0 0 None (Some 2) None
                       None [] [] [] (Some []) 0 []))
    by reflexivity.
  repeat (split; [assumption|]).
  exact (epochs_only_job_fails_in_run Q Q Q unit linear_model
           no_penalty linear_loss_gradient gradient_descent 1%Q tt
           (fun w => [w]) (fun l => hd 0%Q l) [] rising_mse 4
           vae_job_epochs_only None 0 _ H1 H2).
Defined.

Lemma empty_loader_fails_in_run_witness :
  TrainVAEProcess.max_steps vae_job_quiet = Some 4 /\
  TrainVAEProcess.init vae_job_quiet None 0
  = Ok (@TrainVAEProcess.mkProcess Q Q unit 0 0 (Some 4) None None None [] [] []
          (Some []) 0 []) /\
  TrainVAEProcess.launch linear_model no_penalty linear_loss_gradient
    gradient_descent 1%Q tt (fun w => [w]) (fun l => hd 0%Q l) [] 0 rising_mse
    vae_job_quiet None 0
  = (Raise ZeroDivisionError, []).
Proof.
  assert (H1 : TrainVAEProcess.max_steps vae_job_quiet = Some 4)
    by reflexivity.
  assert (H2 : TrainVAEProcess.init vae_job_quiet None 0
               = Ok (@TrainVAEProcess.mkProcess Q Q unit 0 0 (Some 4) None None
                       None [] [] [] (Some []) 0 []))
    by reflexivity.
  repeat (split; [assumption|]).
  exact (empty_loader_fails_in_run Q Q Q unit linear_model
           no_penalty linear_loss_gradient gradient_descent 1%Q tt
           (fun w => [w]) (fun l => hd 0%Q l) [] rising_mse
           vae_job_quiet None 0 _ 4 H1 H2).
Defined.

Lemma no_sample_sources_never_completes_witness :
  TrainVAEProcess.sample_sources vae_job_unsampled = None /\
  TrainVAEProcess.launch linear_model no_penalty linear_loss_gradient
    gradient_descent 1%Q tt (fun w => [w]) (fun l => hd 0%Q l) [] 4 rising_mse
    vae_job_unsampled None 0
  = (Raise TypeError, [LoadModel]) /\
  (exists e, Raise TypeError = @Raise unit e) /\
  ([LoadModel] = [] \/ [LoadModel] = [LoadModel]).
Proof.
  assert (H1 : TrainVAEProcess.sample_sources vae_job_unsampled = None)
    by reflexivity.
  assert (H2 : TrainVAEProcess.launch linear_model no_penalty
                 linear_loss_gradient gradient_descent 1%Q tt (fun w => [w])
                 (fun l => hd 0%Q l) [] 4 rising_mse vae_job_unsampled None 0
               = (Raise TypeError, [LoadModel]))
    by (vm_compute; reflexivity).
  repeat (split; [assumption|]).
  exact (no_sample_sources_never_completes Q Q Q unit linear_model
           no_penalty linear_loss_gradient gradient_descent 1%Q tt
           (fun w => [w]) (fun l => hd 0%Q l) [] rising_mse 4
           vae_job_unsampled None 0 _ _ H1 H2).
Defined.

(** ** The critic: update and warm-up *)

Section CriticEffects.

Variables features params grads opt_state : Type.
Variable model : params -> list features -> list Q.
Variable get_gradient_penalty : params -> list features -> list features -> Q.
Variable optimizer_step : opt_state -> params -> option grads -> opt_state * params.

Lemma iterate_effects (lg : params -> list features -> grads) (c : Critic.config)
    (v : list features) (n : nat)
    (s s' : Critic.state params grads opt_state) (ls ls' : list Q) :
  Critic.iterate model get_gradient_penalty lg optimizer_step n c v (s, ls)
  = Ok (s', ls') ->
  Critic.training s' = Critic.training s /\
  (n <> 0%nat -> Critic.grad s' = None).
Proof.
  revert s ls. induction n as [|n IH]; intros s ls H.
  - simpl in H. inversion H; subst. split; [reflexivity | congruence].
  - change (bind (Critic.inner_iteration model get_gradient_penalty lg
                    optimizer_step c v (s, ls))
                 (fun acc' => Critic.iterate model get_gradient_penalty lg
                                optimizer_step n c v acc')
            = Ok (s', ls')) in H.
    destruct (Critic.inner_iteration model get_gradient_penalty lg
                optimizer_step c v (s, ls)) as [[s1 ls1]|e] eqn:Hin;
      unfold bind in H; [|discriminate].
    assert (Ht1 : Critic.training s1 = Critic.training s).
    { revert Hin.
      unfold Critic.inner_iteration, Critic.optimizer_apply,
        Critic.scheduler_step, Critic.backward, Critic.zero_grad, bind. simpl.
      destruct (Critic.critic_loss model get_gradient_penalty c
                  (Critic.weights s) v); [|discriminate].
      destruct (optimizer_step (Critic.optimizer s) (Critic.weights s) None).
      intros E. inversion E; subst. reflexivity. }
    apply inner_iteration_clears_gradient in Hin.
    destruct Hin as (_ & Hg1 & _).
    destruct n as [|n].
    + simpl in H. inversion H; subst. split; [exact Ht1 | intros _; exact Hg1].
    + apply IH in H. destruct H as [Ht Hg].
      split; [congruence | intros _; apply Hg; discriminate].
Qed.

(** X18. A critic update that returns has stepped the scheduler once per
    inner iteration, leaves the critic in training mode and, when at least
    one iteration ran, leaves the gradient slot empty; the loss it returns is
    the mean of as many losses as iterations, and nothing of this depends on
    the gradient the loss has. *)
Theorem critic_step_effects
    (lg lg' : params -> list features -> grads) (c : Critic.config)
    (s s' : Critic.state params grads opt_state) (v : list features) (l : Q) :
  Critic.step model get_gradient_penalty lg optimizer_step c s v = Ok (s', l) ->
  Critic.scheduler_iters s'
  = Critic.scheduler_iters s + Z.max 0 (Critic.num_critic_per_gen c) /\
  Critic.training s' = true /\
  (0 < Critic.num_critic_per_gen c -> Critic.grad s' = None) /\
  (exists ls, List.length ls = Z.to_nat (Critic.num_critic_per_gen c)
              /\ l = Tensor.mean ls) /\
  Critic.step model get_gradient_penalty lg' optimizer_step c s v = Ok (s', l).
Proof.
  intros H.
  assert (H' := H).
  rewrite (step_ignores_gradient _ _ _ _ model get_gradient_penalty
             optimizer_step lg lg') in H'.
  pose proof (step_mean_of_iterations _ _ _ _ model get_gradient_penalty
                optimizer_step lg c v s s' l H) as Hmean.
  unfold Critic.step, bind in H.
  destruct (Critic.iterate model get_gradient_penalty lg optimizer_step _ c v
              (Critic.set_training s true, [])) as [[s1 ls]|e] eqn:Hit;
    [|discriminate].
  inversion H; subst s1 l; clear H.
  pose proof (iterate_count _ _ _ _ model get_gradient_penalty optimizer_step
                lg c v _ _ _ _ _ Hit) as [_ Hsched].
  apply iterate_effects in Hit. destruct Hit as [Ht Hg].
  simpl in Hsched, Ht.
  repeat split; try assumption.
  - rewrite Hsched. lia.
  - intros Hpos. apply Hg. lia.
Qed.

End CriticEffects.

Lemma critic_step_effects_witness :
  Critic.step linear_model no_penalty linear_loss_gradient gradient_descent
    warmup_critic critic_at_2 [1 # 1; 3 # 1]
  = Ok (Critic.mkState (2 # 1) None tt 2 true, (-8 # 2)%Q) /\
  Critic.scheduler_iters (Critic.mkState (2 # 1) (@None Q) tt 2 true)
  = Critic.scheduler_iters critic_at_2
    + Z.max 0 (Critic.num_critic_per_gen warmup_critic) /\
  Critic.training (Critic.mkState (2 # 1) (@None Q) tt 2 true) = true /\
  (0 < Critic.num_critic_per_gen warmup_critic ->
   Critic.grad (Critic.mkState (2 # 1) (@None Q) tt 2 true) = None) /\
  (exists ls,
      List.length ls = Z.to_nat (Critic.num_critic_per_gen warmup_critic)
      /\ (-8 # 2)%Q = Tensor.mean ls) /\
  Critic.step linear_model no_penalty (fun _ _ => 0%Q) gradient_descent
    warmup_critic critic_at_2 [1 # 1; 3 # 1]
  = Ok (Critic.mkState (2 # 1) None tt 2 true, (-8 # 2)%Q).
Proof.
  assert (H : Critic.step linear_model no_penalty linear_loss_gradient
                gradient_descent warmup_critic critic_at_2 [1 # 1; 3 # 1]
              = Ok (Critic.mkState (2 # 1) None tt 2 true, (-8 # 2)%Q))
    by (vm_compute; reflexivity).
  split; [exact H|].
  exact (critic_step_effects Q Q Q unit linear_model no_penalty
           gradient_descent linear_loss_gradient (fun _ _ => 0%Q)
           warmup_critic critic_at_2 _ [1 # 1; 3 # 1] _ H).
Defined.

Lemma ratio_bounds (a a' w : Z) :
  0 <= a -> a <= a' -> a' < w ->
  (0 <= inject_Z a / inject_Z w)%Q /\
  (inject_Z a / inject_Z w <= inject_Z a' / inject_Z w)%Q /\
  (inject_Z a' / inject_Z w <= 1)%Q.
Proof.
  intros H0 H1 H2. destruct w as [|w|w]; try lia.
  unfold Qle, Qdiv, Qmult, Qinv, inject_Z. simpl.
  rewrite !Z.mul_1_r. repeat split; try lia; nia.
Qed.

(** X19. From [start_step] on, the warm-up factor of the critic's generator
    loss lies between 0 and 1 and never decreases with the step. *)
Theorem warmup_scaler_ramp (c : Critic.config) (n n' : Z) :
  Critic.start_step c <= n -> n <= n' ->
  (0 <= Critic.warmup_scaler c n)%Q /\
  (Critic.warmup_scaler c n <= Critic.warmup_scaler c n')%Q /\
  (Critic.warmup_scaler c n' <= 1)%Q.
Proof.
  intros Hs Hn. unfold Critic.warmup_scaler.
  destruct (n <? Critic.start_step c + Critic.warmup_steps c) eqn:H1;
    destruct (n' <? Critic.start_step c + Critic.warmup_steps c) eqn:H2;
    try apply Z.ltb_lt in H1; try apply Z.ltb_ge in H1;
    try apply Z.ltb_lt in H2; try apply Z.ltb_ge in H2.
  - apply ratio_bounds; lia.
  - destruct (ratio_bounds (n - Critic.start_step c) (n - Critic.start_step c)
                (Critic.warmup_steps c)) as (Ha & _ & Hb); try lia.
    repeat split; [exact Ha | exact Hb | apply Qle_refl].
  - lia.
  - repeat split; [discriminate | apply Qle_refl | apply Qle_refl].
Qed.

Lemma warmup_scaler_ramp_witness :
  Critic.start_step warmup_critic <= 1 /\ 1 <= 3 /\
  (0 <= Critic.warmup_scaler warmup_critic 1)%Q /\
  (Critic.warmup_scaler warmup_critic 1 <= Critic.warmup_scaler warmup_critic 3)%Q /\
  (Critic.warmup_scaler warmup_critic 3 <= 1)%Q.
Proof.
  assert (H1 : Critic.start_step warmup_critic <= 1) by (simpl; lia).
  assert (H2 : 1 <= 3) by lia.
  split; [exact H1|]. split; [exact H2|].
  exact (warmup_scaler_ramp warmup_critic 1 3 H1 H2).
Defined.

(** ** Checkpoints of the autoencoder trainer *)

Lemma find_write_other (name : string) (f : FS.file) (d : FS.dir) :
  FS.fname f <> name -> FS.find name (FS.write f d) = FS.find name d.
Proof.
  intros Hne. apply String.eqb_neq in Hne.
  induction d as [|g d IH]; simpl.
  - now rewrite Hne.
  - destruct (String.eqb (FS.fname g) (FS.fname f)) eqn:Hg; simpl.
    + apply String.eqb_eq in Hg. rewrite Hg, Hne. reflexivity.
    + now rewrite IH.
Qed.

Lemma critic_name_differs (s : string) : ("CRITIC_" ++ s)%string <> s.
Proof.
  intros E. apply (f_equal String.length) in E. simpl in E. lia.
Qed.

Section VAECheckpoints.

Variables params grads opt_state : Type.
Variable state_dict : params -> list Q.
Variable base_vae : list Q.

Import TrainVAEProcess.

(** What a save that returns leaves in the save root. *)
Lemma save_root_after_save (c : config) (step : option Z)
    (p p1 : process params grads opt_state) :
  save state_dict c step p = (Ok tt, p1) ->
  exists w f0,
    vae p = Some w /\
    FS.fname f0 = (job_name c ++ step_suffix step ++ ".safetensors")%string /\
    FS.fweights f0 = w /\ FS.fmtime f0 = clock p /\
    (save_root p1
     = Some (FS.write f0 (match save_root p with Some d => d | None => [] end))
     \/ exists fc,
       FS.fname fc
       = ("CRITIC_" ++ job_name c ++ step_suffix step ++ ".safetensors")%string /\
       save_root p1
       = Some (FS.write fc
                 (FS.write f0
                    (match save_root p with Some d => d | None => [] end)))).
Proof.
  unfold save, critic_save, bindM, gets, modify, ret, raise.
  destruct p as [sn en ms ep v cs m el ll rt k tr]. simpl.
  destruct v as [w|]; [|destruct rt; discriminate].
  intros H. exists w.
  exists (FS.mkFile (job_name c ++ step_suffix step ++ ".safetensors") k k w
            (Metadata.get_meta_for_safetensors
               (Metadata.add_meta m
                  [("training_info"%string,
                    Dict.VDict [("step"%string, Dict.VInt sn);
                                ("epoch"%string, Dict.VInt en)])])
               (job_name c))).
  simpl. repeat (split; [reflexivity|]).
  destruct rt as [d|]; simpl in H;
    (destruct (use_critic c); simpl in H;
     [destruct cs as [s|]; simpl in H; [|discriminate]|]);
    inversion H; subst; simpl;
    try (left; reflexivity);
    right; eexists (FS.mkFile _ _ _ _ _); split; reflexivity.
Qed.

Lemma find_after_save (c : config) (step : option Z)
    (p p1 : process params grads opt_state) :
  save state_dict c step p = (Ok tt, p1) ->
  exists w f0 d1,
    vae p = Some w /\ save_root p1 = Some d1 /\
    FS.fweights f0 = w /\ FS.fmtime f0 = clock p /\
    FS.find (job_name c ++ step_suffix step ++ ".safetensors") d1 = Some f0 /\
    forall name,
      name <> (job_name c ++ step_suffix step ++ ".safetensors")%string ->
      name <> ("CRITIC_" ++ job_name c ++ step_suffix step
               ++ ".safetensors")%string ->
      FS.find name d1
      = FS.find name (match save_root p with Some d => d | None => [] end).
Proof.
  intros H. apply save_root_after_save in H.
  destruct H as (w & f0 & Hv & Hname & Hw & Ht & [Hroot|(fc & Hfc & Hroot)]).
  - exists w, f0, (FS.write f0
                     (match save_root p with Some d => d | None => [] end)).
    repeat (split; [assumption|]). split.
    + rewrite <- Hname. apply find_write.
    + intros name Hn _. apply find_write_other. congruence.
  - exists w, f0, (FS.write fc
                     (FS.write f0
                        (match save_root p with Some d => d | None => [] end))).
    repeat (split; [assumption|]). split.
    + rewrite find_write_other.
      * rewrite <- Hname. apply find_write.
      * rewrite Hfc. apply critic_name_differs.
    + intros name Hn Hc.
      rewrite find_write_other by congruence.
      apply find_write_other. congruence.
Qed.

(** X20. Loading after saving gives back the saved weights, and nothing
    else: when the file a save wrote is the latest checkpoint of the job, a
    process without a model loads from it exactly the weights that were
    saved, while its step and epoch counters stay where they were. *)
Theorem load_vae_after_save (c : config) (step : option Z)
    (p p1 q q' : process params grads opt_state) (f : FS.file)
    (r : result unit) :
  save state_dict c step p = (Ok tt, p1) ->
  save_root q = save_root p1 ->
  vae q = None ->
  latest (job_name c) q = Some f ->
  FS.find (job_name c ++ step_suffix step ++ ".safetensors")
          (match save_root q with Some d => d | None => [] end) = Some f ->
  load_vae base_vae c q = (r, q') ->
  r = Ok tt /\ vae q' = vae p /\
  step_num q' = step_num q /\ epoch_num q' = epoch_num q.
Proof.
  intros Hsave Hroot Hnone Hlatest Hfind Hload.
  apply find_after_save in Hsave.
  destruct Hsave as (w & f0 & d1 & Hv & Hd1 & Hw & _ & Hf0 & _).
  rewrite Hroot, Hd1, Hf0 in Hfind. inversion Hfind; subst f0.
  revert Hload. unfold load_vae, bindM, gets, modify, ret.
  rewrite Hlatest, Hnone. intros H. inversion H; subst. simpl.
  repeat split. congruence.
Qed.

(** X21. The autoencoder trainer's save never removes a checkpoint: every
    file of the save root other than the two it writes resolves after the
    save to what it resolved to before. *)
Theorem vae_save_keeps_other_files (c : config) (step : option Z)
    (p p1 : process params grads opt_state) (name : string) :
  save state_dict c step p = (Ok tt, p1) ->
  name <> (job_name c ++ step_suffix step ++ ".safetensors")%string ->
  name <> ("CRITIC_" ++ job_name c ++ step_suffix step ++ ".safetensors")%string ->
  FS.find name (match save_root p1 with Some d => d | None => [] end)
  = FS.find name (match save_root p with Some d => d | None => [] end).
Proof.
  intros Hsave Hn Hc. apply find_after_save in Hsave.
  destruct Hsave as (w & f0 & d1 & _ & Hd1 & _ & _ & _ & Hother).
  rewrite Hd1. now apply Hother.
Qed.

End VAECheckpoints.

Lemma load_vae_after_save_witness :
  TrainVAEProcess.save (fun w => [w]) vae_job_critic (Some 7) vae_trained
  = (Ok tt, vae_saved) /\
  TrainVAEProcess.save_root vae_restarted = TrainVAEProcess.save_root vae_saved /\
  TrainVAEProcess.vae vae_restarted = None /\
  TrainVAEProcess.latest (TrainVAEProcess.job_name vae_job_critic) vae_restarted
  = Some vae_saved_file /\
  FS.find (TrainVAEProcess.job_name vae_job_critic
           ++ TrainVAEProcess.step_suffix (Some 7) ++ ".safetensors")
    (match TrainVAEProcess.save_root vae_restarted with
     | Some d => d
     | None => []
     end) = Some vae_saved_file /\
  TrainVAEProcess.load_vae [] vae_job_critic vae_restarted
  = (Ok tt, vae_reloaded) /\
  Ok tt = Ok tt /\
  TrainVAEProcess.vae vae_reloaded = TrainVAEProcess.vae vae_trained /\
  TrainVAEProcess.step_num vae_reloaded = TrainVAEProcess.step_num vae_restarted /\
  TrainVAEProcess.epoch_num vae_reloaded
  = TrainVAEProcess.epoch_num vae_restarted.
Proof.
  assert (H1 : TrainVAEProcess.save (fun w => [w]) vae_job_critic (Some 7)
                 vae_trained = (Ok tt, vae_saved)) by reflexivity.
  assert (H2 : TrainVAEProcess.save_root vae_restarted
               = TrainVAEProcess.save_root vae_saved) by reflexivity.
  assert (H3 : TrainVAEProcess.vae vae_restarted = None) by reflexivity.
  assert (H4 : TrainVAEProcess.latest (TrainVAEProcess.job_name vae_job_critic)
                 vae_restarted = Some vae_saved_file) by reflexivity.
  assert (H5 : FS.find (TrainVAEProcess.job_name vae_job_critic
                        ++ TrainVAEProcess.step_suffix (Some 7)
                        ++ ".safetensors")
                 (match TrainVAEProcess.save_root vae_restarted with
                  | Some d => d
                  | None => []
                  end) = Some vae_saved_file) by reflexivity.
  assert (H6 : TrainVAEProcess.load_vae [] vae_job_critic vae_restarted
               = (Ok tt, vae_reloaded)) by reflexivity.
  repeat (split; [assumption|]).
  exact (load_vae_after_save Q Q unit (fun w => [w]) [] vae_job_critic (Some 7)
           vae_trained vae_saved vae_restarted vae_reloaded vae_saved_file
           (Ok tt) H1 H2 H3 H4 H5 H6).
Defined.

Lemma vae_save_keeps_other_files_witness :
  TrainVAEProcess.save (fun w => [w]) vae_job_critic (Some 7) vae_trained
  = (Ok tt, vae_saved) /\
  "vae_000000003.safetensors"%string
  <> (TrainVAEProcess.job_name vae_job_critic
      ++ TrainVAEProcess.step_suffix (Some 7) ++ ".safetensors")%string /\
  "vae_000000003.safetensors"%string
  <> ("CRITIC_" ++ TrainVAEProcess.job_name vae_job_critic
      ++ TrainVAEProcess.step_suffix (Some 7) ++ ".safetensors")%string /\
  FS.find "vae_000000003.safetensors"
    (match TrainVAEProcess.save_root vae_saved with
     | Some d => d
     | None => []
     end)
  = FS.find "vae_000000003.safetensors"
      (match TrainVAEProcess.save_root vae_trained with
       | Some d => d
       | None => []
       end).
Proof.
  assert (H1 : TrainVAEProcess.save (fun w => [w]) vae_job_critic (Some 7)
                 vae_trained = (Ok tt, vae_saved)) by reflexivity.
  assert (H2 : "vae_000000003.safetensors"%string
               <> (TrainVAEProcess.job_name vae_job_critic
                   ++ TrainVAEProcess.step_suffix (Some 7)
                   ++ ".safetensors")%string)
    by (vm_compute; discriminate).
  assert (H3 : "vae_000000003.safetensors"%string
               <> ("CRITIC_" ++ TrainVAEProcess.job_name vae_job_critic
                   ++ TrainVAEProcess.step_suffix (Some 7)
                   ++ ".safetensors")%string)
    by (vm_compute; discriminate).
  repeat (split; [assumption|]).
  exact (vae_save_keeps_other_files Q Q unit (fun w => [w]) vae_job_critic
           (Some 7) vae_trained vae_saved "vae_000000003.safetensors"
           H1 H2 H3).
Defined.

(** ** The losses of a step of the autoencoder trainer *)

Section StepLoss.

Variables features params grads opt_state : Type.
Variable model : params -> list features -> list Q.
Variable get_gradient_penalty : params -> list features -> list features -> Q.
Variable loss_gradient : params -> list features -> grads.
Variable optimizer_step : opt_state -> params -> option grads -> opt_state * params.

Import TrainVAEProcess.

Lemma vgg_pass_events (c : config) (p : process params grads opt_state) :
  vgg_pass c p
  = (Ok tt, if vgg_in_use c
            then emit (ComputeTerm Content) (emit (ComputeTerm Style) p)
            else p).
Proof.
  unfold vgg_pass, vgg_in_use.
  destruct (_ || _ || _)%bool; reflexivity.
Qed.

Lemma critic_discriminator_state (c : config) (f : forward_pass features)
    (p p1 : process params grads opt_state) (d : Q) :
  critic_discriminator model get_gradient_penalty loss_gradient optimizer_step
    c f p = (Ok d, p1) ->
  trace p1 = trace p /\ step_num p1 = step_num p /\
  (if use_critic c then
     exists s0 s,
       critic p = Some s0 /\
       Critic.step model get_gradient_penalty loss_gradient optimizer_step
         (critic_config c) s0 (pool_4 f) = Ok (s, d) /\
       critic p1 = Some s
   else d = 0%Q /\ p1 = p).
Proof.
  unfold critic_discriminator, bindM, gets, modify, ret, lift, raise.
  destruct (use_critic c).
  - destruct p as [sn en ms ep v cs m el ll rt k tr]. simpl.
    destruct cs as [s0|]; [|discriminate].
    destruct (Critic.step model get_gradient_penalty loss_gradient
                optimizer_step (critic_config c) s0 (pool_4 f))
      as [[s d']|e] eqn:Hstep; [|discriminate].
    intros H. inversion H; subst. simpl.
    repeat split. exists s0, s. repeat split. exact Hstep.
  - intros H. inversion H; subst. repeat split.
Qed.

Lemma compose_loss_keeps_critic_loss (c : config) (f : forward_pass features)
    (d : Q) (p p' : process params grads opt_state) (l : step_losses) :
  compose_loss model c f d p = (Ok l, p') -> critic_d_loss l = d.
Proof.
  unfold compose_loss, get_style_loss, get_content_loss, get_kld_loss,
    get_mse_loss, get_tv_loss, critic_generator.
  destruct p as [sn en ms ep v cs m el ll r k tr].
  destruct (Py.positive (style_weight c));
  destruct (Py.positive (content_weight c));
  destruct (Py.positive (kld_weight c));
  destruct (Py.positive (mse_weight c));
  destruct (Py.positive (tv_weight c));
  destruct (use_critic c);
  unfold bindM, gets, modify, ret, lift, raise; simpl;
  try (destruct cs as [s|]; [|discriminate];
       destruct (Critic.get_critic_loss model (critic_config c) sn s (pool_4 f))
         as [[s' g]|e]; [|discriminate]; simpl);
  intros H; inversion H; reflexivity.
Qed.

Lemma in_computed (c : config) (t : loss_term) :
  In (ComputeTerm t) (map ComputeTerm (computed c))
  <-> Py.positive (weight c t) = true.
Proof.
  rewrite in_map_iff. unfold computed. split.
  - intros (t' & E & Hin). inversion E; subst t'.
    apply filter_In in Hin. tauto.
  - intros H. exists t. split; [reflexivity|].
    apply filter_In. split; [|exact H].
    destruct t; simpl; tauto.
Qed.

(** C5, as the code has it.  The losses of a step: the total is the sum of
    the five weighted terms and the weighted critic term, a term of weight 0
    contributing exactly 0.  The reconstruction, divergence and
    total-variation terms are computed exactly when their weight is
    positive.  The style and the content term are computed exactly when the
    VGG pass runs, that is when the style weight or the content weight is
    positive or a critic is in use: at weight 0 their getters return 0
    without reading anything, yet the layer losses have been computed. *)
Theorem step_loss_weighted_sum (c : config) (f : forward_pass features)
    (p p' : process params grads opt_state) (l : step_losses) :
  step_loss model get_gradient_penalty loss_gradient optimizer_step c f p
  = (Ok l, p') ->
  exists evs,
    trace p' = trace p ++ evs /\
    evs = (if vgg_in_use c then [ComputeTerm Style; ComputeTerm Content]
           else [])
          ++ map ComputeTerm (computed c) /\
    (forall t, contribution l t = (term c f t * weight c t)%Q) /\
    (forall t, (weight c t == 0)%Q -> (contribution l t == 0)%Q) /\
    (forall t, t = Kld \/ t = Mse \/ t = Tv ->
               (In (ComputeTerm t) evs <-> Py.positive (weight c t) = true)) /\
    (forall t, t = Style \/ t = Content ->
               (In (ComputeTerm t) evs <-> vgg_in_use c = true)) /\
    total l = (contribution l Style + contribution l Content
               + contribution l Kld + contribution l Mse + contribution l Tv
               + critic_gen_loss l)%Q /\
    (if use_critic c then
       exists s0 s s' d g,
         critic p = Some s0 /\
         Critic.step model get_gradient_penalty loss_gradient optimizer_step
           (critic_config c) s0 (pool_4 f) = Ok (s, d) /\
         critic_d_loss l = d /\
         Critic.get_critic_loss model (critic_config c) (step_num p) s
           (pool_4 f) = Ok (s', g) /\
         critic_gen_loss l = (g * critic_weight c)%Q
     else critic_d_loss l = 0%Q /\ critic_gen_loss l = 0%Q).
Proof.
  unfold step_loss. intros H.
  apply bindM_ok in H. destruct H as ([] & p0 & H0 & H).
  rewrite vgg_pass_events in H0. inversion H0 as [Hp0]. clear H0.
  apply bindM_ok in H. destruct H as (d & p1 & H1 & H).
  apply critic_discriminator_state in H1. destruct H1 as (Ht1 & Hs1 & Hc1).
  pose proof (compose_loss_keeps_critic_loss _ _ _ _ _ _ H) as Hd.
  apply compose_loss_terms in H.
  destruct H as (Ht & Hcon & Hzero & Htot & Hcr).
  assert (Htr0 : trace p0
                 = trace p ++ (if vgg_in_use c
                               then [ComputeTerm Style; ComputeTerm Content]
                               else [])).
  { subst p0. destruct (vgg_in_use c); simpl;
      [now rewrite <- app_assoc | now rewrite app_nil_r]. }
  assert (Hsn0 : step_num p0 = step_num p)
    by (subst p0; destruct (vgg_in_use c); reflexivity).
  assert (Hcr0 : critic p0 = critic p)
    by (subst p0; destruct (vgg_in_use c); reflexivity).
  exists ((if vgg_in_use c then [ComputeTerm Style; ComputeTerm Content]
           else [])
          ++ map ComputeTerm (computed c)).
  split; [rewrite Ht, Ht1, Htr0; now rewrite <- app_assoc|].
  split; [reflexivity|].
  split; [exact Hcon|].
  split; [intros t Hw; exact (proj2 (Hzero t Hw))|].
  split.
  { intros t Ht3. rewrite in_app_iff, in_computed. split.
    - intros [Hin|Hin]; [|exact Hin].
      destruct (vgg_in_use c); simpl in Hin;
        destruct Ht3 as [E|[E|E]]; subst t;
        intuition discriminate.
    - intros Hpos. now right. }
  split.
  { intros t Ht2. rewrite in_app_iff, in_computed. split.
    - intros [Hin|Hin].
      + destruct (vgg_in_use c); [reflexivity | contradiction].
      + unfold vgg_in_use. destruct Ht2 as [E|E]; subst t; simpl in Hin;
          rewrite Hin; [reflexivity | apply orb_true_iff; left;
                                      apply orb_true_r].
    - intros Hvgg. left. rewrite Hvgg.
      destruct Ht2 as [E|E]; subst t; simpl; tauto. }
  split; [exact Htot|].
  destruct (use_critic c).
  - destruct Hc1 as (s0 & s & Hs0 & Hstep & Hs).
    destruct Hcr as (s1 & s' & g & Hs1' & Hg & Hgen).
    rewrite Hs in Hs1'. inversion Hs1'; subst s1.
    exists s0, s, s', d, g.
    rewrite <- Hcr0, <- Hsn0, <- Hs1.
    repeat split; assumption.
  - destruct Hc1 as [Hd0 _]. split; [congruence | exact Hcr].
Qed.

End StepLoss.

Lemma step_loss_weighted_sum_witness :
  TrainVAEProcess.step_loss linear_model no_penalty linear_loss_gradient
    gradient_descent vae_job_critic (rising_mse 2) vae_at_2
  = (Ok stepped_at_2, vae_after_step) /\
  exists evs,
    TrainVAEProcess.trace vae_after_step
    = TrainVAEProcess.trace vae_at_2 ++ evs /\
    evs = (if vgg_in_use vae_job_critic
           then [ComputeTerm Style; ComputeTerm Content]
           else [])
          ++ map ComputeTerm (computed vae_job_critic) /\
    (forall t,
        contribution stepped_at_2 t
        = (term vae_job_critic (rising_mse 2) t * weight vae_job_critic t)%Q) /\
    (forall t, (weight vae_job_critic t == 0)%Q ->
               (contribution stepped_at_2 t == 0)%Q) /\
    (forall t, t = Kld \/ t = Mse \/ t = Tv ->
               (In (ComputeTerm t) evs
                <-> Py.positive (weight vae_job_critic t) = true)) /\
    (forall t, t = Style \/ t = Content ->
               (In (ComputeTerm t) evs <-> vgg_in_use vae_job_critic = true)) /\
    TrainVAEProcess.total stepped_at_2
    = (contribution stepped_at_2 Style + contribution stepped_at_2 Content
       + contribution stepped_at_2 Kld + contribution stepped_at_2 Mse
       + contribution stepped_at_2 Tv
       + TrainVAEProcess.critic_gen_loss stepped_at_2)%Q /\
    (if TrainVAEProcess.use_critic vae_job_critic then
       exists s0 s s' d g,
         TrainVAEProcess.critic vae_at_2 = Some s0 /\
         Critic.step linear_model no_penalty linear_loss_gradient
           gradient_descent (TrainVAEProcess.critic_config vae_job_critic) s0
           (TrainVAEProcess.pool_4 (rising_mse 2)) = Ok (s, d) /\
         TrainVAEProcess.critic_d_loss stepped_at_2 = d /\
         Critic.get_critic_loss linear_model
           (TrainVAEProcess.critic_config vae_job_critic)
           (TrainVAEProcess.step_num vae_at_2) s
           (TrainVAEProcess.pool_4 (rising_mse 2)) = Ok (s', g) /\
         TrainVAEProcess.critic_gen_loss stepped_at_2
         = (g * TrainVAEProcess.critic_weight vae_job_critic)%Q
     else TrainVAEProcess.critic_d_loss stepped_at_2 = 0%Q
          /\ TrainVAEProcess.critic_gen_loss stepped_at_2 = 0%Q).
Proof.
  assert (H : TrainVAEProcess.step_loss linear_model no_penalty
                linear_loss_gradient gradient_descent vae_job_critic
                (rising_mse 2) vae_at_2
              = (Ok stepped_at_2, vae_after_step)) by reflexivity.
  split; [exact H|].
  exact (step_loss_weighted_sum Q Q Q unit linear_model no_penalty
           linear_loss_gradient gradient_descent vae_job_critic (rising_mse 2)
           vae_at_2 vae_after_step stepped_at_2 H).
Defined.

(** The claim as the specification words it fails: in the job with a critic
    the style and the content weight are both 0, and both terms contribute
    0, yet the VGG pass of the step computes their layer losses. *)
Lemma zero_weight_style_computed :
  (weight vae_job_critic Style == 0)%Q /\
  (weight vae_job_critic Content == 0)%Q /\
  TrainVAEProcess.step_loss linear_model no_penalty linear_loss_gradient
    gradient_descent vae_job_critic (rising_mse 2) vae_at_2
  = (Ok stepped_at_2, vae_after_step) /\
  TrainVAEProcess.trace vae_after_step
  = [ComputeTerm Style; ComputeTerm Content; ComputeTerm Mse; ComputeTerm Tv] /\
  (contribution stepped_at_2 Style == 0)%Q /\
  (contribution stepped_at_2 Content == 0)%Q.
Proof. vm_compute. repeat split. Qed.

(** ** Retention of step saves *)



